(** * pyvista.core.pointset: a shallow embedding

    The Python module [pyvista/core/pointset.py] wraps four VTK classes
    ([vtkPointSet], [vtkPolyData], [vtkUnstructuredGrid],
    [vtkStructuredGrid]).  This development embeds the wrapper's own logic:
    constructor dispatch on argument types, conversion between NumPy
    arrays and VTK cell arrays, and the size checks.

    Layout of the file:
    - Python exceptions and the result monad;
    - NumPy arrays (dtype, shape, C-ordered data) and the array operations
      the module calls;
    - the VTK objects the wrapper stores into and reads from, Python
      values, and the store of mesh objects;
    - what the module imports, as a class, with stand-ins and sample
      inputs to run the embedding;
    - the functions of [pointset.py], in source order;
    - the vocabulary of the properties, and the properties;
    - the properties on concrete inputs. *)

From stdpp Require Import base numbers option list gmap strings fin_maps.

Open Scope Z_scope.

(** ** Python exceptions *)

(** An exception is its class and the fixed part of its message. *)
Inductive exn :=
| ValueError (msg : string)
| TypeError (msg : string)
| IndexError (msg : string)
| AttributeError (msg : string)
| OtherError (msg : string).

Inductive result (A : Type) :=
| Ok (a : A)
| Raise (e : exn).
Arguments Ok {A} a.
Arguments Raise {A} e.

#[global] Instance result_ret : MRet result := fun A a => Ok a.
#[global] Instance result_bind : MBind result := fun A B f m =>
  match m with
  | Ok a => f a
  | Raise e => Raise e
  end.

(** ** NumPy arrays *)

Inductive np_dtype :=
| np_bool
| np_int8 | np_int16 | np_int32 | np_int64
| np_uint8 | np_uint16 | np_uint32 | np_uint64
| np_float32 | np_float64.

#[global] Instance np_dtype_eq_dec : EqDecision np_dtype.
Proof. solve_decision. Defined.

(** [pyvista.ID_TYPE]: the dtype of VTK ids. *)
Definition ID_TYPE : np_dtype := np_int64.

Definition is_float (d : np_dtype) : bool :=
  match d with np_float32 | np_float64 => true | _ => false end.

(** Width and signedness of the integer dtypes. *)
Definition int_bits (d : np_dtype) : Z :=
  match d with
  | np_int8 | np_uint8 => 8
  | np_int16 | np_uint16 => 16
  | np_int32 | np_uint32 => 32
  | _ => 64
  end.

Definition is_signed (d : np_dtype) : bool :=
  match d with
  | np_int8 | np_int16 | np_int32 | np_int64 => true
  | _ => false
  end.

(** Two's complement wrap-around of [v] into the range of integer dtype [d]. *)
Definition wrap (d : np_dtype) (v : Z) : Z :=
  let m := 2 ^ int_bits d in
  if is_signed d then (v + m / 2) mod m - m / 2 else v mod m.

(** An array element is the integer its bytes encode: the value itself for
    the boolean (0 or 1) and integer dtypes, the IEEE bit pattern for the
    floating dtypes.  Moving elements is exact in every dtype. *)
Record ndarray := mk_ndarray {
  dtype : np_dtype;
  shape : list nat;
  data : list Z          (* C (row-major) order *)
}.

Definition prod_list (s : list nat) : nat := foldr Nat.mul 1%nat s.

(** [a.size], [a.ndim] *)
Definition np_size (a : ndarray) : nat := prod_list (shape a).
Definition np_ndim (a : ndarray) : nat := length (shape a).

(** [len(a)]: the extent of the first axis. *)
Definition np_len (a : ndarray) : Z :=
  match shape a with
  | n :: _ => Z.of_nat n
  | [] => 0
  end.

(** The invariant NumPy keeps: as many elements as the shape says. *)
Definition nd_wf (a : ndarray) : Prop := length (data a) = np_size a.

(** Value range of a dtype (every bit pattern is a float). *)
Definition in_range (d : np_dtype) (v : Z) : Prop :=
  match d with
  | np_bool => v = 0 \/ v = 1
  | np_float32 | np_float64 => True
  | _ => wrap d v = v
  end.

Section NumPy.
(** Conversions to or from a floating dtype are IEEE arithmetic and stay
    a parameter: [float_convert src dst v]. *)
Variable float_convert : np_dtype -> np_dtype -> Z -> Z.

(** Element conversion done by [astype] and by assignment into an array of
    another dtype (NumPy casts such assignments with the unsafe rule). *)
Definition convert (src dst : np_dtype) (v : Z) : Z :=
  if decide (src = dst) then v
  else if is_float src || is_float dst then float_convert src dst v
  else match dst with
       | np_bool => if v =? 0 then 0 else 1
       | _ => wrap dst v
       end.

(** [a.astype(d)] *)
Definition astype (d : np_dtype) (a : ndarray) : ndarray :=
  {| dtype := d; shape := shape a; data := map (convert (dtype a) d) (data a) |}.
End NumPy.

(** [np.zeros(n, dt)] and [np.empty(shape, dt)]; the contents of an empty
    array are unspecified, every use below overwrites all of them. *)
Definition np_zeros (n : nat) (d : np_dtype) : ndarray :=
  {| dtype := d; shape := [n]; data := replicate n 0 |}.

Definition np_empty (s : list nat) (d : np_dtype) : ndarray :=
  {| dtype := d; shape := s; data := replicate (prod_list s) 0 |}.

(** [np.arange(n, dtype=d)] *)
Definition np_arange (n : nat) (d : np_dtype) : ndarray :=
  {| dtype := d; shape := [n]; data := map Z.of_nat (seq 0 n) |}.

(** [a.ravel()] (C order): the data as a flat array. *)
Definition ravel (a : ndarray) : ndarray :=
  {| dtype := dtype a; shape := [np_size a]; data := data a |}.

(** Splitting a flat list into [m] consecutive chunks of [k] elements. *)
Fixpoint chunks (k m : nat) (l : list Z) : list (list Z) :=
  match m with
  | O => []
  | S m' => take k l :: chunks k m' (drop k l)
  end.

(** Transposition of a matrix given by rows into its [k] columns. *)
Fixpoint transpose (k : nat) (rows : list (list Z)) : list (list Z) :=
  match k with
  | O => []
  | S k' => map (hd 0) rows :: transpose k' (map (@tl Z) rows)
  end.

(** Fortran-order flattening of C-ordered data of shape [s]: the first
    index varies fastest.  For [n :: s'] the data are [n] blocks of shape
    [s']; flattening each and reading the results column by column gives
    the elements with the first index innermost. *)
Fixpoint ravel_F_data (s : list nat) (d : list Z) : list Z :=
  match s with
  | [] => d
  | n :: s' =>
      let p := prod_list s' in
      concat (transpose p (map (ravel_F_data s') (chunks p n d)))
  end.

(** The inverse reading: C-ordered data of the array of shape [s] whose
    Fortran-order flattening is [f]. *)
Fixpoint reshape_F_data (s : list nat) (f : list Z) : list Z :=
  match s with
  | [] => f
  | n :: s' =>
      let p := prod_list s' in
      concat (map (reshape_F_data s') (transpose n (chunks n p f)))
  end.

(** [a.ravel('F')] *)
Definition ravel_F (a : ndarray) : ndarray :=
  {| dtype := dtype a; shape := [np_size a]; data := ravel_F_data (shape a) (data a) |}.

(** [a.reshape(s, order='F')] for a one-dimensional [a]. *)
Definition reshape_F (s : list nat) (a : ndarray) : result ndarray :=
  if decide (prod_list s = np_size a) then
    Ok {| dtype := dtype a; shape := s; data := reshape_F_data s (data a) |}
  else Raise (ValueError "cannot reshape array").

(** [a.reshape(shape, order='F')] for a shape of integers.  A negative
    extent stands for the unknown one, which NumPy infers from the size
    of the array; there may be one at most. *)
Definition infer_shape (s : list Z) (sz : nat) : result (list nat) :=
  match filter (fun d => d < 0) s with
  | [] => Ok (map Z.to_nat s)
  | [_] =>
      let known := prod_list (map Z.to_nat (filter (fun d => 0 <= d) s)) in
      if decide (known = 0%nat \/ (sz mod known <> 0)%nat)
      then Raise (ValueError "cannot reshape array")
      else Ok (map (fun d => if d <? 0 then (sz / known)%nat else Z.to_nat d) s)
  | _ => Raise (ValueError "can only specify one unknown dimension")
  end.

Definition reshape_F_any (s : list Z) (a : ndarray) : result ndarray :=
  s ← infer_shape s (np_size a);
  reshape_F s (ravel_F a).

(** Columns of a two-dimensional array [a] of shape [(n, m)]: [a[:, k]]
    read, and the assignments [a[:, k] = v] (scalar, broadcast) and
    [a[:, k] = vals] (one value per row, already of [a]'s dtype). *)
Definition rows_of (a : ndarray) : list (list Z) :=
  match shape a with
  | [n; m] => chunks m n (data a)
  | _ => []
  end.

Definition get_column (a : ndarray) (k : nat) : ndarray :=
  let col := map (fun row => nth k row 0) (rows_of a) in
  {| dtype := dtype a; shape := [length col]; data := col |}.

Definition fill_column (a : ndarray) (k : nat) (v : Z) : ndarray :=
  {| dtype := dtype a; shape := shape a;
     data := concat (map (fun row => <[k := v]> row) (rows_of a)) |}.

Definition assign_column (a : ndarray) (k : nat) (vals : list Z) : result ndarray :=
  if decide (length vals = length (rows_of a)) then
    Ok {| dtype := dtype a; shape := shape a;
          data := concat (zip_with (fun row v => <[k := v]> row) (rows_of a) vals) |}
  else Raise (ValueError "could not broadcast input array").

(** [a.reshape(-1, 4)[:, 0]] on a flat list whose length is a multiple of 4. *)
Fixpoint first_of_four (l : list Z) : list Z :=
  match l with
  | c :: _ :: _ :: _ :: rest => c :: first_of_four rest
  | _ => []
  end.

(** ** VTK objects

    What the wrapper stores into VTK and reads back, following the VTK
    documentation of the calls it makes. *)

(** [vtkCellArray].  Before VTK 9 a cell array is a cell count and the
    flat id array in which every cell is prefixed by its point count.
    VTK 9 stores an offsets array and a connectivity array; the flat
    array is imported and exported on demand. *)
Inductive vtkCellArray :=
| LegacyCells (ncells : Z) (ia : list Z)
| OffsetCells (offsets connectivity : list Z).

(** The count-prefixed flat encoding of a list of cells. *)
Definition padded (cells : list (list Z)) : list Z :=
  flat_map (fun c => Z.of_nat (length c) :: c) cells.

(** Walking a flat array cell by cell, as [ImportLegacyFormat] does.  An
    array that is not count-prefixed (a negative count, or a count past
    the end) has no reading. *)
Fixpoint parse_legacy (fuel : nat) (ia : list Z) : option (list (list Z)) :=
  match ia with
  | [] => Some []
  | n :: rest =>
      match fuel with
      | O => None
      | S fuel' =>
          if bool_decide (0 <= n <= Z.of_nat (length rest)) then
            cs ← parse_legacy fuel' (drop (Z.to_nat n) rest);
            Some (take (Z.to_nat n) rest :: cs)
          else None
      end
  end.

Fixpoint offsets_from (o : Z) (cells : list (list Z)) : list Z :=
  match cells with
  | [] => [o]
  | c :: cs => o :: offsets_from (o + Z.of_nat (length c)) cs
  end.

Definition ImportLegacyFormat (ia : list Z) : option vtkCellArray :=
  cells ← parse_legacy (length ia) ia;
  Some (OffsetCells (offsets_from 0 cells) (concat cells)).

Fixpoint ExportLegacyFormat (offsets conn : list Z) : list Z :=
  match offsets with
  | o1 :: rest =>
      match rest with
      | o2 :: _ =>
          (o2 - o1) :: take (Z.to_nat (o2 - o1)) (drop (Z.to_nat o1) conn)
            ++ ExportLegacyFormat rest conn
      | [] => []
      end
  | [] => []
  end.

Definition GetNumberOfCells (c : vtkCellArray) : Z :=
  match c with
  | LegacyCells n _ => n
  | OffsetCells offs _ => Z.of_nat (length offs) - 1
  end.

(** [GetData()]: the flat count-prefixed id array. *)
Definition GetData (c : vtkCellArray) : list Z :=
  match c with
  | LegacyCells _ ia => ia
  | OffsetCells offs conn => ExportLegacyFormat offs conn
  end.

(** [GetOffsetsArray()] and [GetConnectivityArray()] exist from VTK 9 on
    and are only called there. *)
Definition GetOffsetsArray (c : vtkCellArray) : list Z :=
  match c with
  | LegacyCells _ _ => []
  | OffsetCells offs _ => offs
  end.

Definition GetConnectivityArray (c : vtkCellArray) : list Z :=
  match c with
  | LegacyCells _ _ => []
  | OffsetCells _ conn => conn
  end.

(** [vtkPoints]: an array with one row of three coordinates per point. *)
Record vtkPoints := mk_vtkPoints { pts_data : ndarray }.

Definition GetNumberOfPoints (p : vtkPoints) : Z :=
  match shape (pts_data p) with
  | n :: _ => Z.of_nat n
  | [] => 0
  end.

(** A fresh [vtkPoints()] holds no point; its coordinates are floats. *)
Definition vtkPoints_new : vtkPoints :=
  {| pts_data := {| dtype := np_float32; shape := [0%nat; 3%nat]; data := [] |} |}.

Record vtkPolyData := mk_vtkPolyData {
  pd_points : option vtkPoints;
  pd_verts : vtkCellArray;
  pd_lines : vtkCellArray;
  pd_polys : vtkCellArray;
  pd_strips : vtkCellArray
}.

Record vtkUnstructuredGrid := mk_vtkUnstructuredGrid {
  ug_points : option vtkPoints;
  ug_types : list Z;               (* GetCellTypesArray, unsigned chars *)
  ug_cells : vtkCellArray;         (* GetCells *)
  ug_locations : list Z            (* GetCellLocationsArray *)
}.

Record vtkStructuredGrid := mk_vtkStructuredGrid {
  sg_dims : list Z;                (* GetDimensions *)
  sg_points : option vtkPoints;
  sg_cell_arrays : gmap string ndarray
}.

(** ** Python values

    The constructors dispatch on the run-time type of their arguments. *)
#[local] Set Warnings "-register-all".
Inductive PyObj :=
| PyNone
| PyBool (b : bool)
| PyInt (z : Z)
| PyStr (s : string)
| PyPath (s : string)                       (* pathlib.Path *)
| PyList (items : list PyObj)
| PyDict (items : list (PyObj * PyObj))     (* in insertion order *)
| PyNdarray (a : ndarray)
| PyVtkPolyData (pyvista_class : bool) (m : vtkPolyData)
| PyVtkUnstructuredGrid (g : vtkUnstructuredGrid)
| PyVtkStructuredGrid (g : vtkStructuredGrid)
| PyOther (type_name : string) (truth : bool).
    (* an object of any other class (a tuple, a float, a set, ...) and
       what [bool(x)] gives on it *)

(** [x is None], [x is not None] *)
Definition is_None (o : PyObj) : bool :=
  match o with PyNone => true | _ => false end.

(** [isinstance(x, np.ndarray)] *)
Definition is_ndarray (o : PyObj) : bool :=
  match o with PyNdarray _ => true | _ => false end.

(** Truth value of an object, as [if x:] tests it. *)
Definition truthy (o : PyObj) : result bool :=
  match o with
  | PyNone => Ok false
  | PyBool b => Ok b
  | PyInt z => Ok (negb (z =? 0))
  | PyStr s => Ok (negb (String.eqb s ""))
  | PyList l => Ok (match l with [] => false | _ => true end)
  | PyDict l => Ok (match l with [] => false | _ => true end)
  | PyNdarray a =>
      match data a with
      | [] => Ok false
      | [v] => Ok (negb (v =? 0))
      | _ => Raise (ValueError "The truth value of an array with more than one element is ambiguous")
      end
  | PyOther _ truth => Ok truth
  | PyPath _ | PyVtkPolyData _ _ | PyVtkUnstructuredGrid _ | PyVtkStructuredGrid _ =>
      Ok true     (* a path or a VTK data object *)
  end.

(** A one-dimensional array of VTK ids, as [vtk_to_numpy] returns it. *)
Definition id_array (l : list Z) : ndarray :=
  {| dtype := ID_TYPE; shape := [length l]; data := l |}.

(** The argument of the [verts], [lines] and [faces] setters: a
    [CellArray] instance or any other object. *)
Inductive cells_arg :=
| IsCellArray (c : vtkCellArray)
| NotCellArray (o : PyObj).

(** ** Index assignment [a[ind] = v] on a one-dimensional array

    NumPy reads [ind] as a boolean mask of the array's own shape, or as
    integer positions (negative ones count from the end); [None] and
    [True] select every element, [False] none. *)
Definition normalize_index (n : nat) (i : Z) : option nat :=
  if bool_decide (0 <= i < Z.of_nat n) then Some (Z.to_nat i)
  else if bool_decide (- Z.of_nat n <= i < 0) then Some (Z.to_nat (i + Z.of_nat n))
  else None.

Fixpoint assign_indices (l : list Z) (inds : list Z) (v : Z) : option (list Z) :=
  match inds with
  | [] => Some l
  | i :: rest =>
      k ← normalize_index (length l) i;
      assign_indices (<[k := v]> l) rest v
  end.

Definition assign_mask (l mask : list Z) (v : Z) : list Z :=
  zip_with (fun old m => if m =? 0 then old else v) l mask.

(** A list of Python booleans, and a list of integers (a boolean among
    integers counts as 0 or 1). *)
Fixpoint bools_of (items : list PyObj) : option (list Z) :=
  match items with
  | [] => Some []
  | PyBool b :: rest => bs ← bools_of rest; Some ((if b then 1 else 0) :: bs)
  | _ => None
  end.

Fixpoint ints_of (items : list PyObj) : option (list Z) :=
  match items with
  | [] => Some []
  | PyInt i :: rest => zs ← ints_of rest; Some (i :: zs)
  | PyBool b :: rest => zs ← ints_of rest; Some ((if b then 1 else 0) :: zs)
  | _ => None
  end.

Definition with_data (a : ndarray) (d : list Z) : ndarray :=
  {| dtype := dtype a; shape := shape a; data := d |}.

Definition assign_at (a : ndarray) (inds : list Z) (v : Z) : result ndarray :=
  match assign_indices (data a) inds v with
  | Some d => Ok (with_data a d)
  | None => Raise (IndexError "index is out of bounds")
  end.

Definition setitem (a : ndarray) (ind : PyObj) (v : Z) : result ndarray :=
  match ind with
  | PyNdarray i =>
      if decide (dtype i = np_bool) then
        if decide (shape i = shape a) then Ok (with_data a (assign_mask (data a) (data i) v))
        else Raise (IndexError "boolean index did not match indexed array")
      else if is_float (dtype i) then
        Raise (IndexError "arrays used as indices must be of integer (or boolean) type")
      else assign_at a (data i) v
  | PyList [] => Ok a
  | PyList items =>
      match bools_of items, ints_of items with
      | Some mask, _ =>
          if decide (length mask = length (data a))
          then Ok (with_data a (assign_mask (data a) mask v))
          else Raise (IndexError "boolean index did not match indexed array")
      | None, Some inds => assign_at a inds v
      | None, None => Raise (IndexError "only integers, slices and integer or boolean arrays are valid indices")
      end
  | PyInt i => assign_at a [i] v
  | PyNone | PyBool true => Ok (with_data a (map (fun _ => v) (data a)))
  | PyBool false => Ok a
  | _ => Raise (IndexError "only integers, slices and integer or boolean arrays are valid indices")
  end.

(** ** Data sets with cell data

    [PointSet.remove_cells] sees a mesh through its number of cells, its
    cell data arrays and [RemoveGhostCells]: a data set is modelled as its
    class, the list of its cells (type and point ids) and its cell
    arrays.  [PointSet] is the base class of the polygonal meshes and of
    both kinds of grids. *)
Inductive mesh_class := PolyDataMesh | UnstructuredGridMesh | StructuredGridMesh.

#[global] Instance mesh_class_eq_dec : EqDecision mesh_class.
Proof. solve_decision. Defined.

Record DataSet := mk_DataSet {
  ds_class : mesh_class;
  ds_cells : list (Z * list Z);
  ds_cell_arrays : gmap string ndarray
}.

(** [vtkDataSetAttributes.DUPLICATECELL], [HIDDENCELL], [GhostArrayName()] *)
Definition DUPLICATECELL : Z := 1.
Definition HIDDENCELL : Z := 32.
Definition GhostArrayName : string := "vtkGhostType".

(** Entries of [l] whose flag is set. *)
Definition select {A} (keep : list bool) (l : list A) : list A :=
  map snd (filter (fun p => fst p = true) (zip keep l)).

(** Rows (first axis) of [a] whose flag is set. *)
Definition select_rows (keep : list bool) (a : ndarray) : ndarray :=
  match shape a with
  | n :: rest =>
      let kept := select keep (chunks (prod_list rest) n (data a)) in
      {| dtype := dtype a; shape := length kept :: rest; data := concat kept |}
  | [] => a
  end.

(** [RemoveGhostCells()]: drops every cell whose ghost value has the
    duplicate bit, together with its entry in each cell array, and
    removes the ghost array; without a ghost array nothing happens.  On a
    structured grid the call has no effect at all, as the note in
    [StructuredGrid.hide_cells] records: "cells cannot be removed from a
    structured grid, only hidden". *)
Definition RemoveGhostCells (m : DataSet) : DataSet :=
  match ds_class m, ds_cell_arrays m !! GhostArrayName with
  | StructuredGridMesh, _ => m
  | _, Some ghost =>
      let keep := map (fun g => Z.land g DUPLICATECELL =? 0) (data ghost) in
      {| ds_class := ds_class m;
         ds_cells := select keep (ds_cells m);
         ds_cell_arrays := delete GhostArrayName (select_rows keep <$> ds_cell_arrays m) |}
  | _, None => m
  end.

(** Modelled from the spec: [mesh.cell_arrays[name] = array], the item
    assignment of [DataSetAttributes] ([pyvista/core/datasetattributes.py],
    outside [pointset.py]), stores the array under the name. *)
Definition set_cell_array (name : string) (a : ndarray) (m : DataSet) : DataSet :=
  {| ds_class := ds_class m; ds_cells := ds_cells m;
     ds_cell_arrays := <[name := a]> (ds_cell_arrays m) |}.

(** Python objects live in a store; a variable holds a location. *)
Abbreviation loc := positive.
Abbreviation store := (gmap positive DataSet).

(** Modelled from the spec: [DataSet.copy] ([pyvista/core/dataset.py],
    outside [pointset.py]), called as [self.copy()]: a new object with the
    same contents. *)
Definition copy (h : store) (m : DataSet) : store * loc :=
  let l := fresh (dom h) in (<[l := m]> h, l).

(** ** Reading and writing through index arrays

    [a == v] compares element by element and [a[mask] = v] writes [v]
    where the mask is set.  [a[mask]] keeps the flagged entries and needs
    one flag per entry.  [a[inds]] reads, and [a[inds] = vals] writes, the
    entries at integer positions in the order of [inds], so that the last
    write to a position wins; [vals] holds one value per position or a
    single value for all of them. *)
Definition equals (a : list Z) (v : Z) : list bool :=
  map (fun t => t =? v) a.

Definition put_mask (a : list Z) (mask : list bool) (v : Z) : list Z :=
  zip_with (fun old (m : bool) => if m then v else old) a mask.

(** [np.any(mask)] *)
Definition np_any (mask : list bool) : bool := existsb id mask.

Definition mask_index (a : list Z) (mask : list bool) : result (list Z) :=
  if decide (length mask = length a) then Ok (select mask a)
  else Raise (IndexError "boolean index did not match indexed array").

Fixpoint take_at (a : list Z) (inds : list Z) : result (list Z) :=
  match inds with
  | [] => Ok []
  | i :: rest =>
      match normalize_index (length a) i ≫= (fun k => a !! k) with
      | Some v => vs ← take_at a rest; Ok (v :: vs)
      | None => Raise (IndexError "index is out of bounds")
      end
  end.

Fixpoint put_pairs (a : list Z) (pairs : list (Z * Z)) : result (list Z) :=
  match pairs with
  | [] => Ok a
  | (i, v) :: rest =>
      match normalize_index (length a) i with
      | Some k => put_pairs (<[k := v]> a) rest
      | None => Raise (IndexError "index is out of bounds")
      end
  end.

Definition put_at (a : list Z) (inds vals : list Z) : result (list Z) :=
  if decide (length vals = length inds) then put_pairs a (zip inds vals)
  else match vals with
       | [v] => put_pairs a (map (fun i => (i, v)) inds)
       | _ => Raise (ValueError "shape mismatch: value array could not be broadcast to indexing result")
       end.

(** [a + k] and [a[:-1]] *)
Definition add_to (a : list Z) (k : Z) : list Z := map (fun o => o + k) a.

Definition all_but_last (a : list Z) : list Z := take (length a - 1) a.

(** ** The imports of the module *)

(** What the module imports from outside [pointset.py]: the VTK version
    flag [_vtk.VTK9], conversions to or from floating dtypes,
    [pyvista.vtk_points], [np.array] on an object that is not yet an
    array, the file readers behind [_from_file],
    [pyvista.utilities.cells.generate_cell_offsets], the [vtkAppendFilter]
    pipeline and the table [enum_cell_type_nr_points_map] of points per
    fixed-size cell type. *)
Class Imports := {
  VTK9 : bool;
  float_convert : np_dtype -> np_dtype -> Z -> Z;
  vtk_points : ndarray -> bool -> result vtkPoints;
  np_array : PyObj -> result ndarray;
  PolyData_from_file : string -> result vtkPolyData;
  UnstructuredGrid_from_file : string -> result vtkUnstructuredGrid;
  StructuredGrid_from_file : string -> result vtkStructuredGrid;
  generate_cell_offsets : ndarray -> ndarray -> result ndarray;
  vtkAppendFilter : vtkStructuredGrid -> vtkUnstructuredGrid;
  enum_cell_type_nr_points_map : Z -> option nat
}.

(** ** Stand-ins for the imports

    The module below is parameterised by what it imports.  These simple
    instances let the embedding run on concrete inputs. *)
Definition float_convert_same : np_dtype -> np_dtype -> Z -> Z :=
  fun _ _ v => v.

Definition vtk_points_wrap (a : ndarray) (deep : bool) : result vtkPoints :=
  match shape a with
  | [_; 3%nat] => Ok {| pts_data := a |}
  | _ => Raise (ValueError "Points array must contain three values per point")
  end.

Definition np_array_unsupported (o : PyObj) : result ndarray :=
  Raise (TypeError "object is not array-like").

Definition no_file {A} (filename : string) : result A :=
  Raise (OtherError "file not found").

Definition no_offsets (cells cell_type : ndarray) : result ndarray :=
  Raise (ValueError "cannot generate offsets").

Definition append_nothing (g : vtkStructuredGrid) : vtkUnstructuredGrid :=
  {| ug_points := sg_points g; ug_types := []; ug_cells := OffsetCells [0] [];
     ug_locations := [] |}.

(** Points per cell for some fixed-size VTK cell types (vertex, line,
    triangle, quad, tetra, hexahedron, wedge, pyramid). *)
Definition nr_points_table (t : Z) : option nat :=
  match t with
  | 1 => Some 1%nat
  | 3 => Some 2%nat
  | 5 => Some 3%nat
  | 9 => Some 4%nat
  | 10 => Some 4%nat
  | 12 => Some 8%nat
  | 13 => Some 6%nat
  | 14 => Some 5%nat
  | _ => None
  end.

(** The stand-ins as one instance, for either VTK generation. *)
Definition stand_in (vtk9 : bool) : Imports :=
  {| VTK9 := vtk9;
     float_convert := float_convert_same;
     vtk_points := vtk_points_wrap;
     np_array := np_array_unsupported;
     PolyData_from_file := no_file;
     UnstructuredGrid_from_file := no_file;
     StructuredGrid_from_file := no_file;
     generate_cell_offsets := no_offsets;
     vtkAppendFilter := append_nothing;
     enum_cell_type_nr_points_map := nr_points_table |}.

(** The stand-ins under VTK 9 with a reader that finds the polygonal mesh
    [m] in every file. *)
Definition stand_in_reading (m : vtkPolyData) : Imports :=
  {| VTK9 := true;
     float_convert := float_convert_same;
     vtk_points := vtk_points_wrap;
     np_array := np_array_unsupported;
     PolyData_from_file := fun _ => Ok m;
     UnstructuredGrid_from_file := no_file;
     StructuredGrid_from_file := no_file;
     generate_cell_offsets := no_offsets;
     vtkAppendFilter := append_nothing;
     enum_cell_type_nr_points_map := nr_points_table |}.

(** The IEEE double nearest to an integer, as a bit pattern: sign bit,
    biased exponent, fraction.  Exact for magnitudes up to [2^53]. *)
Definition to_double (v : Z) : Z :=
  if v =? 0 then 0
  else
    let a := Z.abs v in
    let e := Z.log2 a in
    (if v <? 0 then 2 ^ 63 else 0) + Z.shiftl (e + 1023) 52 + (Z.shiftl a (52 - e) - 2 ^ 52).

(** A conversion that turns integers into doubles and leaves every other
    element as it is. *)
Definition float_convert_integers : np_dtype -> np_dtype -> Z -> Z :=
  fun src dst v =>
    if negb (is_float src) && bool_decide (dst = np_float64) then to_double v else v.

(** The stand-ins under VTK 9 with that conversion. *)
Definition stand_in_converting : Imports :=
  {| VTK9 := true;
     float_convert := float_convert_integers;
     vtk_points := vtk_points_wrap;
     np_array := np_array_unsupported;
     PolyData_from_file := no_file;
     UnstructuredGrid_from_file := no_file;
     StructuredGrid_from_file := no_file;
     generate_cell_offsets := no_offsets;
     vtkAppendFilter := append_nothing;
     enum_cell_type_nr_points_map := nr_points_table |}.

(** ** A reading of the encodings

    The number an element stands for, as [m * 2^e] with [m] odd, or
    [(0, 0)] for zero: an element of a boolean or integer dtype is the
    integer itself, an element of a floating dtype is read from its sign,
    exponent and fraction fields; infinities and NaNs have no value. *)
Fixpoint odd_part (fuel : nat) (m e : Z) : Z * Z :=
  match fuel with
  | O => (m, e)
  | S fuel' =>
      if m =? 0 then (0, 0)
      else if Z.even m then odd_part fuel' (m / 2) (e + 1)
      else (m, e)
  end.

Definition dyadic (m e : Z) : Z * Z := odd_part 64 m e.

Definition float_value (exp_bits frac_bits : Z) (v : Z) : option (Z * Z) :=
  let frac := Z.land v (Z.ones frac_bits) in
  let ex := Z.land (Z.shiftr v frac_bits) (Z.ones exp_bits) in
  let sign := if Z.testbit v (exp_bits + frac_bits) then -1 else 1 in
  let bias := Z.ones (exp_bits - 1) in
  if ex =? Z.ones exp_bits then None
  else if ex =? 0 then Some (dyadic (sign * frac) (1 - bias - frac_bits))
  else Some (dyadic (sign * (2 ^ frac_bits + frac)) (ex - bias - frac_bits)).

Definition ieee_value (d : np_dtype) (v : Z) : option (Z * Z) :=
  match d with
  | np_float32 => float_value 8 23 v
  | np_float64 => float_value 11 52 v
  | _ => Some (dyadic v 0)
  end.

(** ** Sample inputs *)

(** The corners of the unit square, as a points array of shape (4, 3). *)
Definition square_points : ndarray :=
  {| dtype := np_int64; shape := [4%nat; 3%nat];
     data := [0; 0; 0;  1; 0; 0;  1; 1; 0;  0; 1; 0] |}.

(** Two triangles over the square, count-prefixed. *)
Definition two_triangles : ndarray :=
  {| dtype := np_int64; shape := [8%nat]; data := [3; 0; 1; 2; 3; 0; 2; 3] |}.

(** Their cell types ([VTK_TRIANGLE] is 5). *)
Definition triangle_types : ndarray :=
  {| dtype := np_uint8; shape := [2%nat]; data := [5; 5] |}.

(** The grid of the two triangles as VTK 9 holds it. *)
Definition triangle_grid : vtkUnstructuredGrid :=
  {| ug_points := Some {| pts_data := square_points |};
     ug_types := [5; 5];
     ug_cells := OffsetCells [0; 3; 6] [0; 1; 2; 0; 2; 3];
     ug_locations := [] |}.

(** A cells dictionary: two triangles and one line ([VTK_LINE] is 3). *)
Definition triangles_and_line : list (Z * ndarray) :=
  [(5, {| dtype := np_int64; shape := [2%nat; 3%nat]; data := [0; 1; 2; 0; 2; 3] |});
   (3, {| dtype := np_int64; shape := [1%nat; 2%nat]; data := [0; 1] |})].

(** A cells dictionary whose only array has no row. *)
Definition no_triangles : list (Z * ndarray) :=
  [(5, {| dtype := np_int64; shape := [0%nat; 3%nat]; data := [] |})].

(** A mesh of two cells with one cell array, held at location 1. *)
Definition two_cell_mesh : DataSet :=
  {| ds_class := PolyDataMesh;
     ds_cells := [(5, [0; 1; 2]); (5, [0; 2; 3])];
     ds_cell_arrays := {[ "quality" := {| dtype := np_int64; shape := [2%nat];
                                          data := [10; 20] |} ]} |}.

Definition one_mesh_store : gmap positive DataSet := {[ 1%positive := two_cell_mesh ]}.

(** A structured grid of 3 x 2 x 1 points, two quadrilateral cells
    ([VTK_QUAD] is 9), held at location 1. *)
Definition two_cell_grid : DataSet :=
  {| ds_class := StructuredGridMesh;
     ds_cells := [(9, [0; 1; 4; 3]); (9, [1; 2; 5; 4])];
     ds_cell_arrays := ∅ |}.

Definition one_grid_store : gmap positive DataSet := {[ 1%positive := two_cell_grid ]}.

(** A boolean mask with three entries. *)
Definition mask_of_three : ndarray :=
  {| dtype := np_bool; shape := [3%nat]; data := [1; 0; 1] |}.

(** Coordinate arrays of shape (2, 3). *)
Definition grid_x : ndarray :=
  {| dtype := np_int64; shape := [2%nat; 3%nat]; data := [0; 1; 2; 0; 1; 2] |}.
Definition grid_y : ndarray :=
  {| dtype := np_int64; shape := [2%nat; 3%nat]; data := [0; 0; 0; 1; 1; 1] |}.
Definition grid_z : ndarray :=
  {| dtype := np_int64; shape := [2%nat; 3%nat]; data := [7; 7; 7; 7; 7; 7] |}.

Definition wide_z : ndarray := {| dtype := np_int64; shape := [1%nat]; data := [0] |}.

(** Coordinate arrays of two points whose dtypes differ without loss: [x]
    holds the doubles 1.0 and 2.0, [y] the integers 1 and 3, [z] the
    integers 0 and -2. *)
Definition float_x : ndarray :=
  {| dtype := np_float64; shape := [2%nat];
     data := [4607182418800017408; 4611686018427387904] |}.
Definition int_y : ndarray := {| dtype := np_int64; shape := [2%nat]; data := [1; 3] |}.
Definition int_z : ndarray := {| dtype := np_int64; shape := [2%nat]; data := [0; -2] |}.

(** A polygonal mesh of the two triangles over the square, as VTK 9
    holds it. *)
Definition triangle_mesh : vtkPolyData :=
  {| pd_points := Some {| pts_data := square_points |};
     pd_verts := OffsetCells [0] []; pd_lines := OffsetCells [0] [];
     pd_polys := OffsetCells [0; 3; 6] [0; 1; 2; 0; 2; 3];
     pd_strips := OffsetCells [0] [] |}.

(** A mesh as read from a file that holds the four corners only. *)
Definition corners_only : vtkPolyData :=
  {| pd_points := Some {| pts_data := square_points |};
     pd_verts := OffsetCells [0] []; pd_lines := OffsetCells [0] [];
     pd_polys := OffsetCells [0] []; pd_strips := OffsetCells [0] [] |}.

(** The diagonal of the square as a line cell, count-prefixed. *)
Definition one_line : ndarray :=
  {| dtype := np_int64; shape := [3%nat]; data := [2; 0; 2] |}.

(** The start of each triangle in [two_triangles]. *)
Definition triangle_offsets : ndarray :=
  {| dtype := np_int64; shape := [2%nat]; data := [0; 4] |}.

(** A one-dimensional array, which is no points array. *)
Definition flat_points : ndarray :=
  {| dtype := np_int64; shape := [4%nat]; data := [0; 1; 2; 3] |}.

(** A quadratic quadrilateral, a quadratic triangle and a quadratic
    tetrahedron ([VTK_QUADRATIC_QUAD] is 23, [VTK_QUADRATIC_TRIANGLE] 22,
    [VTK_QUADRATIC_TETRA] 24) with their 8, 6 and 10 points. *)
Definition quadratic_types : list Z := [23; 22; 24].
Definition quadratic_cells : list (list Z) :=
  [[0; 1; 2; 3; 4; 5; 6; 7]; [0; 1; 8; 4; 9; 10]; [0; 1; 2; 11; 4; 5; 6; 12; 13; 14]].

(** A structured grid of 3 x 2 x 1 points without point coordinates. *)
Definition three_by_two : vtkStructuredGrid :=
  {| sg_dims := [3; 2; 1]; sg_points := None; sg_cell_arrays := ∅ |}.

(** A structured grid of 2 x 3 x 1 points at height 7, the first index
    running fastest. *)
Definition six_point_grid : vtkStructuredGrid :=
  {| sg_dims := [2; 3; 1];
     sg_points := Some {| pts_data :=
       {| dtype := np_int64; shape := [6%nat; 3%nat];
          data := [0; 0; 7;  1; 0; 7;  0; 1; 7;  1; 1; 7;  0; 2; 7;  1; 2; 7] |} |};
     sg_cell_arrays := ∅ |}.

(** One value for each of its two cells. *)
Definition two_values : ndarray :=
  {| dtype := np_int64; shape := [2%nat]; data := [10; 20] |}.

(** ** pyvista.core.pointset *)

Section Pointset.
Context `{Imports}.

(** *** Cell arrays from NumPy arrays *)

(** [np.asarray] *)
Definition np_asarray (o : PyObj) : result ndarray :=
  match o with
  | PyNdarray a => Ok a
  | _ => np_array o
  end.

(** A fresh [vtkCellArray()] holds no cell. *)
Definition vtkCellArray_new : vtkCellArray :=
  if VTK9 then OffsetCells [0] [] else LegacyCells 0 [].

(** [vtkCellArray.SetCells(n, ids)]: VTK 9 imports the flat array and
    recounts the cells; older versions keep the count they are given. *)
Definition SetCells (n : Z) (ids : list Z) : result vtkCellArray :=
  if VTK9 then
    match ImportLegacyFormat ids with
    | Some c => Ok c
    | None => Raise (OtherError "id array is not count-prefixed")
    end
  else Ok (LegacyCells n ids).

(** Modelled from the spec: [pyvista.utilities.cells.CellArray], whose
    source lies outside [pointset.py].  It wraps a count-prefixed
    flat integer array: the input is flattened, converted to VTK ids and
    handed to the cell array together with the number of cells, which is
    read off the array when it is not given. *)
Definition CellArray (cells n_cells : PyObj) (deep : bool) : result vtkCellArray :=
  if is_None cells then Ok vtkCellArray_new
  else
    a ← np_asarray cells;
    let ids := data (astype float_convert ID_TYPE (ravel a)) in
    n ← match n_cells with
        | PyInt n => Ok n
        | PyNone =>
            match shape a with
            | [_] =>
                match parse_legacy (length ids) ids with
                | Some cs => Ok (Z.of_nat (length cs))
                | None => Raise (OtherError "id array is not count-prefixed")
                end
            | n :: _ => Ok (Z.of_nat n)
            | [] => Ok 1
            end
        | _ => Raise (TypeError "n_cells must be an integer")
        end;
    SetCells n ids.

(** *** class PointSet *)

(** [PointSet.remove_cells]; the result is the new store and the value
    returned ([None] when [inplace]). *)
Definition remove_cells (h : store) (self : loc) (ind : PyObj) (inplace : bool)
    : result (store * option loc) :=
  match h !! self with
  | None => Raise (OtherError "no such object")
  | Some m =>
      let n_cells := Z.of_nat (length (ds_cells m)) in
      _ ← match ind with
          | PyNdarray a =>
              if bool_decide (dtype a = np_bool) && negb (Z.of_nat (np_size a) =? n_cells)
              then Raise (ValueError "Boolean array size must match the number of cells")
              else Ok tt
          | _ => Ok tt
          end;
      ghost_cells ← setitem (np_zeros (Z.to_nat n_cells) np_uint8) ind DUPLICATECELL;
      let '(h, target) := if inplace then (h, self) else copy h m in
      let h := alter (fun t => RemoveGhostCells (set_cell_array GhostArrayName ghost_cells t))
                     target h in
      Ok (h, if inplace then None else Some target)
  end.

(** *** class PolyData *)

(** [vtkPolyData()]: no points, four empty cell arrays. *)
Definition vtkPolyData_new : vtkPolyData :=
  {| pd_points := None;
     pd_verts := vtkCellArray_new; pd_lines := vtkCellArray_new;
     pd_polys := vtkCellArray_new; pd_strips := vtkCellArray_new |}.

(** Modelled from the spec: the accessors [DataSet.n_points] and
    [DataSet.n_cells] ([pyvista/core/dataset.py]) forward to
    [GetNumberOfPoints] and [GetNumberOfCells]; a polygonal mesh counts the
    cells of its four cell arrays. *)
Definition PolyData_n_points (self : vtkPolyData) : Z :=
  match pd_points self with
  | Some p => GetNumberOfPoints p
  | None => 0
  end.

(** Modelled from the spec: [DataSet.n_cells], see [PolyData_n_points]. *)
Definition PolyData_n_cells (self : vtkPolyData) : Z :=
  GetNumberOfCells (pd_verts self) + GetNumberOfCells (pd_lines self)
  + GetNumberOfCells (pd_polys self) + GetNumberOfCells (pd_strips self).

(** [SetPoints], [SetVerts], [SetLines], [SetPolys] of [vtkPolyData]. *)
Definition PolyData_SetPoints (self : vtkPolyData) (p : vtkPoints) : vtkPolyData :=
  {| pd_points := Some p; pd_verts := pd_verts self; pd_lines := pd_lines self;
     pd_polys := pd_polys self; pd_strips := pd_strips self |}.

Definition SetVerts (self : vtkPolyData) (c : vtkCellArray) : vtkPolyData :=
  {| pd_points := pd_points self; pd_verts := c; pd_lines := pd_lines self;
     pd_polys := pd_polys self; pd_strips := pd_strips self |}.

Definition SetLines (self : vtkPolyData) (c : vtkCellArray) : vtkPolyData :=
  {| pd_points := pd_points self; pd_verts := pd_verts self; pd_lines := c;
     pd_polys := pd_polys self; pd_strips := pd_strips self |}.

Definition SetPolys (self : vtkPolyData) (c : vtkCellArray) : vtkPolyData :=
  {| pd_points := pd_points self; pd_verts := pd_verts self; pd_lines := pd_lines self;
     pd_polys := c; pd_strips := pd_strips self |}.

(** [PointSet.shallow_copy]: the source gets default points when it has
    none, then [DataSet.shallow_copy] ([pyvista/core/dataset.py]) takes
    over its contents. *)
Definition PolyData_shallow_copy (to_copy : vtkPolyData) : vtkPolyData :=
  match pd_points to_copy with
  | Some _ => to_copy
  | None => PolyData_SetPoints to_copy vtkPoints_new
  end.

(** Modelled from the spec: [DataSet.deep_copy] ([pyvista/core/dataset.py])
    copies the contents of the source. *)
Definition PolyData_deep_copy (to_copy : vtkPolyData) : vtkPolyData := to_copy.

(** [PolyData._make_vertex_cells] *)
Definition _make_vertex_cells (npoints : Z) : result ndarray :=
  let n := Z.to_nat npoints in
  let cells := np_empty [n; 2%nat] ID_TYPE in
  let cells := fill_column cells 0 1 in
  assign_column cells 1 (data (np_arange n ID_TYPE)).

(** The [verts], [lines] and [faces] properties. *)
Definition PolyData_verts (self : vtkPolyData) : ndarray :=
  id_array (GetData (pd_verts self)).

Definition PolyData_lines (self : vtkPolyData) : ndarray :=
  ravel (id_array (GetData (pd_lines self))).

Definition PolyData_faces (self : vtkPolyData) : ndarray :=
  id_array (GetData (pd_polys self)).

(** Their setters. *)
Definition PolyData_set_verts (self : vtkPolyData) (verts : cells_arg) : result vtkPolyData :=
  match verts with
  | IsCellArray c => Ok (SetVerts self c)
  | NotCellArray o => c ← CellArray o PyNone false; Ok (SetVerts self c)
  end.

Definition PolyData_set_lines (self : vtkPolyData) (lines : cells_arg) : result vtkPolyData :=
  match lines with
  | IsCellArray c => Ok (SetLines self c)
  | NotCellArray o => c ← CellArray o PyNone false; Ok (SetLines self c)
  end.

Definition PolyData_set_faces (self : vtkPolyData) (faces : cells_arg) : result vtkPolyData :=
  match faces with
  | IsCellArray c => Ok (SetPolys self c)
  | NotCellArray o => c ← CellArray o PyNone false; Ok (SetPolys self c)
  end.

(** [for kwarg in [...]: if local_parms[kwarg]: raise ValueError(msg)] *)
Fixpoint no_other_arguments (kwargs : list PyObj) (msg : string) : result unit :=
  match kwargs with
  | [] => Ok tt
  | o :: rest =>
      b ← truthy o;
      if b : bool then Raise (ValueError msg) else no_other_arguments rest msg
  end.

(** The point-cloud step shared by two branches of the constructor:
    [verts = self._make_vertex_cells(self.n_points);
     self.verts = CellArray(verts, self.n_points, deep)]. *)
Definition set_vertex_cells (self : vtkPolyData) (deep : bool) : result vtkPolyData :=
  verts ← _make_vertex_cells (PolyData_n_points self);
  c ← CellArray (PyNdarray verts) (PyInt (PolyData_n_points self)) deep;
  PolyData_set_verts self (IsCellArray c).

(** [PolyData.__init__] *)
Definition PolyData__init__ (var_inp faces n_faces lines n_lines : PyObj)
    (deep : bool) : result vtkPolyData :=
  let self := vtkPolyData_new in
  match var_inp with
  | PyNone => Ok self
  | PyStr f | PyPath f =>
      _ ← no_other_arguments [faces; n_faces; lines]
            "No other arguments should be set when first parameter is a string";
      self ← PolyData_from_file f;
      if (0 <? PolyData_n_points self) && (PolyData_n_cells self =? 0)
      then set_vertex_cells self deep
      else Ok self
  | PyVtkPolyData _ other =>
      _ ← no_other_arguments [faces; n_faces; lines]
            "No other arguments should be set when first parameter is a PolyData";
      Ok (if deep then PolyData_deep_copy other else PolyData_shallow_copy other)
  | _ =>
      self ← match var_inp with
             | PyNdarray _ | PyList _ =>
                 points ← np_asarray var_inp;
                 p ← vtk_points points deep;
                 Ok (PolyData_SetPoints self p)
             | _ =>
                 (* the exception object is built and dropped: no [raise] *)
                 let _ := TypeError "Invalid Input type" in
                 Ok self
             end;
      self ← (if is_None faces && is_None lines then set_vertex_cells self deep
              else if negb (is_None faces) then
                c ← CellArray faces n_faces deep;
                PolyData_set_faces self (IsCellArray c)
              else Ok self);
      if negb (is_None lines) then
        c ← CellArray lines n_lines deep;
        PolyData_set_lines self (IsCellArray c)
      else Ok self
  end.

(** [PolyData.is_all_triangles] *)
Definition is_all_triangles (self : vtkPolyData) : bool :=
  if (np_len (PolyData_faces self) =? 0)
     || (0 <? np_len (PolyData_lines self))
     || (0 <? np_len (PolyData_verts self))
  then false
  else
    (Z.of_nat (np_size (PolyData_faces self)) mod 4 =? 0)
    && forallb (fun c => c =? 3) (first_of_four (data (PolyData_faces self))).

(** The keys of [PolyData._WRITERS]. *)
Definition PolyData_WRITERS : list string := [".ply"; ".vtp"; ".stl"; ".vtk"].

(** [PolyData.save].  What it calls lies outside [pointset.py] and stays
    a parameter: the absolute path of the file name, [get_ext],
    [compute_normals] (in place) and [DataSet.save].  The result is the
    mesh after the call and what [DataSet.save] returned. *)
Section Save.
Variable abspath : string -> string.
Variable get_ext : string -> string.
Variable compute_normals : vtkPolyData -> vtkPolyData.
Variable DataSet_save : vtkPolyData -> string -> bool -> result unit.

Definition PolyData_save (self : vtkPolyData) (filename : string) (binary : bool)
    : vtkPolyData * result unit :=
  let filename := abspath filename in
  let ftype := get_ext filename in
  let self := if bool_decide (ftype ∈ ["stl"; "ply"]) then compute_normals self else self in
  (self, DataSet_save self filename binary).
End Save.

(** *** class UnstructuredGrid *)

Definition vtkUnstructuredGrid_new : vtkUnstructuredGrid :=
  {| ug_points := None; ug_types := []; ug_cells := vtkCellArray_new;
     ug_locations := [] |}.

Definition UnstructuredGrid_SetPoints (self : vtkUnstructuredGrid) (p : vtkPoints)
    : vtkUnstructuredGrid :=
  {| ug_points := Some p; ug_types := ug_types self; ug_cells := ug_cells self;
     ug_locations := ug_locations self |}.

(** [SetCells(cell_type, vtkcells)] of VTK 9 and
    [SetCells(cell_type, offset, vtkcells)] of earlier versions. *)
Definition UnstructuredGrid_SetCells (self : vtkUnstructuredGrid)
    (cell_type : list Z) (vtkcells : vtkCellArray) : vtkUnstructuredGrid :=
  {| ug_points := ug_points self; ug_types := cell_type; ug_cells := vtkcells;
     ug_locations := ug_locations self |}.

Definition UnstructuredGrid_SetCells_offset (self : vtkUnstructuredGrid)
    (cell_type offset : list Z) (vtkcells : vtkCellArray) : vtkUnstructuredGrid :=
  {| ug_points := ug_points self; ug_types := cell_type; ug_cells := vtkcells;
     ug_locations := offset |}.

(** [PointSet.shallow_copy] and [DataSet.deep_copy], as for [PolyData]. *)
Definition UnstructuredGrid_shallow_copy (to_copy : vtkUnstructuredGrid)
    : vtkUnstructuredGrid :=
  match ug_points to_copy with
  | Some _ => to_copy
  | None => UnstructuredGrid_SetPoints to_copy vtkPoints_new
  end.

(** Modelled from the spec: [DataSet.deep_copy], see [PolyData_deep_copy]. *)
Definition UnstructuredGrid_deep_copy (to_copy : vtkUnstructuredGrid)
    : vtkUnstructuredGrid := to_copy.

(** Modelled from the spec: [pyvista.utilities.cells.numpy_to_idarr]
    hands the values over as VTK ids. *)
Definition numpy_to_idarr (a : ndarray) : list Z :=
  data (astype float_convert ID_TYPE a).

(** [UnstructuredGrid._from_arrays]; the warning issued under VTK 9 for
    an offset array changes nothing in the grid. *)
Definition UnstructuredGrid_from_arrays (self : vtkUnstructuredGrid)
    (offset : option ndarray) (cells cell_type points : ndarray) (deep : bool)
    : result vtkUnstructuredGrid :=
  vtkcells ← CellArray (PyNdarray cells) (PyInt (Z.of_nat (np_size cell_type))) deep;
  let cell_type :=
    if decide (dtype cell_type <> np_uint8)
    then astype float_convert np_uint8 cell_type else cell_type in
  let cell_type_np := cell_type in
  points ← vtk_points points deep;
  let self := UnstructuredGrid_SetPoints self points in
  if VTK9 then Ok (UnstructuredGrid_SetCells self (data cell_type) vtkcells)
  else
    offset ← match offset with
             | None => generate_cell_offsets cells cell_type_np
             | Some o => Ok o
             end;
    Ok (UnstructuredGrid_SetCells_offset self (data cell_type)
          (numpy_to_idarr offset) vtkcells).

(** Modelled from the spec: [DataSet.n_cells] forwards to
    [GetNumberOfCells], which counts the cells of the cell array. *)
Definition UnstructuredGrid_n_cells (self : vtkUnstructuredGrid) : Z :=
  GetNumberOfCells (ug_cells self).

(** The [celltypes], [offset] and [cells] properties. *)
Definition UnstructuredGrid_celltypes (self : vtkUnstructuredGrid) : ndarray :=
  {| dtype := np_uint8; shape := [length (ug_types self)]; data := ug_types self |}.

Definition UnstructuredGrid_offset (self : vtkUnstructuredGrid) : ndarray :=
  if VTK9 then id_array (GetOffsetsArray (ug_cells self))
  else id_array (ug_locations self).

Definition UnstructuredGrid_cells (self : vtkUnstructuredGrid) : ndarray :=
  id_array (GetData (ug_cells self)).

(** [UnstructuredGrid._check_for_consistency] *)
Definition _check_for_consistency (self : vtkUnstructuredGrid) : result unit :=
  if decide (UnstructuredGrid_n_cells self
             <> Z.of_nat (np_size (UnstructuredGrid_celltypes self)))
  then Raise (ValueError "Number of cell types must match the number of cells")
  else if VTK9 then
    if decide (UnstructuredGrid_n_cells self
               <> Z.of_nat (np_size (UnstructuredGrid_offset self)) - 1)
    then Raise (ValueError "Size of the offset must be one greater than the number of cells")
    else Ok tt
  else
    if decide (UnstructuredGrid_n_cells self
               <> Z.of_nat (np_size (UnstructuredGrid_offset self)))
    then Raise (ValueError "Size of the offset must match the number of cells")
    else Ok tt.

(** Modelled from the spec: what [create_mixed_cells] accepts as an item
    of the dictionary, a fixed-size cell type mapped to an integer array
    with one row of point indices per cell; anything else is refused. *)
Definition mixed_cells_of_item (nr_points : Z) (item : PyObj * PyObj)
    : result (Z * list (list Z)) :=
  match item with
  | (PyInt t, PyNdarray a) =>
      match enum_cell_type_nr_points_map t, shape a with
      | Some p, [n; m] =>
          if bool_decide (m = p /\ 0 < p)%nat
             && negb (is_float (dtype a)) && negb (bool_decide (dtype a = np_bool))
             && bool_decide (length (data a) = (n * m)%nat)
             && forallb (fun v => (0 <=? v) && (v <? nr_points)) (data a)
          then Ok (t, chunks m n (data a))
          else Raise (ValueError "Expected an integer array with one row of point indices per cell")
      | _, _ => Raise (ValueError "Unknown or variable-size cell type, or not a two-dimensional array")
      end
  | _ => Raise (ValueError "Expected a cell type mapped to an array")
  end.

(** Modelled from the spec: the items of the dictionary, in its order. *)
Fixpoint mixed_cells_of_items (nr_points : Z) (items : list (PyObj * PyObj))
    : result (list (Z * list (list Z))) :=
  match items with
  | [] => Ok []
  | item :: rest =>
      b ← mixed_cells_of_item nr_points item;
      bs ← mixed_cells_of_items nr_points rest;
      Ok (b :: bs)
  end.

(** Modelled from the spec: the start positions of consecutive cells in
    the flat encoding ("offset index into connectivity"). *)
Fixpoint cell_starts (o : Z) (cells : list (list Z)) : list Z :=
  match cells with
  | [] => []
  | c :: cs => o :: cell_starts (o + 1 + Z.of_nat (length c)) cs
  end.

(** Modelled from the spec: [pyvista.utilities.cells.create_mixed_cells],
    whose source lies outside [pointset.py].  The grid arrays list the
    cells type after type in the dictionary's order: one type tag (an
    unsigned char) per cell, the cells in the count-prefixed flat
    encoding, and the start of every cell in that encoding. *)
Definition create_mixed_cells (cells_dict : list (PyObj * PyObj)) (nr_points : Z)
    : result (ndarray * ndarray * ndarray) :=
  blocks ← mixed_cells_of_items nr_points cells_dict;
  let types := flat_map (fun b => replicate (length (snd b)) (wrap np_uint8 (fst b))) blocks in
  let cells := flat_map snd blocks in
  Ok ({| dtype := np_uint8; shape := [length types]; data := types |},
      id_array (padded cells),
      id_array (cell_starts 0 cells)).

(** Modelled from the spec: the cells of a grid grouped by their type
    tag, in grid order. *)
Fixpoint group_cells (tagged : list (Z * list Z)) : gmap Z (list (list Z)) :=
  match tagged with
  | [] => ∅
  | (t, c) :: rest =>
      let m := group_cells rest in
      <[t := c :: default [] (m !! t)]> m
  end.

(** Modelled from the spec: the cells of one type as an array with one
    row per cell. *)
Definition cells_block (t : Z) (rows : list (list Z)) : ndarray :=
  {| dtype := ID_TYPE;
     shape := [length rows; default 0%nat (enum_cell_type_nr_points_map t)];
     data := concat rows |}.

(** Modelled from the spec: [pyvista.utilities.cells.get_mixed_cells],
    whose source lies outside [pointset.py].  It returns "a dictionary
    that contains all cells mapped from cell types", one array per cell
    type present in the grid, holding the cells of that type in grid
    order; it "only works with element types of fixed sizes". *)
Definition get_mixed_cells (vtkobj : vtkUnstructuredGrid) : result (gmap Z ndarray) :=
  let ids := data (UnstructuredGrid_cells vtkobj) in
  match parse_legacy (length ids) ids with
  | Some cells =>
      if forallb (fun t => bool_decide (is_Some (enum_cell_type_nr_points_map t)))
                 (data (UnstructuredGrid_celltypes vtkobj))
      then Ok (map_imap (fun t rows => Some (cells_block t rows))
                 (group_cells (zip (data (UnstructuredGrid_celltypes vtkobj)) cells)))
      else Raise (ValueError "Cell types of variable size are not supported")
  | None => Raise (ValueError "cells are not count-prefixed")
  end.

(** [UnstructuredGrid._from_cells_dict] *)
Definition _from_cells_dict (self : vtkUnstructuredGrid)
    (cells_dict : list (PyObj * PyObj)) (points : ndarray) (deep : bool)
    : result vtkUnstructuredGrid :=
  if bool_decide (np_ndim points <> 2%nat) || bool_decide (last (shape points) <> Some 3%nat)
  then Raise (ValueError "Points array must be a [M, 3] array")
  else
    let nr_points := np_len points in
    '(cell_types, cells, offset) ← create_mixed_cells cells_dict nr_points;
    if VTK9 then UnstructuredGrid_from_arrays self None cells cell_types points deep
    else UnstructuredGrid_from_arrays self (Some offset) cells cell_types points deep.

(** [UnstructuredGrid.__init__]; [args] are the positional arguments and
    [deep] the one keyword the constructor reads. *)
Definition UnstructuredGrid__init__ (args : list PyObj) (deep : bool)
    : result vtkUnstructuredGrid :=
  let self := vtkUnstructuredGrid_new in
  match args with
  | [] => Ok self
  | [arg0] =>
      match arg0 with
      | PyVtkUnstructuredGrid g =>
          Ok (if deep then UnstructuredGrid_deep_copy g
              else UnstructuredGrid_shallow_copy g)
      | PyStr f | PyPath f => UnstructuredGrid_from_file f
      | PyVtkStructuredGrid g =>
          Ok (UnstructuredGrid_shallow_copy (vtkAppendFilter g))
      | _ => Raise (TypeError "Cannot work with input type")
      end
  | [PyDict cells_dict; PyNdarray points] =>
      self ← _from_cells_dict self cells_dict points deep;
      _ ← _check_for_consistency self;
      Ok self
  | [arg0; arg1; arg2] =>
      match arg0, arg1, arg2 with
      | PyNdarray cells, PyNdarray cell_type, PyNdarray points =>
          self ← UnstructuredGrid_from_arrays self None cells cell_type points deep;
          _ ← _check_for_consistency self;
          Ok self
      | _, _, _ => Raise (TypeError "All input types must be np.ndarray")
      end
  | [arg0; arg1; arg2; arg3] =>
      match arg0, arg1, arg2, arg3 with
      | PyNdarray offset, PyNdarray cells, PyNdarray cell_type, PyNdarray points =>
          self ← UnstructuredGrid_from_arrays self (Some offset) cells cell_type points deep;
          _ ← _check_for_consistency self;
          Ok self
      | _, _, _, _ => Raise (TypeError "All input types must be np.ndarray")
      end
  | _ => Raise (TypeError "Invalid parameters.  Initialization with arrays requires the following arrays")
  end.

(** The [cells_dict] property. *)
Definition cells_dict (self : vtkUnstructuredGrid) : result (gmap Z ndarray) :=
  get_mixed_cells self.

(** The [cell_connectivity] property. *)
Definition cell_connectivity (self : vtkUnstructuredGrid) : result ndarray :=
  if VTK9 then Ok (id_array (GetConnectivityArray (ug_cells self)))
  else Raise (AttributeError "Install vtk>=9.0.0 for `cell_connectivity`").

(** The cell types [linear_copy] names, from [vtkCellType.h]. *)
Definition VTK_TRIANGLE : Z := 5.
Definition VTK_QUAD : Z := 9.
Definition VTK_TETRA : Z := 10.
Definition VTK_HEXAHEDRON : Z := 12.
Definition VTK_WEDGE : Z := 13.
Definition VTK_PYRAMID : Z := 14.
Definition VTK_QUADRATIC_TRIANGLE : Z := 22.
Definition VTK_QUADRATIC_QUAD : Z := 23.
Definition VTK_QUADRATIC_TETRA : Z := 24.
Definition VTK_QUADRATIC_HEXAHEDRON : Z := 25.
Definition VTK_QUADRATIC_WEDGE : Z := 26.
Definition VTK_QUADRATIC_PYRAMID : Z := 27.

(** Modelled from the spec: [DataSet.copy(deep)] ([pyvista/core/dataset.py],
    outside [pointset.py]) makes a new object of the same class and fills
    it with [deep_copy] or [shallow_copy]. *)
Definition UnstructuredGrid_copy (self : vtkUnstructuredGrid) (deep : bool)
    : vtkUnstructuredGrid :=
  if deep then UnstructuredGrid_deep_copy self else UnstructuredGrid_shallow_copy self.

(** [vtk_to_numpy] returns a view: the arrays behind [cell_connectivity]
    and [cells] are the grid's own, and an assignment into them changes the
    grid.  [lgrid.cell_connectivity[inds] = vals]: *)
Definition set_cell_connectivity (lgrid : vtkUnstructuredGrid) (inds vals : list Z)
    : result vtkUnstructuredGrid :=
  conn ← cell_connectivity lgrid;
  conn ← put_at (data conn) inds vals;
  Ok {| ug_points := ug_points lgrid; ug_types := ug_types lgrid;
        ug_cells := match ug_cells lgrid with
                    | OffsetCells offs _ => OffsetCells offs conn
                    | c => c
                    end;
        ug_locations := ug_locations lgrid |}.

(** [lgrid.cells[inds] = vals]; under VTK 9 the flat array is an export,
    not the storage of the grid. *)
Definition set_cells (lgrid : vtkUnstructuredGrid) (inds vals : list Z)
    : result vtkUnstructuredGrid :=
  ia ← put_at (data (UnstructuredGrid_cells lgrid)) inds vals;
  Ok {| ug_points := ug_points lgrid; ug_types := ug_types lgrid;
        ug_cells := match ug_cells lgrid with
                    | LegacyCells n _ => LegacyCells n ia
                    | c => c
                    end;
        ug_locations := ug_locations lgrid |}.

(** [UnstructuredGrid.linear_copy] *)
Definition linear_copy (self : vtkUnstructuredGrid) (deep : bool)
    : result vtkUnstructuredGrid :=
  let lgrid := UnstructuredGrid_copy self deep in
  let celltype := ug_types self in
  let celltype := put_mask celltype (equals celltype VTK_QUADRATIC_TETRA) VTK_TETRA in
  let celltype := put_mask celltype (equals celltype VTK_QUADRATIC_PYRAMID) VTK_PYRAMID in
  let celltype := put_mask celltype (equals celltype VTK_QUADRATIC_WEDGE) VTK_WEDGE in
  let celltype :=
    put_mask celltype (equals celltype VTK_QUADRATIC_HEXAHEDRON) VTK_HEXAHEDRON in
  let quad_quad_mask := equals celltype VTK_QUADRATIC_QUAD in
  let celltype := put_mask celltype quad_quad_mask VTK_QUAD in
  let quad_tri_mask := equals celltype VTK_QUADRATIC_TRIANGLE in
  let celltype := put_mask celltype quad_tri_mask VTK_TRIANGLE in
  let vtk_offset := ug_locations self in
  let cells := ug_cells self in
  let lgrid := UnstructuredGrid_SetCells_offset lgrid celltype vtk_offset cells in
  lgrid ← (if np_any quad_quad_mask then
             if VTK9 then
               quad_offset ← mask_index (all_but_last (data (UnstructuredGrid_offset lgrid)))
                               quad_quad_mask;
               conn ← cell_connectivity lgrid;
               base_point ← take_at (data conn) quad_offset;
               lgrid ← set_cell_connectivity lgrid (add_to quad_offset 4) base_point;
               lgrid ← set_cell_connectivity lgrid (add_to quad_offset 5) base_point;
               lgrid ← set_cell_connectivity lgrid (add_to quad_offset 6) base_point;
               set_cell_connectivity lgrid (add_to quad_offset 7) base_point
             else
               quad_offset ← mask_index (data (UnstructuredGrid_offset lgrid)) quad_quad_mask;
               base_point ← take_at (data (UnstructuredGrid_cells lgrid)) (add_to quad_offset 1);
               lgrid ← set_cells lgrid (add_to quad_offset 5) base_point;
               lgrid ← set_cells lgrid (add_to quad_offset 6) base_point;
               lgrid ← set_cells lgrid (add_to quad_offset 7) base_point;
               set_cells lgrid (add_to quad_offset 8) base_point
           else Ok lgrid);
  if np_any quad_tri_mask then
    if VTK9 then
      tri_offset ← mask_index (all_but_last (data (UnstructuredGrid_offset lgrid)))
                     quad_tri_mask;
      conn ← cell_connectivity lgrid;
      base_point ← take_at (data conn) tri_offset;
      lgrid ← set_cell_connectivity lgrid (add_to tri_offset 3) base_point;
      lgrid ← set_cell_connectivity lgrid (add_to tri_offset 4) base_point;
      set_cell_connectivity lgrid (add_to tri_offset 5) base_point
    else
      tri_offset ← mask_index (data (UnstructuredGrid_offset lgrid)) quad_tri_mask;
      base_point ← take_at (data (UnstructuredGrid_cells lgrid)) (add_to tri_offset 1);
      lgrid ← set_cells lgrid (add_to tri_offset 4) base_point;
      lgrid ← set_cells lgrid (add_to tri_offset 5) base_point;
      set_cells lgrid (add_to tri_offset 6) base_point
  else Ok lgrid.

(** *** class StructuredGrid *)

Definition vtkStructuredGrid_new : vtkStructuredGrid :=
  {| sg_dims := [0; 0; 0]; sg_points := None; sg_cell_arrays := ∅ |}.

(** [SetDimensions(dim)] takes exactly three extents. *)
Definition SetDimensions (self : vtkStructuredGrid) (dim : list Z)
    : result vtkStructuredGrid :=
  match dim with
  | [_; _; _] =>
      Ok {| sg_dims := dim; sg_points := sg_points self;
            sg_cell_arrays := sg_cell_arrays self |}
  | _ => Raise (TypeError "SetDimensions expects a sequence of 3 values")
  end.

(** [SetPoints] of [vtkStructuredGrid]. *)
Definition StructuredGrid_SetPoints (self : vtkStructuredGrid) (p : vtkPoints)
    : vtkStructuredGrid :=
  {| sg_dims := sg_dims self; sg_points := Some p;
     sg_cell_arrays := sg_cell_arrays self |}.

(** Modelled from the spec: [DataSet.deep_copy], see [PolyData_deep_copy]. *)
Definition StructuredGrid_deep_copy (to_copy : vtkStructuredGrid)
    : vtkStructuredGrid := to_copy.

(** [while len(dim) < 3: dim.append(1)] *)
Definition pad_dim (dim : list Z) : list Z :=
  dim ++ replicate (3 - length dim) 1.

(** [StructuredGrid._from_arrays] *)
Definition StructuredGrid_from_arrays (self : vtkStructuredGrid) (x y z : ndarray)
    : result vtkStructuredGrid :=
  if negb (bool_decide (shape x = shape y) && bool_decide (shape y = shape z))
  then Raise (ValueError "Input point array shapes must match exactly")
  else
    let points := np_empty [np_size x; 3%nat] (dtype x) in
    points ← assign_column points 0 (data (astype float_convert (dtype points) (ravel_F x)));
    points ← assign_column points 1 (data (astype float_convert (dtype points) (ravel_F y)));
    points ← assign_column points 2 (data (astype float_convert (dtype points) (ravel_F z)));
    let dim := pad_dim (map Z.of_nat (shape x)) in
    self ← SetDimensions self dim;
    p ← vtk_points points true;
    Ok (StructuredGrid_SetPoints self p).

(** [StructuredGrid.__init__] *)
Definition StructuredGrid__init__ (args : list PyObj) : result vtkStructuredGrid :=
  let self := vtkStructuredGrid_new in
  match args with
  | [arg0] =>
      match arg0 with
      | PyVtkStructuredGrid g => Ok (StructuredGrid_deep_copy g)
      | PyStr f => StructuredGrid_from_file f
      | _ => Ok self
      end
  | [arg0; arg1; arg2] =>
      match arg0, arg1, arg2 with
      | PyNdarray x, PyNdarray y, PyNdarray z => StructuredGrid_from_arrays self x y z
      | _, _, _ => Ok self
      end
  | _ => Ok self
  end.

(** The [dimensions] property. *)
Definition dimensions (self : vtkStructuredGrid) : list Z := sg_dims self.

(** Modelled from the spec: the accessor [DataSet.points]
    ([pyvista/core/dataset.py]) returns the array the grid's [vtkPoints]
    hold, an empty one when there are no points. *)
Definition StructuredGrid_points (self : vtkStructuredGrid) : ndarray :=
  match sg_points self with
  | Some p => pts_data p
  | None => pts_data vtkPoints_new
  end.


(** [StructuredGrid._reshape_point_array] *)
Definition _reshape_point_array (self : vtkStructuredGrid) (array : ndarray)
    : result ndarray :=
  reshape_F (map Z.to_nat (dimensions self)) array.

(** The [x], [y] and [z] properties. *)
Definition StructuredGrid_x (self : vtkStructuredGrid) : result ndarray :=
  _reshape_point_array self (get_column (StructuredGrid_points self) 0).

Definition StructuredGrid_y (self : vtkStructuredGrid) : result ndarray :=
  _reshape_point_array self (get_column (StructuredGrid_points self) 1).

Definition StructuredGrid_z (self : vtkStructuredGrid) : result ndarray :=
  _reshape_point_array self (get_column (StructuredGrid_points self) 2).

(** The [points_matrix] property. *)
Definition points_matrix (self : vtkStructuredGrid) : result ndarray :=
  reshape_F_any (dimensions self ++ [3]) (StructuredGrid_points self).

(** [DataSet.n_cells] on a structured grid, that is
    [vtkStructuredGrid.GetNumberOfCells]: the product of the cell extents,
    no cell when an extent is zero. *)
Definition StructuredGrid_n_cells (self : vtkStructuredGrid) : Z :=
  if existsb (fun d => d =? 0) (sg_dims self) then 0
  else foldr Z.mul 1 (map (fun d => if 1 <? d then d - 1 else 1) (sg_dims self)).

(** [StructuredGrid.hide_cells] *)
Definition hide_cells (self : vtkStructuredGrid) (ind : PyObj)
    : result vtkStructuredGrid :=
  _ ← match ind with
      | PyNdarray a =>
          if bool_decide (dtype a = np_bool)
             && negb (Z.of_nat (np_size a) =? StructuredGrid_n_cells self)
          then Raise (ValueError "Boolean array size must match the number of cells")
          else Ok tt
      | _ => Ok tt
      end;
  ghost_cells ← setitem (np_zeros (Z.to_nat (StructuredGrid_n_cells self)) np_uint8)
                  ind HIDDENCELL;
  Ok {| sg_dims := sg_dims self; sg_points := sg_points self;
        sg_cell_arrays := <[GhostArrayName := ghost_cells]> (sg_cell_arrays self) |}.

(** An item of the index tuple given to [StructuredGrid.__getitem__]: an
    integer, a slice (each part an integer or [None]), an iterable (a
    list, a tuple, an array, a string) or an object of another kind. *)
Inductive key_item :=
| KeyInt (k : Z)
| KeySlice (start stop step : option Z)
| KeyIterable
| KeyOther.

(** The loop of [StructuredGrid.__getitem__] over the items of the tuple.
    [vars] holds the local variables [start], [stop] and [step], which
    are unbound until an integer or a slice has been seen and keep their
    values otherwise.  [RuntimeError] and [UnboundLocalError] are given
    with their class in the message. *)
Fixpoint getitem_items (dims : list Z) (i : nat) (key : list key_item)
    (vars : option (Z * Z * Z)) (voi rate : list Z) : result (list Z * list Z) :=
  match key with
  | [] => Ok (voi, rate)
  | k :: rest =>
      vars ← match k with
             | KeyIterable =>
                 Raise (OtherError "RuntimeError: Fancy indexing is not supported.")
             | KeyInt k => Ok (Some (k, k, 1))
             | KeySlice start stop step =>
                 stop ← match stop with
                        | Some s => Ok (s - 1)
                        | None =>
                            match dims !! i with
                            | Some d => Ok d
                            | None => Raise (IndexError "list index out of range")
                            end
                        end;
                 Ok (Some (default 0 start, stop, default 1 step))
             | KeyOther => Ok vars
             end;
      match vars with
      | Some (start, stop, step) =>
          getitem_items dims (S i) rest vars (voi ++ [start; stop]) (rate ++ [step])
      | None =>
          Raise (OtherError "UnboundLocalError: local variable 'start' referenced before assignment")
      end
  end.

(** [StructuredGrid.__getitem__] on a tuple: the result is the volume of
    interest and the sample rate handed to [extract_subset], a filter
    outside [pointset.py]. *)
Definition StructuredGrid__getitem__ (self : vtkStructuredGrid) (key : list key_item)
    : result (list Z * list Z) :=
  if decide (length key <> 3%nat)
  then Raise (OtherError "RuntimeError: Slices must have exactly 3 dimensions.")
  else getitem_items (dimensions self) 0 key None [] [].

(** [StructuredGrid._reshape_cell_array] *)
Definition _reshape_cell_array (self : vtkStructuredGrid) (array : ndarray)
    : result ndarray :=
  let cell_dims := add_to (dimensions self) (-1) in
  let cell_dims := put_mask cell_dims (equals cell_dims 0) 1 in
  reshape_F_any cell_dims array.

(** ** Vocabulary of the properties *)

(** The single arguments the [UnstructuredGrid] constructor accepts: a
    VTK grid or a file name. *)
Definition UnstructuredGrid_accepts (arg0 : PyObj) : bool :=
  match arg0 with
  | PyVtkUnstructuredGrid _ | PyVtkStructuredGrid _ | PyStr _ | PyPath _ => true
  | _ => false
  end.

(** The two size relations [_check_for_consistency] looks at. *)
Definition sizes_consistent (g : vtkUnstructuredGrid) : Prop :=
  Z.of_nat (length (data (UnstructuredGrid_celltypes g))) = UnstructuredGrid_n_cells g
  /\ Z.of_nat (length (data (UnstructuredGrid_offset g)))
     = if VTK9 then UnstructuredGrid_n_cells g + 1 else UnstructuredGrid_n_cells g.

(** The grid the constructor assembles from arrays or from a cells
    dictionary, before it checks the sizes. *)
Inductive assembles (deep : bool) : list PyObj -> result vtkUnstructuredGrid -> Prop :=
| assembles_dict cells_dict points :
    assembles deep [PyDict cells_dict; PyNdarray points]
      (_from_cells_dict vtkUnstructuredGrid_new cells_dict points deep)
| assembles_arrays cells cell_type points :
    assembles deep [PyNdarray cells; PyNdarray cell_type; PyNdarray points]
      (UnstructuredGrid_from_arrays vtkUnstructuredGrid_new None cells cell_type points deep)
| assembles_offset_arrays offset cells cell_type points :
    assembles deep [PyNdarray offset; PyNdarray cells; PyNdarray cell_type; PyNdarray points]
      (UnstructuredGrid_from_arrays vtkUnstructuredGrid_new (Some offset)
         cells cell_type points deep).

(** The vertex cells of [n] points: [1, 0, 1, 1, ..., 1, n-1]. *)
Definition vertex_cells (n : nat) : list Z :=
  flat_map (fun i => [1; Z.of_nat i]) (seq 0 n).

(** A flat count-prefixed integer array: one-dimensional, of an integer
    dtype, its entries VTK ids, its data the encoding of some cells. *)
Definition is_padded_array (a : ndarray) : Prop :=
  shape a = [length (data a)]
  /\ is_float (dtype a) = false
  /\ Forall (in_range np_int64) (data a)
  /\ exists cells, data a = padded cells.

(** An explicit cell count is an integer. *)
Definition is_count (n_cells : PyObj) : Prop :=
  n_cells = PyNone \/ exists k, n_cells = PyInt k.

(** Position [i] of an array of [n] entries is named by one of the
    integer indices [inds]. *)
Definition hits (n : nat) (inds : list Z) (i : nat) : bool :=
  existsb (fun j => bool_decide (normalize_index n j = Some i)) inds.

(** Position [i] is set in a boolean mask. *)
Definition mask_at (mask : list Z) (i : nat) : bool :=
  negb (default 0 (mask !! i) =? 0).

(** The valid cell-index arguments for a mesh of [n] cells, each with the
    positions it indicates: a boolean array with one entry per cell, an
    integer array or a list of integers within [-n, n). *)
Inductive cell_index (n : nat) : PyObj -> (nat -> bool) -> Prop :=
| cell_index_mask a :
    dtype a = np_bool -> shape a = [n] -> length (data a) = n ->
    cell_index n (PyNdarray a) (mask_at (data a))
| cell_index_array a :
    dtype a <> np_bool -> is_float (dtype a) = false ->
    Forall (fun j => is_Some (normalize_index n j)) (data a) ->
    cell_index n (PyNdarray a) (hits n (data a))
| cell_index_list inds :
    Forall (fun j => is_Some (normalize_index n j)) inds ->
    cell_index n (PyList (map PyInt inds)) (hits n inds).

(** The mesh [m] without the cells at the positions [sel] indicates, and
    without their entries in the cell arrays. *)
Definition without_cells (sel : nat -> bool) (m : DataSet) : DataSet :=
  let keep := map (fun i => negb (sel i)) (seq 0 (length (ds_cells m))) in
  {| ds_class := ds_class m;
     ds_cells := select keep (ds_cells m);
     ds_cell_arrays := select_rows keep <$> delete GhostArrayName (ds_cell_arrays m) |}.

(** A two-dimensional array of shape [(n, m)]. *)
Definition is_matrix (n m : nat) (a : ndarray) : Prop :=
  shape a = [n; m] /\ length (data a) = (n * m)%nat.

(** The numbers an array holds, in C order, its elements read by
    [value]: what the encoding [v] of dtype [d] stands for is [value d v]
    (the integer itself for an integer dtype, the real number behind the
    bit pattern for a floating one). *)
Definition values {V : Type} (value : np_dtype -> Z -> V) (a : ndarray) : list V :=
  map (value (dtype a)) (data a).





(** A typed dictionary as the Python items the constructor receives. *)
Definition dict_items (d : list (Z * ndarray)) : list (PyObj * PyObj) :=
  map (fun e => (PyInt (fst e), PyNdarray (snd e))) d.

(** An entry of a cells dictionary over [nr_points] points: a fixed-size
    cell type (an unsigned char) mapped to an integer array with one row
    of point indices per cell. *)
Definition cells_entry (nr_points : Z) (e : Z * ndarray) : Prop :=
  exists n p,
    enum_cell_type_nr_points_map (fst e) = Some p /\ (0 < p)%nat
    /\ in_range np_uint8 (fst e)
    /\ shape (snd e) = [n; p] /\ length (data (snd e)) = (n * p)%nat
    /\ is_float (dtype (snd e)) = false /\ dtype (snd e) <> np_bool
    /\ Forall (fun v => 0 <= v < nr_points) (data (snd e)).

(** What equality of dictionaries compares: keys, and shape and values of
    the arrays. *)
Definition dict_view (m : gmap Z ndarray) : gmap Z (list nat * list Z) :=
  (fun a => (shape a, data a)) <$> m.

(** The grid assembled from type tags and cells in the encoding
    [create_mixed_cells] produces. *)
Definition mixed_grid (self : vtkUnstructuredGrid) (pts : vtkPoints)
    (types : list Z) (cells : list (list Z)) : vtkUnstructuredGrid :=
  {| ug_points := Some pts;
     ug_types := types;
     ug_cells := if VTK9 then OffsetCells (offsets_from 0 cells) (concat cells)
                 else LegacyCells (Z.of_nat (length types)) (padded cells);
     ug_locations := if VTK9 then ug_locations self else cell_starts 0 cells |}.

(** The cell type [linear_copy] gives a cell of type [t]. *)
Definition linear_type (t : Z) : Z :=
  if t =? VTK_QUADRATIC_TETRA then VTK_TETRA
  else if t =? VTK_QUADRATIC_PYRAMID then VTK_PYRAMID
  else if t =? VTK_QUADRATIC_WEDGE then VTK_WEDGE
  else if t =? VTK_QUADRATIC_HEXAHEDRON then VTK_HEXAHEDRON
  else if t =? VTK_QUADRATIC_QUAD then VTK_QUAD
  else if t =? VTK_QUADRATIC_TRIANGLE then VTK_TRIANGLE
  else t.

(** A cell of type [of_type] keeps its first [n] points, the [n] that
    follow become copies of the first point; other cells stay. *)
Definition collapse (t of_type : Z) (n : nat) (c : list Z) : list Z :=
  if t =? of_type then take n c ++ replicate n (hd 0 c) else c.

(** The points [linear_copy] leaves in a cell of type [t]: the mid-side
    nodes of a quadratic quadrilateral or triangle are overwritten with
    its first point. *)
Definition linear_cell (t : Z) (c : list Z) : list Z :=
  collapse t VTK_QUADRATIC_TRIANGLE 3 (collapse t VTK_QUADRATIC_QUAD 4 c).

(** The six cell types [linear_copy] converts. *)
Definition is_quadratic (t : Z) : bool :=
  bool_decide (t ∈ [VTK_QUADRATIC_TRIANGLE; VTK_QUADRATIC_QUAD; VTK_QUADRATIC_TETRA;
                    VTK_QUADRATIC_HEXAHEDRON; VTK_QUADRATIC_WEDGE; VTK_QUADRATIC_PYRAMID]).

(** Two grids that differ in the point ids of their cells at most. *)
Definition same_frame (g g' : vtkUnstructuredGrid) : Prop :=
  ug_points g' = ug_points g /\ ug_types g' = ug_types g
  /\ ug_locations g' = ug_locations g
  /\ GetNumberOfCells (ug_cells g') = GetNumberOfCells (ug_cells g)
  /\ GetOffsetsArray (ug_cells g') = GetOffsetsArray (ug_cells g).

(** A quadratic quadrilateral has 8 points, a quadratic triangle 6. *)
Definition quadratic_sized (t : Z) (c : list Z) : Prop :=
  (t = VTK_QUADRATIC_QUAD -> length c = 8%nat)
  /\ (t = VTK_QUADRATIC_TRIANGLE -> length c = 6%nat).

(** The start of each block in the concatenation of [blocks] put at
    position [o]. *)
Fixpoint starts_from (o : Z) (blocks : list (list Z)) : list Z :=
  match blocks with
  | [] => []
  | b :: bs => o :: starts_from (o + Z.of_nat (length b)) bs
  end.

(** Writing [vals] at position [k] of the blocks the mask selects. *)
Definition write_blocks (k : nat) (mask : list bool) (vals : list Z)
    (blocks : list (list Z)) : list (list Z) :=
  zip_with (fun (mv : bool * Z) b => if fst mv then <[k := snd mv]> b else b)
           (zip mask vals) blocks.

(** The cells with their point counts in front, as the flat encoding
    lists them. *)
Definition frames (cells : list (list Z)) : list (list Z) :=
  map (fun c => Z.of_nat (length c) :: c) cells.

(** An object on which [if x:] takes the else branch. *)
Definition falsy (o : PyObj) : Prop := truthy o = Ok false.

(** The argument lists the [UnstructuredGrid] constructor has a branch
    for. *)
Definition UnstructuredGrid_signature (args : list PyObj) : bool :=
  match args with
  | [] => true
  | [arg0] => UnstructuredGrid_accepts arg0
  | [arg0; arg1] =>
      match arg0, arg1 with
      | PyDict _, PyNdarray _ => true
      | _, _ => false
      end
  | [arg0; arg1; arg2] => is_ndarray arg0 && is_ndarray arg1 && is_ndarray arg2
  | [arg0; arg1; arg2; arg3] =>
      is_ndarray arg0 && is_ndarray arg1 && is_ndarray arg2 && is_ndarray arg3
  | _ => false
  end.

(** The argument lists the [StructuredGrid] constructor has a branch for:
    a VTK structured grid, a file name given as a string, or three
    arrays. *)
Definition StructuredGrid_signature (args : list PyObj) : bool :=
  match args with
  | [arg0] =>
      match arg0 with
      | PyVtkStructuredGrid _ | PyStr _ => true
      | _ => false
      end
  | [arg0; arg1; arg2] => is_ndarray arg0 && is_ndarray arg1 && is_ndarray arg2
  | _ => false
  end.

(** The range and the step an integer or a slice selects along an axis of
    [d] points: first index, last index, step. *)
Definition item_range (d : Z) (k : key_item) : option (Z * Z * Z) :=
  match k with
  | KeyInt k => Some (k, k, 1)
  | KeySlice start stop step =>
      Some (default 0 start, match stop with Some s => s - 1 | None => d end, default 1 step)
  | _ => None
  end.

(** The number of cells along each axis of a grid with [dims] points
    along them. *)
Definition cell_extents (dims : list Z) : list nat :=
  map (fun d => Z.to_nat (Z.max (d - 1) 1)) dims.

(** [a[..., c]]: component [c] along the last axis. *)
Definition last_axis (a : ndarray) (c : nat) : ndarray :=
  let s := take (length (shape a) - 1) (shape a) in
  {| dtype := dtype a; shape := s;
     data := map (fun row => nth c row 0)
                 (chunks (default 0%nat (last (shape a))) (prod_list s) (data a)) |}.

(** Component [c] of each of the [p] consecutive groups of [m] elements. *)
Definition comp (m c : nat) (p : nat) (d : list Z) : list Z :=
  map (fun row => nth c row 0) (chunks m p d).

(** ** Properties *)

(** *** Shape check of [StructuredGrid] *)

(** C7: three arrays whose shapes are not all equal make the
    [StructuredGrid] constructor raise a [ValueError]. *)
Theorem StructuredGrid_init_shape_mismatch (x y z : ndarray) :
  ~ (shape x = shape y /\ shape y = shape z) ->
  StructuredGrid__init__ [PyNdarray x; PyNdarray y; PyNdarray z]
  = Raise (ValueError "Input point array shapes must match exactly").
Proof.
  intros Hne. cbn [StructuredGrid__init__].
  unfold StructuredGrid_from_arrays.
  destruct (bool_decide (shape x = shape y)) eqn:Exy;
    destruct (bool_decide (shape y = shape z)) eqn:Eyz; cbn; try reflexivity.
  apply bool_decide_eq_true in Exy, Eyz. tauto.
Qed.

(** *** Triangle meshes *)

Lemma first_of_four_all (c : Z) (n : nat) (l : list Z) :
  length l = (4 * n)%nat ->
  forallb (fun v => v =? c) (first_of_four l) = true
  <-> forall i : nat, (i < n)%nat -> l !! (4 * i)%nat = Some c.
Proof.
  revert l. induction n as [|n IH]; intros l Hlen.
  - destruct l; [|discriminate]. cbn. split; [intros _ i Hi; lia | reflexivity].
  - destruct l as [|a [|b [|c' [|d rest]]]]; try (cbn in Hlen; lia).
    cbn [first_of_four forallb]. rewrite andb_true_iff, Z.eqb_eq.
    rewrite (IH rest) by (cbn in Hlen; lia). split.
    + intros [-> Hrest] [|i] Hi; [reflexivity|].
      replace (4 * S i)%nat with (S (S (S (S (4 * i))))) by lia.
      cbn. apply Hrest. lia.
    + intros Hall. split.
      * specialize (Hall 0%nat ltac:(lia)). cbn in Hall. congruence.
      * intros i Hi. specialize (Hall (S i) ltac:(lia)).
        replace (4 * S i)%nat with (S (S (S (S (4 * i))))) in Hall by lia.
        exact Hall.
Qed.

Lemma np_size_id_array (l : list Z) : np_size (id_array l) = length l.
Proof. unfold np_size, id_array; cbn. lia. Qed.

Lemma np_len_faces (self : vtkPolyData) :
  np_len (PolyData_faces self) = Z.of_nat (length (GetData (pd_polys self))).
Proof. reflexivity. Qed.

Lemma np_size_faces (self : vtkPolyData) :
  np_size (PolyData_faces self) = length (GetData (pd_polys self)).
Proof. apply np_size_id_array. Qed.

Lemma np_len_verts (self : vtkPolyData) :
  np_len (PolyData_verts self) = Z.of_nat (length (GetData (pd_verts self))).
Proof. reflexivity. Qed.

Lemma np_len_lines (self : vtkPolyData) :
  np_len (PolyData_lines self) = Z.of_nat (length (GetData (pd_lines self))).
Proof.
  unfold PolyData_lines, ravel, np_len; cbn [shape].
  rewrite np_size_id_array. reflexivity.
Qed.

(** C8: [is_all_triangles] answers [True] exactly when the faces array is
    not empty, the lines and verts arrays are empty, the length of the
    faces array is a multiple of 4 and every entry at an index that is a
    multiple of 4 is 3. *)
Theorem is_all_triangles_spec (self : vtkPolyData) :
  is_all_triangles self = true
  <-> data (PolyData_faces self) <> []
      /\ data (PolyData_lines self) = []
      /\ data (PolyData_verts self) = []
      /\ (length (data (PolyData_faces self)) mod 4 = 0)%nat
      /\ forall i : nat, (4 * i < length (data (PolyData_faces self)))%nat ->
           data (PolyData_faces self) !! (4 * i)%nat = Some 3.
Proof.
  unfold is_all_triangles.
  rewrite np_size_faces, np_len_faces, np_len_lines, np_len_verts.
  unfold PolyData_faces, PolyData_lines, PolyData_verts, ravel, id_array;
    cbn [data].
  set (F := GetData (pd_polys self)).
  set (L := GetData (pd_lines self)).
  set (V := GetData (pd_verts self)).
  destruct (Z.eqb_spec (Z.of_nat (length F)) 0) as [HF|HF]; cbn [orb].
  { split; [discriminate|]. intros [HF' _]. destruct F; [congruence | cbn in HF; lia]. }
  destruct (Z.ltb_spec 0 (Z.of_nat (length L))) as [HL|HL]; cbn [orb].
  { split; [discriminate|]. intros (_ & HL' & _). rewrite HL' in HL. cbn in HL. lia. }
  destruct (Z.ltb_spec 0 (Z.of_nat (length V))) as [HV|HV]; cbn [orb].
  { split; [discriminate|]. intros (_ & _ & HV' & _). rewrite HV' in HV. cbn in HV. lia. }
  assert (L = []) as HL0 by (destruct L; [reflexivity | cbn in HL; lia]).
  assert (V = []) as HV0 by (destruct V; [reflexivity | cbn in HV; lia]).
  assert (F <> []) as HF0 by (intros ->; cbn in HF; lia).
  rewrite andb_true_iff, Z.eqb_eq.
  split.
  - intros [Hmod Hall]. repeat split; try assumption.
    + apply Nat2Z.inj. rewrite Nat2Z.inj_mod. exact Hmod.
    + assert (length F = 4 * (length F / 4))%nat as Hlen.
      { apply Nat.Div0.div_exact. apply Nat2Z.inj. rewrite Nat2Z.inj_mod. exact Hmod. }
      intros i Hi. apply (first_of_four_all 3 _ F Hlen); [exact Hall | lia].
  - intros (_ & _ & _ & Hmod & Hall).
    assert (length F = 4 * (length F / 4))%nat as Hlen
      by (apply Nat.Div0.div_exact; exact Hmod).
    split.
    + rewrite <- (Nat2Z.inj_mod _ 4). rewrite Hmod. reflexivity.
    + apply (first_of_four_all 3 _ F Hlen). intros i Hi. apply Hall. lia.
Qed.

(** *** Constructor dispatch on the type of the first argument *)

Lemma make_vertex_cells_none : _make_vertex_cells 0 = Ok (np_empty [0%nat; 2%nat] ID_TYPE).
Proof. reflexivity. Qed.

Lemma SetCells_nil (n : Z) : n = 0 -> SetCells n [] = Ok vtkCellArray_new.
Proof. intros ->. unfold SetCells, vtkCellArray_new. destruct VTK9; reflexivity. Qed.

(** C3 (the [PolyData] half fails): an integer is none of the accepted
    kinds of first argument, yet [PolyData(5)] raises nothing and returns
    an empty mesh: the [TypeError] is built without being raised. *)
Theorem PolyData_init_int_returns (deep : bool) :
  PolyData__init__ (PyInt 5) PyNone PyNone PyNone PyNone deep = Ok vtkPolyData_new.
Proof.
  unfold PolyData__init__, set_vertex_cells, PolyData_n_points.
  cbn [is_None andb negb mbind result_bind vtkPolyData_new pd_points].
  rewrite make_vertex_cells_none. cbn [mbind result_bind].
  unfold CellArray. cbn [is_None np_asarray mbind result_bind].
  change (data (astype float_convert ID_TYPE (ravel (np_empty [0%nat; 2%nat] ID_TYPE))))
    with (@nil Z).
  rewrite SetCells_nil by reflexivity. reflexivity.
Qed.

(** The [UnstructuredGrid] constructor does raise: a single argument that
    is neither a VTK grid nor a file name gives a [TypeError], and so do
    three arguments that are not all arrays. *)
Lemma UnstructuredGrid_init_bad_type (arg0 : PyObj) (deep : bool) :
  UnstructuredGrid_accepts arg0 = false ->
  UnstructuredGrid__init__ [arg0] deep = Raise (TypeError "Cannot work with input type").
Proof. destruct arg0; cbn; intros Hacc; try discriminate; reflexivity. Qed.

Lemma UnstructuredGrid_init_three_not_arrays (arg0 arg1 arg2 : PyObj) (deep : bool) :
  is_ndarray arg0 && is_ndarray arg1 && is_ndarray arg2 = false ->
  UnstructuredGrid__init__ [arg0; arg1; arg2] deep
  = Raise (TypeError "All input types must be np.ndarray").
Proof.
  destruct arg0; cbn; intros Hacc; try reflexivity;
    destruct arg1; cbn in *; try reflexivity;
    destruct arg2; cbn in *; try reflexivity; discriminate.
Qed.

(** *** Consistency of the sizes of an unstructured grid *)

Lemma np_size_celltypes (g : vtkUnstructuredGrid) :
  np_size (UnstructuredGrid_celltypes g) = length (data (UnstructuredGrid_celltypes g)).
Proof. unfold np_size, UnstructuredGrid_celltypes; cbn. lia. Qed.

Lemma np_size_offset (g : vtkUnstructuredGrid) :
  np_size (UnstructuredGrid_offset g) = length (data (UnstructuredGrid_offset g)).
Proof.
  unfold UnstructuredGrid_offset. destruct VTK9; apply np_size_id_array.
Qed.

Lemma check_for_consistency_ok (g : vtkUnstructuredGrid) :
  _check_for_consistency g = Ok tt <-> sizes_consistent g.
Proof.
  unfold _check_for_consistency, sizes_consistent.
  rewrite np_size_celltypes, np_size_offset.
  destruct VTK9; repeat case_decide; split; intros Hc;
    try discriminate; try reflexivity; lia.
Qed.

Lemma check_for_consistency_raises (g : vtkUnstructuredGrid) :
  ~ sizes_consistent g -> exists msg, _check_for_consistency g = Raise (ValueError msg).
Proof.
  intros Hn. destruct (_check_for_consistency g) as [[]|e] eqn:E.
  - exfalso. apply Hn, check_for_consistency_ok, E.
  - revert E. unfold _check_for_consistency.
    destruct VTK9; repeat case_decide; intros E; inversion E; eauto.
Qed.

Lemma init_after_assembly (deep : bool) (args : list PyObj) (r : result vtkUnstructuredGrid) :
  assembles deep args r ->
  UnstructuredGrid__init__ args deep
  = (self ← r; _ ← _check_for_consistency self; Ok self).
Proof. intros Ha. destruct Ha; reflexivity. Qed.

(** C1: when the constructor has assembled a grid from arrays or from a
    cells dictionary, construction returns that grid exactly if the
    cell-type array has as many entries as there are cells and the offset
    array has one entry more than that under VTK 9, as many before; it
    returns no other grid, and any mismatch raises a [ValueError]. *)
Theorem UnstructuredGrid_init_sizes (deep : bool) (args : list PyObj)
    (g : vtkUnstructuredGrid) :
  assembles deep args (Ok g) ->
  (UnstructuredGrid__init__ args deep = Ok g <-> sizes_consistent g)
  /\ (forall g', UnstructuredGrid__init__ args deep = Ok g' -> g' = g /\ sizes_consistent g')
  /\ (~ sizes_consistent g ->
      exists msg, UnstructuredGrid__init__ args deep = Raise (ValueError msg)).
Proof.
  intros Ha. rewrite (init_after_assembly _ _ _ Ha). cbn [mbind result_bind].
  destruct (_check_for_consistency g) as [[]|e] eqn:E; cbn [mbind result_bind].
  - pose proof (proj1 (check_for_consistency_ok g) E) as Hc.
    split; [tauto|]. split; [|tauto].
    intros g' Hg'. inversion Hg'; subst. tauto.
  - assert (~ sizes_consistent g) as Hn.
    { intros Hc. apply check_for_consistency_ok in Hc. congruence. }
    split; [split; [discriminate | tauto]|].
    split; [discriminate|].
    intros _. destruct (check_for_consistency_raises g Hn) as [msg Hmsg].
    exists msg. congruence.
Qed.

(** *** The size check on boolean masks *)

Lemma assign_at_not_ValueError (a : ndarray) (inds : list Z) (v : Z) (msg : string) :
  assign_at a inds v <> Raise (ValueError msg).
Proof. unfold assign_at. destruct (assign_indices _ _ _); discriminate. Qed.

(** Index assignment raises nothing but [IndexError]. *)
Lemma setitem_not_ValueError (a : ndarray) (ind : PyObj) (v : Z) (msg : string) :
  setitem a ind v <> Raise (ValueError msg).
Proof.
  unfold setitem. destruct ind as [| [|] | | | | items | | i | | | |]; try discriminate.
  - apply assign_at_not_ValueError.
  - destruct items as [|o items]; [discriminate|].
    destruct (bools_of (o :: items)), (ints_of (o :: items));
      try case_decide; try discriminate; apply assign_at_not_ValueError.
  - repeat case_decide; try discriminate.
    destruct (is_float (dtype i)); [discriminate | apply assign_at_not_ValueError].
Qed.

(** The check itself, as both methods run it. *)
Lemma mask_check_cases (ind : PyObj) (n : Z) :
  (match ind with
   | PyNdarray a =>
       if bool_decide (dtype a = np_bool) && negb (Z.of_nat (np_size a) =? n)
       then Raise (ValueError "Boolean array size must match the number of cells")
       else Ok tt
   | _ => Ok tt
   end = Ok tt
   /\ forall a, ind = PyNdarray a -> dtype a = np_bool -> Z.of_nat (np_size a) = n)
  \/ (exists a, ind = PyNdarray a /\ dtype a = np_bool /\ Z.of_nat (np_size a) <> n).
Proof.
  destruct ind as [| | | | | | | a | | | |];
    try (left; split; [reflexivity | intros ? [=]]).
  destruct (decide (dtype a = np_bool)) as [Hd|Hd].
  - destruct (Z.eqb_spec (Z.of_nat (np_size a)) n) as [Hs|Hs].
    + left. rewrite bool_decide_eq_true_2 by assumption. cbn. split; [reflexivity|].
      intros ? [= <-] _. exact Hs.
    + right. eauto.
  - left. rewrite bool_decide_eq_false_2 by assumption. cbn. split; [reflexivity|].
    intros ? [= <-] Hd'. contradiction.
Qed.

(** C4: a boolean array whose size differs from the number of cells makes
    [PointSet.remove_cells] and [StructuredGrid.hide_cells] raise the
    [ValueError] of the size check; with a boolean array of the right
    size, or with any other index argument, neither raises it. *)
Theorem boolean_mask_size_check (h : store) (self : loc) (m : DataSet)
    (g : vtkStructuredGrid) (ind : PyObj) (inplace : bool) :
  h !! self = Some m ->
  let err := ValueError "Boolean array size must match the number of cells" in
  (forall a, ind = PyNdarray a -> dtype a = np_bool ->
     (Z.of_nat (np_size a) <> Z.of_nat (length (ds_cells m)) ->
      remove_cells h self ind inplace = Raise err)
     /\ (Z.of_nat (np_size a) <> StructuredGrid_n_cells g ->
         hide_cells g ind = Raise err))
  /\ ((forall a, ind = PyNdarray a -> dtype a = np_bool ->
         Z.of_nat (np_size a) = Z.of_nat (length (ds_cells m))) ->
      remove_cells h self ind inplace <> Raise err)
  /\ ((forall a, ind = PyNdarray a -> dtype a = np_bool ->
         Z.of_nat (np_size a) = StructuredGrid_n_cells g) ->
      hide_cells g ind <> Raise err).
Proof.
  intros Hself err. repeat split.
  - intros Hsize. subst ind. unfold remove_cells. rewrite Hself.
    rewrite bool_decide_eq_true_2 by assumption.
    destruct (Z.eqb_spec (Z.of_nat (np_size a)) (Z.of_nat (length (ds_cells m))));
      [contradiction | reflexivity].
  - intros Hsize. subst ind. unfold hide_cells.
    rewrite bool_decide_eq_true_2 by assumption.
    destruct (Z.eqb_spec (Z.of_nat (np_size a)) (StructuredGrid_n_cells g));
      [contradiction | reflexivity].
  - intros Hok. unfold remove_cells. rewrite Hself.
    destruct (mask_check_cases ind (Z.of_nat (length (ds_cells m))))
      as [[-> _] | (a & -> & Hd & Hs)]; [|exfalso; eauto].
    cbn [mbind result_bind].
    destruct (setitem _ ind DUPLICATECELL) as [ghost|e] eqn:E; cbn [mbind result_bind].
    + destruct inplace; [discriminate|]. destruct (copy h m). discriminate.
    + intros [= ->]. exact (setitem_not_ValueError _ _ _ _ E).
  - intros Hok. unfold hide_cells.
    destruct (mask_check_cases ind (StructuredGrid_n_cells g))
      as [[-> _] | (a & -> & Hd & Hs)]; [|exfalso; eauto].
    cbn [mbind result_bind].
    destruct (setitem _ ind HIDDENCELL) as [ghost|e] eqn:E; cbn [mbind result_bind].
    + discriminate.
    + intros [= ->]. exact (setitem_not_ValueError _ _ _ _ E).
Qed.

(** *** The count-prefixed encoding of cell arrays *)

Lemma padded_cons (c : list Z) (cs : list (list Z)) :
  padded (c :: cs) = Z.of_nat (length c) :: c ++ padded cs.
Proof. reflexivity. Qed.

Lemma parse_legacy_padded (cells : list (list Z)) (fuel : nat) :
  (length (padded cells) <= fuel)%nat ->
  parse_legacy fuel (padded cells) = Some cells.
Proof.
  revert fuel. induction cells as [|c cs IH]; intros fuel Hfuel.
  - destruct fuel; reflexivity.
  - rewrite padded_cons in *. cbn [length] in Hfuel.
    rewrite length_app in Hfuel.
    destruct fuel as [|fuel]; [lia|]. cbn [parse_legacy].
    rewrite bool_decide_eq_true_2 by (rewrite length_app; lia).
    rewrite Nat2Z.id, drop_app_length, take_app_length.
    rewrite IH by lia. reflexivity.
Qed.

Lemma offsets_from_head (o : Z) (cells : list (list Z)) :
  exists rest, offsets_from o cells = o :: rest.
Proof. destruct cells; cbn; eauto. Qed.

Lemma length_offsets_from (o : Z) (cells : list (list Z)) :
  length (offsets_from o cells) = S (length cells).
Proof. revert o. induction cells as [|c cs IH]; intros o; cbn; [|rewrite IH]; reflexivity. Qed.

Lemma export_offsets_from (cells : list (list Z)) (pre : list Z) :
  ExportLegacyFormat (offsets_from (Z.of_nat (length pre)) cells) (pre ++ concat cells)
  = padded cells.
Proof.
  revert pre. induction cells as [|c cs IH]; intros pre; [reflexivity|].
  rewrite padded_cons. cbn [offsets_from concat].
  specialize (IH (pre ++ c)).
  rewrite length_app, Nat2Z.inj_add, <- app_assoc in IH.
  destruct (offsets_from_head (Z.of_nat (length pre) + Z.of_nat (length c)) cs)
    as [rest Hrest].
  rewrite Hrest in *. cbn [ExportLegacyFormat].
  replace (Z.of_nat (length pre) + Z.of_nat (length c) - Z.of_nat (length pre))
    with (Z.of_nat (length c)) by lia.
  rewrite !Nat2Z.id, drop_app_length, take_app_length.
  f_equal. f_equal. exact IH.
Qed.

Lemma ImportLegacyFormat_padded (cells : list (list Z)) :
  ImportLegacyFormat (padded cells)
  = Some (OffsetCells (offsets_from 0 cells) (concat cells)).
Proof.
  unfold ImportLegacyFormat. rewrite parse_legacy_padded by lia. reflexivity.
Qed.

(** Storing a count-prefixed array in a cell array and reading it back
    returns it; VTK 9 counts the cells itself. *)
Lemma SetCells_padded (n : Z) (cells : list (list Z)) :
  exists c, SetCells n (padded cells) = Ok c
    /\ GetData c = padded cells
    /\ GetNumberOfCells c = if VTK9 then Z.of_nat (length cells) else n.
Proof.
  unfold SetCells. destruct VTK9.
  - rewrite ImportLegacyFormat_padded. eexists. split; [reflexivity|]. split.
    + exact (export_offsets_from cells []).
    + cbn. rewrite length_offsets_from. lia.
  - eexists. split; [reflexivity|]. split; reflexivity.
Qed.

Lemma convert_to_ids (src : np_dtype) (v : Z) :
  is_float src = false -> in_range np_int64 v -> convert float_convert src ID_TYPE v = v.
Proof.
  intros Hf Hr. unfold convert. case_decide; [reflexivity|].
  rewrite Hf. cbn. exact Hr.
Qed.

Lemma map_convert_to_ids (src : np_dtype) (l : list Z) :
  is_float src = false -> Forall (in_range np_int64) l ->
  map (convert float_convert src ID_TYPE) l = l.
Proof.
  intros Hf Hl. induction Hl as [|v l Hv Hl IH]; [reflexivity|].
  cbn. rewrite convert_to_ids, IH by assumption. reflexivity.
Qed.

Lemma map_convert_same (d : np_dtype) (l : list Z) :
  map (convert float_convert d d) l = l.
Proof.
  induction l as [|v l IH]; [reflexivity|]. cbn. rewrite IH.
  unfold convert. rewrite decide_True by reflexivity. reflexivity.
Qed.

Lemma GetNumberOfCells_new : GetNumberOfCells vtkCellArray_new = 0.
Proof. unfold vtkCellArray_new. destruct VTK9; reflexivity. Qed.

(** *** Point clouds *)

Lemma chunks_concat_replicate (k n : nat) (row : list Z) :
  length row = k -> chunks k n (concat (replicate n row)) = replicate n row.
Proof.
  intros <-. induction n as [|n IH]; [reflexivity|].
  cbn. rewrite take_app_length, drop_app_length, IH. reflexivity.
Qed.

Lemma map_replicate {A B} (f : A -> B) (n : nat) (x : A) :
  map f (replicate n x) = replicate n (f x).
Proof. induction n as [|n IH]; [reflexivity|]. cbn. rewrite IH. reflexivity. Qed.

Lemma replicate_pairs (n : nat) (v : Z) :
  replicate (n * 2) v = concat (replicate n [v; v]).
Proof. induction n as [|n IH]; [reflexivity|]. cbn. rewrite IH. reflexivity. Qed.

Lemma zip_vertex_rows (n k : nat) :
  concat (zip_with (fun row v => <[1%nat := v]> row) (replicate n [1; 0])
            (map Z.of_nat (seq k n)))
  = flat_map (fun i => [1; Z.of_nat i]) (seq k n).
Proof.
  revert k. induction n as [|n IH]; intros k; [reflexivity|].
  cbn. rewrite IH. reflexivity.
Qed.

Lemma make_vertex_cells_spec (npoints : Z) :
  _make_vertex_cells npoints
  = Ok {| dtype := ID_TYPE; shape := [Z.to_nat npoints; 2%nat];
          data := vertex_cells (Z.to_nat npoints) |}.
Proof.
  unfold _make_vertex_cells, vertex_cells. generalize (Z.to_nat npoints) as n. intros n.
  assert (rows_of (fill_column (np_empty [n; 2%nat] ID_TYPE) 0 1) = replicate n [1; 0]) as Hrows.
  { unfold fill_column, np_empty; cbn [shape data prod_list foldr].
    replace (n * (2 * 1))%nat with (n * 2)%nat by lia.
    unfold rows_of; cbn [shape data].
    rewrite replicate_pairs, chunks_concat_replicate by reflexivity.
    rewrite map_replicate. cbn.
    apply chunks_concat_replicate. reflexivity. }
  unfold assign_column. rewrite Hrows.
  rewrite decide_True by (cbn; rewrite length_map, length_seq, length_replicate; reflexivity).
  cbn [np_arange data]. rewrite zip_vertex_rows. reflexivity.
Qed.

Lemma vertex_cells_padded (n : nat) :
  vertex_cells n = padded (map (fun i => [Z.of_nat i]) (seq 0 n)).
Proof.
  unfold vertex_cells, padded. generalize 0%nat as k.
  induction n as [|n IH]; intros k; [reflexivity|]. cbn. rewrite IH. reflexivity.
Qed.

Lemma PolyData_n_points_nat (self : vtkPolyData) :
  Z.of_nat (Z.to_nat (PolyData_n_points self)) = PolyData_n_points self.
Proof.
  unfold PolyData_n_points, GetNumberOfPoints.
  destruct (pd_points self) as [p|]; [|reflexivity].
  destruct (shape (pts_data p)); [reflexivity | lia].
Qed.

(** The point-cloud step stores one vertex cell per point. *)
Lemma set_vertex_cells_spec (self : vtkPolyData) (deep : bool) :
  exists c, set_vertex_cells self deep = Ok (SetVerts self c)
    /\ GetData c = vertex_cells (Z.to_nat (PolyData_n_points self))
    /\ GetNumberOfCells c = PolyData_n_points self.
Proof.
  unfold set_vertex_cells. rewrite make_vertex_cells_spec. cbn [mbind result_bind].
  unfold CellArray. cbn [is_None np_asarray mbind result_bind].
  unfold astype, ravel; cbn [dtype data shape].
  rewrite map_convert_same, vertex_cells_padded.
  destruct (SetCells_padded (PolyData_n_points self)
              (map (fun i => [Z.of_nat i]) (seq 0 (Z.to_nat (PolyData_n_points self)))))
    as (c & Hc & Hdata & Hn).
  rewrite Hc. cbn [mbind result_bind PolyData_set_verts].
  exists c. split; [reflexivity|]. split; [exact Hdata|].
  rewrite Hn, length_map, length_seq, PolyData_n_points_nat.
  destruct VTK9; reflexivity.
Qed.

(** C9: a [PolyData] built from a points array (or list) alone has one
    vertex cell per point: its verts array is [1, 0, 1, 1, ..., 1, n-1]
    for its [n] points and it has as many cells as points; the
    construction succeeds whenever the points are accepted. *)
Theorem PolyData_point_cloud (var_inp n_faces n_lines : PyObj) (deep : bool) :
  (exists a, var_inp = PyNdarray a) \/ (exists items, var_inp = PyList items) ->
  (forall self,
     PolyData__init__ var_inp PyNone n_faces PyNone n_lines deep = Ok self ->
     PolyData_verts self
     = id_array (vertex_cells (Z.to_nat (PolyData_n_points self)))
     /\ PolyData_n_cells self = PolyData_n_points self)
  /\ (forall points p,
        np_asarray var_inp = Ok points -> vtk_points points deep = Ok p ->
        exists self,
          PolyData__init__ var_inp PyNone n_faces PyNone n_lines deep = Ok self
          /\ pd_points self = Some p).
Proof.
  intros Hkind.
  assert (PolyData__init__ var_inp PyNone n_faces PyNone n_lines deep
          = (points ← np_asarray var_inp;
             p ← vtk_points points deep;
             set_vertex_cells (PolyData_SetPoints vtkPolyData_new p) deep)) as Hinit.
  { destruct Hkind as [[a ->] | [items ->]]; unfold PolyData__init__;
      cbn [is_None andb negb];
      destruct (np_asarray _) as [points|e]; cbn [mbind result_bind]; try reflexivity;
      destruct (vtk_points points deep) as [p|e]; cbn [mbind result_bind]; try reflexivity;
      destruct (set_vertex_cells _ deep); reflexivity. }
  rewrite Hinit. clear Hinit. split.
  - intros self.
    destruct (np_asarray var_inp) as [points|e]; cbn [mbind result_bind]; [|discriminate].
    destruct (vtk_points points deep) as [p|e]; cbn [mbind result_bind]; [|discriminate].
    destruct (set_vertex_cells_spec (PolyData_SetPoints vtkPolyData_new p) deep)
      as (c & -> & Hdata & Hn).
    intros [= <-]. unfold PolyData_verts, PolyData_n_cells.
    cbn [SetVerts pd_verts pd_lines pd_polys pd_strips PolyData_SetPoints vtkPolyData_new].
    rewrite Hdata, Hn, !GetNumberOfCells_new. split; [reflexivity|].
    unfold PolyData_n_points; cbn [SetVerts PolyData_SetPoints pd_points]. lia.
  - intros points p -> . cbn [mbind result_bind]. intros ->. cbn [mbind result_bind].
    destruct (set_vertex_cells_spec (PolyData_SetPoints vtkPolyData_new p) deep)
      as (c & -> & _). eexists. split; reflexivity.
Qed.

(** *** Faces and lines read back *)

Lemma CellArray_padded (a : ndarray) (n_cells : PyObj) (deep : bool) :
  is_padded_array a -> is_count n_cells ->
  exists c, CellArray (PyNdarray a) n_cells deep = Ok c /\ GetData c = data a.
Proof.
  intros (Hshape & Hfloat & Hrange & cells & Hcells) Hcount.
  unfold CellArray. cbn [is_None np_asarray mbind result_bind].
  unfold astype, ravel; cbn [dtype data shape].
  rewrite map_convert_to_ids by assumption. rewrite Hcells.
  assert (exists n, match n_cells with
                    | PyInt n => Ok n
                    | PyNone =>
                        match shape a with
                        | [_] =>
                            match parse_legacy (length (padded cells)) (padded cells) with
                            | Some cs => Ok (Z.of_nat (length cs))
                            | None => Raise (OtherError "id array is not count-prefixed")
                            end
                        | n :: _ => Ok (Z.of_nat n)
                        | [] => Ok 1
                        end
                    | _ => Raise (TypeError "n_cells must be an integer")
                    end = Ok n) as [n ->].
  { destruct Hcount as [-> | [k ->]]; [|eauto].
    rewrite Hshape, parse_legacy_padded by lia. eauto. }
  cbn [mbind result_bind].
  destruct (SetCells_padded n cells) as (c & Hc & Hdata & _). eauto.
Qed.

(** C6: a [PolyData] built from points and a flat count-prefixed faces
    array gives that array back as its [faces]; assigning such an array to
    [lines] and reading [lines] gives it back as well. *)
Theorem PolyData_faces_lines_roundtrip (points arr : ndarray) (p : vtkPoints)
    (n_faces n_lines : PyObj) (deep : bool) :
  is_padded_array arr -> is_count n_faces -> vtk_points points deep = Ok p ->
  (exists self,
     PolyData__init__ (PyNdarray points) (PyNdarray arr) n_faces PyNone n_lines deep = Ok self
     /\ shape (PolyData_faces self) = shape arr
     /\ data (PolyData_faces self) = data arr)
  /\ (forall self, exists self',
        PolyData_set_lines self (NotCellArray (PyNdarray arr)) = Ok self'
        /\ shape (PolyData_lines self') = shape arr
        /\ data (PolyData_lines self') = data arr).
Proof.
  intros Harr Hcount Hp. split.
  - unfold PolyData__init__. cbn [np_asarray is_None andb negb mbind result_bind].
    rewrite Hp. cbn [mbind result_bind].
    destruct (CellArray_padded arr n_faces deep Harr Hcount) as (c & -> & Hdata).
    cbn [mbind result_bind PolyData_set_faces].
    eexists. split; [reflexivity|].
    unfold PolyData_faces, id_array; cbn [shape data SetPolys pd_polys].
    rewrite Hdata. split; [|reflexivity]. symmetry. apply Harr.
  - intros self. unfold PolyData_set_lines.
    destruct (CellArray_padded arr PyNone false Harr (or_introl eq_refl)) as (c & -> & Hdata).
    cbn [mbind result_bind]. eexists. split; [reflexivity|].
    unfold PolyData_lines, ravel; cbn [shape data dtype].
    rewrite np_size_id_array; cbn [SetLines pd_lines id_array data].
    rewrite Hdata. split; [|reflexivity]. symmetry. apply Harr.
Qed.

(** *** Removing cells *)

Lemma assign_indices_hits (inds : list Z) (l : list Z) (v : Z) :
  Forall (fun j => is_Some (normalize_index (length l) j)) inds ->
  assign_indices l inds v
  = Some (imap (fun i x => if hits (length l) inds i then v else x) l).
Proof.
  revert l. induction inds as [|j inds IH]; intros l Hall.
  - cbn. f_equal. apply list_eq. intros i. rewrite list_lookup_imap.
    destruct (l !! i); reflexivity.
  - apply Forall_cons in Hall. destruct Hall as [[k Hk] Hall].
    cbn [assign_indices]. rewrite Hk. cbn [mbind option_bind].
    rewrite IH by (rewrite length_insert; exact Hall).
    f_equal. apply list_eq. intros i. rewrite !list_lookup_imap, length_insert.
    cbn [hits existsb]. rewrite Hk.
    destruct (decide (k = i)) as [->|Hne].
    + rewrite bool_decide_eq_true_2 by reflexivity. cbn [orb].
      destruct (l !! i) as [x|] eqn:Hl.
      * rewrite list_lookup_insert_eq by (apply lookup_lt_is_Some; eauto).
        cbn. destruct (hits _ inds i); reflexivity.
      * rewrite (proj2 (lookup_ge_None _ _)); [reflexivity|].
        rewrite length_insert. apply lookup_ge_None. exact Hl.
    + rewrite list_lookup_insert_ne by assumption.
      rewrite bool_decide_eq_false_2 by congruence. reflexivity.
Qed.

Lemma imap_replicate_seq (f : nat -> Z -> Z) (n : nat) (x : Z) :
  imap f (replicate n x) = map (fun i => f i x) (seq 0 n).
Proof.
  apply list_eq. intros i. rewrite list_lookup_imap.
  change (map ?g ?l) with (g <$> l). rewrite list_lookup_fmap.
  destruct (decide (i < n)%nat) as [Hi|Hi].
  - rewrite lookup_replicate_2, lookup_seq_lt by assumption. reflexivity.
  - rewrite (proj2 (lookup_ge_None _ _)) by (rewrite length_replicate; lia).
    rewrite lookup_seq_ge by lia. reflexivity.
Qed.

Lemma assign_mask_zeros (mask : list Z) (v : Z) :
  assign_mask (replicate (length mask) 0) mask v
  = map (fun i => if mask_at mask i then v else 0) (seq 0 (length mask)).
Proof.
  unfold assign_mask. apply list_eq. intros i.
  change (map ?f ?l) with (f <$> l). rewrite list_lookup_fmap, lookup_zip_with.
  unfold mask_at.
  destruct (mask !! i) as [b|] eqn:Hm.
  - assert (i < length mask)%nat as Hi by (apply lookup_lt_is_Some; eauto).
    rewrite lookup_replicate_2, lookup_seq_lt by assumption. cbn.
    rewrite Hm. cbn. destruct (b =? 0); reflexivity.
  - apply lookup_ge_None in Hm.
    rewrite lookup_seq_ge by lia.
    destruct (replicate (length mask) 0 !! i); reflexivity.
Qed.

(** Marking the indicated positions of a zeroed ghost array. *)
Lemma setitem_cell_index (n : nat) (ind : PyObj) (sel : nat -> bool) (v : Z) :
  cell_index n ind sel ->
  setitem (np_zeros n np_uint8) ind v
  = Ok {| dtype := np_uint8; shape := [n];
          data := map (fun i => if sel i then v else 0) (seq 0 n) |}.
Proof.
  intros Hind. destruct Hind as [a Hd Hs Hl | a Hd Hf Hall | inds Hall]; unfold setitem.
  - subst n. rewrite decide_True by assumption.
    rewrite decide_True by (rewrite Hs; reflexivity).
    unfold with_data, np_zeros; cbn [dtype shape data].
    rewrite assign_mask_zeros. reflexivity.
  - rewrite decide_False by assumption. rewrite Hf.
    unfold assign_at, np_zeros; cbn [data].
    rewrite assign_indices_hits by (rewrite length_replicate; exact Hall).
    rewrite length_replicate.
    rewrite imap_replicate_seq.
    reflexivity.
  - destruct inds as [|j inds].
    + cbn [map]. unfold np_zeros. f_equal. f_equal. cbn [hits existsb].
      clear. generalize 0%nat as k. induction n as [|n IH]; intros k;
        [reflexivity|]. cbn. rewrite <- IH. reflexivity.
    + cbn [map bools_of].
      assert (ints_of (map PyInt (j :: inds)) = Some (j :: inds)) as Hints.
      { clear. induction (j :: inds) as [|x l IH]; [reflexivity|].
        cbn. rewrite IH. reflexivity. }
      cbn [map] in Hints. rewrite Hints.
      unfold assign_at, np_zeros; cbn [data].
      rewrite assign_indices_hits by (rewrite length_replicate; exact Hall).
      rewrite length_replicate.
      rewrite imap_replicate_seq.
      reflexivity.
Qed.

Lemma ghost_keep (sel : nat -> bool) (l : list nat) :
  map (fun g => Z.land g DUPLICATECELL =? 0)
      (map (fun i => if sel i then DUPLICATECELL else 0) l)
  = map (fun i => negb (sel i)) l.
Proof.
  induction l as [|i l IH]; [reflexivity|]. cbn [map]. rewrite IH.
  destruct (sel i); reflexivity.
Qed.

Lemma RemoveGhostCells_marked (sel : nat -> bool) (m : DataSet) :
  ds_class m <> StructuredGridMesh ->
  RemoveGhostCells
    (set_cell_array GhostArrayName
       {| dtype := np_uint8; shape := [length (ds_cells m)];
          data := map (fun i => if sel i then DUPLICATECELL else 0)
                      (seq 0 (length (ds_cells m))) |} m)
  = without_cells sel m.
Proof.
  intros Hclass.
  unfold RemoveGhostCells, set_cell_array, without_cells;
    cbn [ds_class ds_cell_arrays ds_cells].
  rewrite lookup_insert_eq. cbn [data]. rewrite ghost_keep.
  rewrite fmap_insert, delete_insert_eq, fmap_delete.
  destruct (ds_class m); [reflexivity | reflexivity | contradiction].
Qed.

Lemma cell_index_passes_check (n : nat) (ind : PyObj) (sel : nat -> bool) :
  cell_index n ind sel ->
  match ind with
  | PyNdarray a =>
      if bool_decide (dtype a = np_bool) && negb (Z.of_nat (np_size a) =? Z.of_nat n)
      then Raise (ValueError "Boolean array size must match the number of cells")
      else Ok tt
  | _ => Ok tt
  end = Ok tt.
Proof.
  intros [a Hd Hs Hl | a Hd Hf Hall | inds Hall]; try reflexivity.
  - unfold np_size. rewrite Hs. cbn [prod_list foldr].
    replace (Z.of_nat (n * 1)) with (Z.of_nat n) by lia.
    rewrite Z.eqb_refl, andb_false_r. reflexivity.
  - rewrite bool_decide_eq_false_2 by assumption. reflexivity.
Qed.

(** On a structured grid, which inherits the method, the call marks the
    cells and removes none: with [inplace=True] it returns [None] and the
    grid at [self] has the cells it had. *)
Lemma remove_cells_structured_grid (h : store) (self : loc) (m : DataSet)
    (ind : PyObj) (sel : nat -> bool) :
  h !! self = Some m ->
  ds_class m = StructuredGridMesh ->
  cell_index (length (ds_cells m)) ind sel ->
  exists (h' : store) (m' : DataSet),
    remove_cells h self ind true = Ok (h', None)
    /\ h' !! self = Some m'
    /\ ds_cells m' = ds_cells m
    /\ forall l, l <> self -> h' !! l = h !! l.
Proof.
  intros Hself Hclass Hind. unfold remove_cells. rewrite Hself.
  rewrite (cell_index_passes_check _ _ _ Hind). cbn [mbind result_bind].
  rewrite Nat2Z.id, (setitem_cell_index _ _ _ _ Hind). cbn [mbind result_bind].
  eexists. eexists. split; [reflexivity|].
  rewrite (alter_alt_Some _ _ _ _ Hself). split; [apply lookup_insert_eq|]. split.
  - unfold RemoveGhostCells, set_cell_array; cbn [ds_class ds_cell_arrays ds_cells].
    rewrite Hclass. reflexivity.
  - intros l Hl. apply lookup_insert_ne. congruence.
Qed.

(** C10, amended: for a polygonal mesh or an unstructured grid held at
    [self] and a valid cell-index argument, [remove_cells] with
    [inplace=False] returns a new object that holds the mesh without the
    indicated cells and leaves every object that existed, the original
    included, as it was; with [inplace=True] it returns [None] and the
    object at [self] becomes the mesh without the indicated cells. *)
Theorem remove_cells_effect (h : store) (self : loc) (m : DataSet)
    (ind : PyObj) (sel : nat -> bool) :
  h !! self = Some m ->
  ds_class m <> StructuredGridMesh ->
  cell_index (length (ds_cells m)) ind sel ->
  (exists (h' : store) (new : loc),
     remove_cells h self ind false = Ok (h', Some new)
     /\ h !! new = None
     /\ h' !! new = Some (without_cells sel m)
     /\ h' !! self = Some m
     /\ forall l, l <> new -> h' !! l = h !! l)
  /\ (exists h' : store,
        remove_cells h self ind true = Ok (h', None)
        /\ h' !! self = Some (without_cells sel m)
        /\ forall l, l <> self -> h' !! l = h !! l).
Proof.
  intros Hself Hclass Hind.
  assert (forall inplace,
            remove_cells h self ind inplace
            = let '(h1, target) := if inplace then (h, self) else copy h m in
              Ok (alter (fun _ => without_cells sel m) target h1,
                  if inplace then None else Some target)) as Hrun.
  { intros inplace. unfold remove_cells. rewrite Hself.
    rewrite (cell_index_passes_check _ _ _ Hind). cbn [mbind result_bind].
    rewrite Nat2Z.id, (setitem_cell_index _ _ _ _ Hind). cbn [mbind result_bind].
    destruct (if inplace then (h, self) else copy h m) as [h1 target] eqn:E.
    f_equal. f_equal. apply map_eq. intros l.
    rewrite !lookup_alter. case_decide; [|reflexivity].
    subst l. assert (h1 !! target = Some m) as ->.
    { destruct inplace; inversion E; subst; [exact Hself|].
      apply lookup_insert_eq. }
    cbn. rewrite RemoveGhostCells_marked by exact Hclass. reflexivity. }
  split.
  - rewrite (Hrun false). unfold copy.
    set (new := fresh (dom h)).
    assert (h !! new = None) as Hnew.
    { apply not_elem_of_dom. apply is_fresh. }
    eexists _, new. split; [reflexivity|].
    rewrite alter_insert_eq. split; [exact Hnew|].
    split; [apply lookup_insert_eq|]. split.
    + rewrite lookup_insert_ne; [exact Hself|]. intros ->. congruence.
    + intros l Hl. apply lookup_insert_ne. congruence.
  - rewrite (Hrun true). cbn beta iota. eexists. split; [reflexivity|].
    rewrite (alter_alt_Some _ _ _ _ Hself). split; [apply lookup_insert_eq|].
    intros l Hl. apply lookup_insert_ne. congruence.
Qed.

(** *** Fortran order *)

Lemma length_chunks (k m : nat) (l : list Z) : length (chunks k m l) = m.
Proof. revert l. induction m as [|m IH]; intros l; cbn; [|rewrite IH]; reflexivity. Qed.

Lemma chunks_lengths (k m : nat) (l : list Z) :
  length l = (m * k)%nat -> Forall (fun r => length r = k) (chunks k m l).
Proof.
  revert l. induction m as [|m IH]; intros l Hl; cbn; constructor.
  - rewrite length_take. lia.
  - apply IH. rewrite length_drop. lia.
Qed.

Lemma concat_chunks (k m : nat) (l : list Z) :
  length l = (m * k)%nat -> concat (chunks k m l) = l.
Proof.
  revert l. induction m as [|m IH]; intros l Hl; cbn.
  - destruct l; [reflexivity | discriminate].
  - rewrite IH by (rewrite length_drop; lia). apply take_drop.
Qed.

Lemma chunks_concat (k : nat) (rows : list (list Z)) :
  Forall (fun r => length r = k) rows ->
  chunks k (length rows) (concat rows) = rows.
Proof.
  induction 1 as [|r rows Hr _ IH]; [reflexivity|].
  cbn. subst k. rewrite take_app_length, drop_app_length, IH. reflexivity.
Qed.

Lemma length_concat_uniform (k : nat) (rows : list (list Z)) :
  Forall (fun r => length r = k) rows ->
  length (concat rows) = (length rows * k)%nat.
Proof.
  induction 1 as [|r rows Hr _ IH]; [reflexivity|].
  cbn. rewrite length_app, IH, Hr. reflexivity.
Qed.

Lemma length_transpose (k : nat) (rows : list (list Z)) :
  length (transpose k rows) = k.
Proof. revert rows. induction k as [|k IH]; intros rows; cbn; [|rewrite IH]; reflexivity. Qed.

Lemma transpose_lengths (k : nat) (rows : list (list Z)) :
  Forall (fun c => length c = length rows) (transpose k rows).
Proof.
  revert rows. induction k as [|k IH]; intros rows; cbn; constructor.
  - apply length_map.
  - specialize (IH (map (@tl Z) rows)). rewrite length_map in IH. exact IH.
Qed.

Lemma transpose_cons (k : nat) (r : list Z) (rows : list (list Z)) :
  length r = k ->
  transpose k (r :: rows) = zip_with cons r (transpose k rows).
Proof.
  revert r rows. induction k as [|k IH]; intros r rows Hr.
  - destruct r; [reflexivity | discriminate].
  - destruct r as [|a r]; [discriminate|]. cbn.
    rewrite IH by (cbn in Hr; lia). reflexivity.
Qed.

Lemma map_hd_zip_cons (r : list Z) (cs : list (list Z)) :
  length r = length cs -> map (hd 0) (zip_with cons r cs) = r.
Proof.
  revert cs. induction r as [|a r IH]; intros [|c cs] Hl; try discriminate;
    [reflexivity|]. cbn. rewrite IH by (cbn in Hl; lia). reflexivity.
Qed.

Lemma map_tl_zip_cons (r : list Z) (cs : list (list Z)) :
  length r = length cs -> map (@tl Z) (zip_with cons r cs) = cs.
Proof.
  revert cs. induction r as [|a r IH]; intros [|c cs] Hl; try discriminate;
    [reflexivity|]. cbn. rewrite IH by (cbn in Hl; lia). reflexivity.
Qed.

(** Transposing twice gives the matrix back. *)
Lemma transpose_transpose (k : nat) (rows : list (list Z)) :
  Forall (fun r => length r = k) rows ->
  transpose (length rows) (transpose k rows) = rows.
Proof.
  induction 1 as [|r rows Hr _ IH]; [reflexivity|].
  rewrite transpose_cons by assumption. cbn [length transpose].
  rewrite map_hd_zip_cons, map_tl_zip_cons, IH
    by (rewrite length_transpose; assumption).
  reflexivity.
Qed.

Lemma map_on_Forall {A} (P : A -> Prop) (f g : A -> A) (l : list A) :
  (forall x, P x -> f x = g x) -> Forall P l -> map f l = map g l.
Proof.
  intros Hfg. induction 1 as [|x l Hx _ IH]; [reflexivity|].
  cbn. rewrite Hfg, IH by assumption. reflexivity.
Qed.

Lemma Forall_map_lengths (k : nat) (f : list Z -> list Z) (rows : list (list Z)) :
  (forall r, length r = k -> length (f r) = k) ->
  Forall (fun r => length r = k) rows ->
  Forall (fun r => length r = k) (map f rows).
Proof. intros Hf. induction 1; cbn; constructor; auto. Qed.

Lemma prod_list_cons (n : nat) (s : list nat) :
  prod_list (n :: s) = (n * prod_list s)%nat.
Proof. reflexivity. Qed.

Lemma length_ravel_F_data (s : list nat) (d : list Z) :
  length d = prod_list s -> length (ravel_F_data s d) = prod_list s.
Proof.
  revert d. induction s as [|n s IH]; intros d Hd; [exact Hd|].
  rewrite prod_list_cons in *. cbn [ravel_F_data].
  rewrite (length_concat_uniform n).
  - rewrite length_transpose. lia.
  - eapply Forall_impl; [apply transpose_lengths|].
    intros c Hc. rewrite Hc, length_map, length_chunks. reflexivity.
Qed.

(** Reshaping a Fortran-order flattening in Fortran order, to the same
    shape, gives the array back. *)
Lemma reshape_ravel_F_data (s : list nat) (d : list Z) :
  length d = prod_list s -> reshape_F_data s (ravel_F_data s d) = d.
Proof.
  revert d. induction s as [|n s IH]; intros d Hd; [reflexivity|].
  rewrite prod_list_cons in Hd. cbn [ravel_F_data reshape_F_data].
  set (p := prod_list s) in *.
  set (R := map (ravel_F_data s) (chunks p n d)).
  assert (Forall (fun r => length r = p) R) as HR.
  { apply Forall_map_lengths; [apply length_ravel_F_data|].
    apply chunks_lengths. exact Hd. }
  assert (length R = n) as HRn by (unfold R; rewrite length_map; apply length_chunks).
  assert (chunks n p (concat (transpose p R)) = transpose p R) as ->.
  { rewrite <- (length_transpose p R) at 1. apply chunks_concat.
    rewrite <- HRn. apply transpose_lengths. }
  rewrite <- HRn at 1. rewrite transpose_transpose by exact HR.
  unfold R. rewrite map_map.
  rewrite (map_on_Forall (fun r => length r = p) _ (fun r => r)).
  - rewrite map_id. apply concat_chunks. exact Hd.
  - intros r Hr. apply IH. exact Hr.
  - apply chunks_lengths. exact Hd.
Qed.

Lemma prod_list_app (s t : list nat) :
  prod_list (s ++ t) = (prod_list s * prod_list t)%nat.
Proof.
  induction s as [|n s IH].
  - cbn [app]. change (prod_list []) with 1%nat. lia.
  - cbn [app]. rewrite !prod_list_cons, IH. lia.
Qed.




Lemma lookup_transpose (k : nat) (rows : list (list Z)) (j : nat) :
  (j < k)%nat -> transpose k rows !! j = Some (map (fun r => nth j r 0) rows).
Proof.
  revert rows j. induction k as [|k IH]; intros rows j Hj; [lia|].
  destruct j as [|j]; cbn [transpose].
  - cbn. f_equal. apply map_ext. intros [|a r]; reflexivity.
  - cbn. rewrite IH by lia. f_equal. rewrite map_map. apply map_ext.
    intros [|a r]; [destruct j|]; reflexivity.
Qed.

Lemma lookup_concat_uniform (n : nat) (rows : list (list Z)) (j i : nat) :
  Forall (fun r => length r = n) rows -> (i < n)%nat ->
  concat rows !! (j * n + i)%nat = rows !! j ≫= (fun r => r !! i).
Proof.
  intros Hrows Hi. revert j. induction Hrows as [|r rows Hr _ IH]; intros j.
  - cbn. rewrite !lookup_nil. reflexivity.
  - destruct j as [|j]; cbn [concat].
    + cbn. rewrite lookup_app_l by lia. reflexivity.
    + rewrite lookup_app_r by lia. rewrite Hr.
      replace (S j * n + i - n)%nat with (j * n + i)%nat by lia. apply IH.
Qed.

Lemma lookup_chunks (k m : nat) (l : list Z) (i j : nat) :
  length l = (m * k)%nat -> (i < m)%nat -> (j < k)%nat ->
  chunks k m l !! i ≫= (fun r => r !! j) = l !! (i * k + j)%nat.
Proof.
  intros Hl Hi Hj.
  rewrite <- (concat_chunks k m l Hl) at 2.
  symmetry. apply lookup_concat_uniform; [|exact Hj].
  apply chunks_lengths. exact Hl.
Qed.

Lemma ravel_F_data_flat (m : nat) (r : list Z) :
  length r = m -> ravel_F_data [m] r = r.
Proof.
  intros Hl. cbn [ravel_F_data]. change (prod_list []) with 1%nat.
  cbn [transpose]. rewrite map_map.
  revert r Hl. induction m as [|m IH]; intros r Hl.
  - destruct r; [reflexivity | discriminate].
  - destruct r as [|a r]; [discriminate|]. cbn in *.
    specialize (IH r ltac:(lia)). rewrite app_nil_r in *.
    rewrite drop_0. f_equal. exact IH.
Qed.

(** On a matrix of shape [(n, m)] the flattening is column-major: the
    entry at row [i] and column [j] lands at position [j * n + i]. *)
Lemma ravel_F_matrix (n m : nat) (d : list Z) (i j : nat) :
  length d = (n * m)%nat -> (i < n)%nat -> (j < m)%nat ->
  ravel_F_data [n; m] d !! (j * n + i)%nat = d !! (i * m + j)%nat.
Proof.
  intros Hd Hi Hj. cbn [ravel_F_data]. rewrite prod_list_cons.
  change (prod_list []) with 1%nat. rewrite Nat.mul_1_r.
  pose proof (chunks_lengths m n d Hd) as Hrows.
  rewrite (map_on_Forall (fun r => length r = m) _ (fun r => r))
    by (try exact Hrows; intros r Hr; apply ravel_F_data_flat; exact Hr).
  rewrite map_id.
  rewrite (lookup_concat_uniform n).
  - rewrite lookup_transpose by exact Hj. cbn.
    rewrite <- (lookup_chunks m n d i j Hd Hi Hj).
    change (map ?f ?l) with (f <$> l). rewrite list_lookup_fmap.
    destruct (chunks m n d !! i) as [r|] eqn:Hr; cbn.
    + rewrite nth_lookup.
      assert (length r = m) as Hlr by (exact (proj1 (Forall_forall _ _) Hrows r (list_elem_of_lookup_2 _ _ _ Hr))).
      destruct (r !! j) eqn:Hrj; [reflexivity|].
      apply lookup_ge_None in Hrj. lia.
    + apply lookup_ge_None in Hr. rewrite length_chunks in Hr. lia.
  - eapply Forall_impl; [apply transpose_lengths|].
    intros c Hc. rewrite Hc. apply length_chunks.
  - exact Hi.
Qed.






(** *** Columns of a two-dimensional array *)





(** *** Structured grids from coordinate arrays *)














(** *** Cells dictionaries *)

Lemma SetCells_padded_eq (n : Z) (cells : list (list Z)) :
  SetCells n (padded cells)
  = Ok (if VTK9 then OffsetCells (offsets_from 0 cells) (concat cells)
        else LegacyCells n (padded cells)).
Proof.
  unfold SetCells. destruct VTK9; [|reflexivity].
  rewrite ImportLegacyFormat_padded. reflexivity.
Qed.

Lemma mixed_cells_of_entry (nr_points : Z) (e : Z * ndarray) :
  cells_entry nr_points e ->
  mixed_cells_of_item nr_points (PyInt (fst e), PyNdarray (snd e))
  = Ok (fst e, rows_of (snd e)).
Proof.
  intros (n & p & Ht & Hp & _ & Hs & Hl & Hf & Hb & Hv).
  unfold mixed_cells_of_item, rows_of. rewrite Ht, Hs.
  rewrite bool_decide_eq_true_2 by (split; [reflexivity | exact Hp]).
  rewrite Hf, (bool_decide_eq_false_2 _ Hb), (bool_decide_eq_true_2 _ Hl).
  cbn [andb negb].
  assert (forallb (fun v => (0 <=? v) && (v <? nr_points)) (data (snd e)) = true) as ->.
  { apply forallb_forall. intros v Hin. apply list_elem_of_In in Hin.
    apply (proj1 (Forall_forall _ _) Hv) in Hin as [H0 H1].
    apply andb_true_iff. split; [apply Z.leb_le | apply Z.ltb_lt]; assumption. }
  reflexivity.
Qed.

Lemma mixed_cells_of_dict (nr_points : Z) (d : list (Z * ndarray)) :
  Forall (cells_entry nr_points) d ->
  mixed_cells_of_items nr_points (dict_items d)
  = Ok (map (fun e => (fst e, rows_of (snd e))) d).
Proof.
  induction 1 as [|e d He _ IH]; [reflexivity|].
  change (dict_items (e :: d))
    with ((PyInt (fst e), PyNdarray (snd e)) :: dict_items d).
  cbn [mixed_cells_of_items].
  rewrite (mixed_cells_of_entry _ _ He). cbn [mbind result_bind].
  rewrite IH. reflexivity.
Qed.

Lemma group_cells_block (t : Z) (rows : list (list Z)) (rest : list (Z * list Z)) :
  group_cells (map (pair t) rows ++ rest)
  = match rows with
    | [] => group_cells rest
    | _ => <[t := rows ++ default [] (group_cells rest !! t)]> (group_cells rest)
    end.
Proof.
  induction rows as [|r rows IH]; [reflexivity|].
  cbn [map app group_cells]. rewrite IH. destruct rows as [|r' rows]; [reflexivity|].
  rewrite lookup_insert_eq. cbn [default]. rewrite insert_insert_eq. reflexivity.
Qed.

(** Grouping the tagged cells of consecutive non-empty blocks with
    distinct types gives the blocks back. *)
Lemma group_cells_blocks (blocks : list (Z * list (list Z))) :
  NoDup (map fst blocks) -> Forall (fun b => snd b <> []) blocks ->
  group_cells (flat_map (fun b => map (pair (fst b)) (snd b)) blocks)
  = list_to_map blocks.
Proof.
  intros Hnd Hne. induction Hne as [|[t rows] blocks Hrows _ IH]; [reflexivity|].
  cbn [map fst] in Hnd. apply NoDup_cons in Hnd. destruct Hnd as [Hnotin Hnd].
  cbn [flat_map fst snd] in *. rewrite group_cells_block, (IH Hnd).
  destruct rows as [|r rows]; [contradiction|].
  rewrite (proj1 (not_elem_of_list_to_map _ _) Hnotin).
  cbn [default]. rewrite app_nil_r. reflexivity.
Qed.

Lemma zip_tags (blocks : list (Z * list (list Z))) :
  zip (flat_map (fun b => replicate (length (snd b)) (fst b)) blocks)
      (flat_map snd blocks)
  = flat_map (fun b => map (pair (fst b)) (snd b)) blocks.
Proof.
  induction blocks as [|[t rows] blocks IH]; [reflexivity|].
  cbn [flat_map fst snd]. rewrite zip_with_app by apply length_replicate.
  rewrite IH. f_equal. clear. induction rows as [|r rows IH]; [reflexivity|].
  cbn. rewrite <- IH. reflexivity.
Qed.

Lemma length_tags (blocks : list (Z * list (list Z))) :
  length (flat_map (fun b => replicate (length (snd b)) (fst b)) blocks)
  = length (flat_map snd blocks).
Proof.
  induction blocks as [|[t rows] blocks IH]; [reflexivity|].
  cbn [flat_map fst snd]. rewrite !length_app, length_replicate, IH. reflexivity.
Qed.

Lemma length_cell_starts (o : Z) (cells : list (list Z)) :
  length (cell_starts o cells) = length cells.
Proof. revert o. induction cells as [|c cs IH]; intros o; cbn; [|rewrite IH]; reflexivity. Qed.

Lemma wrapped_tags (d : list (Z * ndarray)) (nr_points : Z) :
  Forall (cells_entry nr_points) d ->
  flat_map (fun b : Z * list (list Z) => replicate (length (snd b)) (wrap np_uint8 (fst b)))
           (map (fun e => (fst e, rows_of (snd e))) d)
  = flat_map (fun b => replicate (length (snd b)) (fst b))
             (map (fun e => (fst e, rows_of (snd e))) d).
Proof.
  induction 1 as [|e d He _ IH]; [reflexivity|].
  cbn [map flat_map fst snd]. rewrite IH.
  destruct He as (n & p & _ & _ & Hr & _). unfold in_range in Hr.
  rewrite Hr. reflexivity.
Qed.

Lemma tags_in_table (d : list (Z * ndarray)) (nr_points : Z) :
  Forall (cells_entry nr_points) d ->
  forallb (fun t => bool_decide (is_Some (enum_cell_type_nr_points_map t)))
    (flat_map (fun b : Z * list (list Z) => replicate (length (snd b)) (fst b))
              (map (fun e => (fst e, rows_of (snd e))) d)) = true.
Proof.
  induction 1 as [|e d He _ IH]; [reflexivity|].
  cbn [map flat_map fst snd]. rewrite forallb_app, IH, andb_true_r.
  destruct He as (n & p & Ht & _). apply forallb_forall. intros t Hin.
  apply list_elem_of_In, elem_of_replicate in Hin as [-> _].
  apply bool_decide_eq_true_2. eauto.
Qed.

Lemma entry_block (nr_points : Z) (e : Z * ndarray) :
  cells_entry nr_points e ->
  shape (cells_block (fst e) (rows_of (snd e))) = shape (snd e)
  /\ data (cells_block (fst e) (rows_of (snd e))) = data (snd e)
  /\ (0 < np_len (snd e) -> rows_of (snd e) <> []).
Proof.
  intros (n & p & Ht & Hp & _ & Hs & Hl & _).
  unfold cells_block, rows_of, np_len; cbn [shape data]. rewrite Ht, Hs, length_chunks.
  cbn [default]. split; [reflexivity|]. split.
  - apply concat_chunks. rewrite Hl. lia.
  - intros Hn. destruct n; [lia | discriminate].
Qed.

Lemma dict_view_blocks (nr_points : Z) (d : list (Z * ndarray)) :
  Forall (cells_entry nr_points) d ->
  dict_view (map_imap (fun t rows => Some (cells_block t rows))
               (list_to_map (map (fun e => (fst e, rows_of (snd e))) d)))
  = dict_view (list_to_map d).
Proof.
  unfold dict_view. induction 1 as [|[t a] d He _ IH]; cbn [map fst snd].
  - rewrite !list_to_map_nil, map_imap_empty. reflexivity.
  - rewrite !list_to_map_cons, map_imap_insert, !fmap_insert, IH.
    destruct (entry_block _ _ He) as (Hs & Hd & _). cbn [fst snd] in *.
    rewrite Hs, Hd. reflexivity.
Qed.

Lemma from_arrays_mixed (self : vtkUnstructuredGrid) (points : ndarray) (pts : vtkPoints)
    (types : list Z) (cells : list (list Z)) (deep : bool) :
  vtk_points points deep = Ok pts ->
  UnstructuredGrid_from_arrays self
    (if VTK9 then None else Some (id_array (cell_starts 0 cells)))
    (id_array (padded cells))
    {| dtype := np_uint8; shape := [length types]; data := types |} points deep
  = Ok (mixed_grid self pts types cells).
Proof.
  intros Hpts. unfold UnstructuredGrid_from_arrays, CellArray.
  cbn [is_None np_asarray mbind result_bind].
  unfold astype, ravel; cbn [dtype data shape id_array].
  rewrite !map_convert_same, SetCells_padded_eq. cbn [mbind result_bind].
  rewrite decide_False by (intros Hne; apply Hne; reflexivity).
  rewrite Hpts. cbn [mbind result_bind]. unfold mixed_grid.
  replace (Z.of_nat (np_size {| dtype := np_uint8; shape := [length types]; data := types |}))
    with (Z.of_nat (length types)) by (unfold np_size; cbn; lia).
  destruct VTK9; cbn [mbind result_bind]; [reflexivity|].
  unfold numpy_to_idarr, astype; cbn [dtype data id_array].
  rewrite map_convert_same. reflexivity.
Qed.

Lemma mixed_grid_consistent (self : vtkUnstructuredGrid) (pts : vtkPoints)
    (types : list Z) (cells : list (list Z)) :
  length types = length cells ->
  _check_for_consistency (mixed_grid self pts types cells) = Ok tt.
Proof.
  intros Hl. apply check_for_consistency_ok.
  unfold sizes_consistent, UnstructuredGrid_celltypes, UnstructuredGrid_offset,
    UnstructuredGrid_n_cells, mixed_grid.
  destruct VTK9; cbn [ug_types ug_cells ug_locations data id_array
                      GetNumberOfCells GetOffsetsArray].
  - rewrite length_offsets_from. lia.
  - rewrite length_cell_starts. lia.
Qed.

Lemma get_mixed_cells_mixed (self : vtkUnstructuredGrid) (pts : vtkPoints)
    (types : list Z) (cells : list (list Z)) :
  forallb (fun t => bool_decide (is_Some (enum_cell_type_nr_points_map t))) types = true ->
  get_mixed_cells (mixed_grid self pts types cells)
  = Ok (map_imap (fun t rows => Some (cells_block t rows))
          (group_cells (zip types cells))).
Proof.
  intros Htypes. unfold get_mixed_cells, UnstructuredGrid_cells, UnstructuredGrid_celltypes.
  assert (GetData (ug_cells (mixed_grid self pts types cells)) = padded cells) as ->.
  { unfold mixed_grid; cbn [ug_cells]. destruct VTK9; [|reflexivity].
    exact (export_offsets_from cells []). }
  cbn [data id_array mixed_grid ug_types].
  rewrite parse_legacy_padded by lia. rewrite Htypes. reflexivity.
Qed.

(** C2, amended: a cells dictionary with distinct fixed-size cell types,
    each mapped to an integer array holding at least one row of point
    indices into a valid points array, builds a grid whose [cells_dict]
    equals the dictionary: the same cell types mapped to arrays of the
    same shape and values. *)
Theorem cells_dict_roundtrip (d : list (Z * ndarray)) (points : ndarray)
    (pts : vtkPoints) (deep : bool) :
  NoDup (map fst d) ->
  Forall (cells_entry (np_len points)) d ->
  Forall (fun e => 0 < np_len (snd e)) d ->
  np_ndim points = 2%nat -> last (shape points) = Some 3%nat ->
  vtk_points points deep = Ok pts ->
  exists g m,
    UnstructuredGrid__init__ [PyDict (dict_items d); PyNdarray points] deep = Ok g
    /\ cells_dict g = Ok m
    /\ dict_view m = dict_view (list_to_map d).
Proof.
  intros Hnd Hd Hne Hdim Hlast Hpts.
  set (blocks := map (fun e => (fst e, rows_of (snd e))) d).
  set (types := flat_map (fun b : Z * list (list Z) => replicate (length (snd b)) (fst b)) blocks).
  set (cells := flat_map snd blocks).
  exists (mixed_grid vtkUnstructuredGrid_new pts types cells).
  exists (map_imap (fun t rows => Some (cells_block t rows)) (list_to_map blocks)).
  assert (group_cells (zip types cells) = list_to_map blocks) as Hgroup.
  { unfold types, cells. rewrite zip_tags. apply group_cells_blocks.
    - unfold blocks. rewrite map_map. cbn [fst]. exact Hnd.
    - unfold blocks. apply Forall_forall. intros b Hb.
      apply list_elem_of_In, in_map_iff in Hb as (e & <- & He).
      apply list_elem_of_In in He. cbn [snd].
      apply (entry_block _ _ (proj1 (Forall_forall _ _) Hd e He)).
      exact (proj1 (Forall_forall _ _) Hne e He). }
  split; [|split].
  - cbn [UnstructuredGrid__init__]. unfold _from_cells_dict.
    rewrite bool_decide_eq_false_2 by (intros Hn; apply Hn; exact Hdim).
    rewrite bool_decide_eq_false_2 by (intros Hn; apply Hn; exact Hlast).
    cbn [orb]. unfold create_mixed_cells.
    rewrite (mixed_cells_of_dict _ _ Hd). cbn [mbind result_bind].
    rewrite (wrapped_tags _ _ Hd). fold blocks. fold types. fold cells.
    assert ((if VTK9
             then UnstructuredGrid_from_arrays vtkUnstructuredGrid_new None
                    (id_array (padded cells))
                    {| dtype := np_uint8; shape := [length types]; data := types |}
                    points deep
             else UnstructuredGrid_from_arrays vtkUnstructuredGrid_new
                    (Some (id_array (cell_starts 0 cells)))
                    (id_array (padded cells))
                    {| dtype := np_uint8; shape := [length types]; data := types |}
                    points deep)
            = Ok (mixed_grid vtkUnstructuredGrid_new pts types cells)) as ->.
    { rewrite <- (from_arrays_mixed vtkUnstructuredGrid_new points pts types cells deep Hpts).
      destruct VTK9; reflexivity. }
    cbn [mbind result_bind].
    rewrite mixed_grid_consistent by apply length_tags. reflexivity.
  - unfold cells_dict. rewrite get_mixed_cells_mixed by exact (tags_in_table _ _ Hd).
    rewrite Hgroup. reflexivity.
  - apply (dict_view_blocks _ _ Hd).
Qed.

(** *** Meshes of triangles *)

(** In a count-prefixed array, every fourth entry is a 3 and the length is
    a multiple of 4 exactly when every cell has three points. *)
Lemma triangles_padded (cells : list (list Z)) :
  (Z.of_nat (length (padded cells)) mod 4 =? 0)
  && forallb (fun c => c =? 3) (first_of_four (padded cells)) = true
  <-> Forall (fun c => length c = 3%nat) cells.
Proof.
  induction cells as [|c cs IH].
  - cbn. split; auto.
  - rewrite padded_cons, Forall_cons. destruct (decide (length c = 3%nat)) as [E|E].
    + destruct c as [|a [|b [|d [|? ?]]]]; try discriminate.
      cbn [app length first_of_four forallb].
      replace (Z.of_nat (S (S (S (S (length (padded cs)))))) mod 4)
        with (Z.of_nat (length (padded cs)) mod 4).
      * change (Z.of_nat 3 =? 3) with true. cbn [andb].
        rewrite andb_true_iff in *. rewrite <- IH. tauto.
      * rewrite !Nat2Z.inj_succ.
        replace (Z.succ (Z.succ (Z.succ (Z.succ (Z.of_nat (length (padded cs)))))))
          with (Z.of_nat (length (padded cs)) + 1 * 4) by lia.
        now rewrite Z_mod_plus_full.
    + split; [|intros [? _]; contradiction].
      intros Hall. exfalso. apply andb_true_iff in Hall as [Hmod Hfirst].
      destruct (c ++ padded cs) as [|x1 [|x2 [|x3 l]]]; try discriminate.
      cbn [first_of_four forallb] in Hfirst.
      apply andb_true_iff in Hfirst as [Hc _]. apply Z.eqb_eq in Hc. lia.
Qed.

Lemma padded_nil (cells : list (list Z)) : padded cells = [] <-> cells = [].
Proof.
  split; [|intros ->; reflexivity].
  destruct cells as [|c cs]; [reflexivity|]. rewrite padded_cons. discriminate.
Qed.

(** X1: on a mesh whose faces array is the count-prefixed encoding of
    some cells, [is_all_triangles] is true exactly when there is at least
    one face, every face has three points, and the mesh has neither lines
    nor vertex cells. *)
Theorem is_all_triangles_faces (self : vtkPolyData) (cells : list (list Z)) :
  GetData (pd_polys self) = padded cells ->
  is_all_triangles self = true
  <-> cells <> []
      /\ Forall (fun c => length c = 3%nat) cells
      /\ GetData (pd_lines self) = [] /\ GetData (pd_verts self) = [].
Proof.
  intros Hfaces. unfold is_all_triangles.
  rewrite np_len_faces, np_len_lines, np_len_verts, np_size_faces.
  cbn [PolyData_faces id_array data]. rewrite Hfaces.
  rewrite <- triangles_padded, <- (padded_nil cells).
  destruct (padded cells) as [|x l] eqn:Hp;
    destruct (GetData (pd_lines self)) as [|y ll];
    destruct (GetData (pd_verts self)) as [|z lv]; cbn [length orb];
    rewrite ?Nat2Z.inj_succ;
    repeat match goal with
           | |- context [Z.succ ?n =? 0] =>
               replace (Z.succ n =? 0) with false by (symmetry; apply Z.eqb_neq; lia)
           | |- context [0 <? Z.succ ?n] =>
               replace (0 <? Z.succ n) with true by (symmetry; apply Z.ltb_lt; lia)
           end; cbn [orb Z.of_nat Z.eqb Z.ltb Z.compare];
    try (split; [discriminate | intros (? & ? & ? & ?); congruence]).
  split.
  - intros Hall. repeat split; auto.
  - intros (_ & Hall & _). exact Hall.
Qed.


(** *** The [PolyData] constructor on files, meshes and lines *)


Lemma no_other_arguments_none (faces n_faces lines : PyObj) (msg : string) :
  falsy faces -> falsy n_faces -> falsy lines ->
  no_other_arguments [faces; n_faces; lines] msg = Ok tt.
Proof. unfold falsy. intros Hf Hn Hl. cbn. rewrite Hf. cbn. rewrite Hn. cbn. now rewrite Hl. Qed.



(** X2: a [PolyData] built from a file name with no other argument set
    takes the mesh the reader returns; when that mesh has points but no
    cell, it gets one vertex cell per point, and otherwise it is returned
    as read. *)
Theorem PolyData_init_from_file (var_inp faces n_faces lines n_lines : PyObj)
    (f : string) (m : vtkPolyData) (deep : bool) :
  var_inp = PyStr f \/ var_inp = PyPath f ->
  falsy faces -> falsy n_faces -> falsy lines ->
  PolyData_from_file f = Ok m ->
  exists self,
    PolyData__init__ var_inp faces n_faces lines n_lines deep = Ok self
    /\ pd_points self = pd_points m
    /\ pd_lines self = pd_lines m /\ pd_polys self = pd_polys m
    /\ pd_strips self = pd_strips m
    /\ (0 < PolyData_n_points m -> PolyData_n_cells m = 0 ->
        PolyData_verts self = id_array (vertex_cells (Z.to_nat (PolyData_n_points m)))
        /\ GetNumberOfCells (pd_verts self) = PolyData_n_points m)
    /\ (~ (0 < PolyData_n_points m /\ PolyData_n_cells m = 0) -> self = m).
Proof.
  intros Hkind Hf Hn Hl Hfile.
  assert (PolyData__init__ var_inp faces n_faces lines n_lines deep
          = if (0 <? PolyData_n_points m) && (PolyData_n_cells m =? 0)
            then set_vertex_cells m deep else Ok m) as ->.
  { destruct Hkind as [-> | ->]; unfold PolyData__init__;
      rewrite no_other_arguments_none by assumption; cbn [mbind result_bind];
      rewrite Hfile; reflexivity. }
  destruct (Z.ltb_spec 0 (PolyData_n_points m)) as [Hp|Hp];
    destruct (Z.eqb_spec (PolyData_n_cells m) 0) as [Hc|Hc]; cbn [andb];
    try (exists m; repeat split; try reflexivity; intros; lia).
  destruct (set_vertex_cells_spec m deep) as (c & -> & Hdata & Hcount).
  eexists. split; [reflexivity|]. cbn [SetVerts pd_points pd_lines pd_polys pd_strips].
  repeat split; try reflexivity.
  - unfold PolyData_verts. cbn [SetVerts pd_verts]. now rewrite Hdata.
  - exact Hcount.
  - intros Hno. contradiction Hno. auto.
Qed.

Lemma GetData_new : GetData vtkCellArray_new = [].
Proof. unfold vtkCellArray_new. destruct VTK9; reflexivity. Qed.

(** X4: a [PolyData] built from points and a count-prefixed lines array
    reads the lines back and has no vertex cell, with or without a faces
    array; the faces are read back as well when given. *)
Theorem PolyData_init_lines (points farr larr : ndarray) (p : vtkPoints)
    (n_faces n_lines : PyObj) (deep : bool) :
  is_padded_array larr -> is_count n_lines -> vtk_points points deep = Ok p ->
  (exists self,
     PolyData__init__ (PyNdarray points) PyNone n_faces (PyNdarray larr) n_lines deep
     = Ok self
     /\ data (PolyData_lines self) = data larr
     /\ data (PolyData_verts self) = []
     /\ data (PolyData_faces self) = []
     /\ pd_points self = Some p)
  /\ (is_padded_array farr -> is_count n_faces ->
      exists self,
        PolyData__init__ (PyNdarray points) (PyNdarray farr) n_faces (PyNdarray larr)
          n_lines deep = Ok self
        /\ data (PolyData_faces self) = data farr
        /\ data (PolyData_lines self) = data larr
        /\ data (PolyData_verts self) = []
        /\ pd_points self = Some p).
Proof.
  intros Hl Hnl Hp.
  destruct (CellArray_padded larr n_lines deep Hl Hnl) as (cl & Hcl & Hdl).
  split.
  - unfold PolyData__init__. cbn [np_asarray is_None andb negb mbind result_bind].
    rewrite Hp. cbn [mbind result_bind]. rewrite Hcl.
    cbn [mbind result_bind PolyData_set_lines].
    eexists. split; [reflexivity|].
    unfold PolyData_lines, PolyData_verts, PolyData_faces, ravel, id_array.
    cbn [data SetLines PolyData_SetPoints vtkPolyData_new pd_lines pd_verts pd_polys
         pd_points].
    rewrite Hdl, GetData_new. repeat split.
  - intros Hf Hnf.
    destruct (CellArray_padded farr n_faces deep Hf Hnf) as (cf & Hcf & Hdf).
    unfold PolyData__init__. cbn [np_asarray is_None andb negb mbind result_bind].
    rewrite Hp. cbn [mbind result_bind]. rewrite Hcf.
    cbn [mbind result_bind PolyData_set_faces]. rewrite Hcl.
    cbn [mbind result_bind PolyData_set_lines].
    eexists. split; [reflexivity|].
    unfold PolyData_lines, PolyData_verts, PolyData_faces, ravel, id_array.
    cbn [data SetLines SetPolys PolyData_SetPoints vtkPolyData_new pd_lines pd_verts
         pd_polys pd_points].
    rewrite Hdl, Hdf, GetData_new. repeat split.
Qed.


(** *** Argument lists without a branch *)

(** X5: an argument list for which the [UnstructuredGrid] constructor has
    no branch makes it raise a [TypeError]. *)
Theorem UnstructuredGrid_init_TypeError (args : list PyObj) (deep : bool) :
  UnstructuredGrid_signature args = false ->
  exists msg, UnstructuredGrid__init__ args deep = Raise (TypeError msg).
Proof.
  destruct args as [|a0 [|a1 [|a2 [|a3 [|a4 rest]]]]]; cbn [UnstructuredGrid_signature];
    intros Hsig; try discriminate.
  - eexists. destruct a0; try discriminate; reflexivity.
  - eexists. destruct a0; try reflexivity; destruct a1; try reflexivity; discriminate.
  - rewrite UnstructuredGrid_init_three_not_arrays by exact Hsig. eauto.
  - eexists. destruct a0; try reflexivity; destruct a1; try reflexivity;
      destruct a2; try reflexivity; destruct a3; try reflexivity; discriminate.
  - eexists. destruct a0; try reflexivity; destruct a1; reflexivity.
Qed.

(** X13: an argument list for which the [StructuredGrid] constructor has
    no branch (a [pathlib.Path], an integer, two arrays, ...) raises
    nothing: the constructor returns an empty grid. *)
Theorem StructuredGrid_init_unmatched (args : list PyObj) :
  StructuredGrid_signature args = false ->
  StructuredGrid__init__ args = Ok vtkStructuredGrid_new.
Proof.
  destruct args as [|a0 [|a1 [|a2 [|a3 rest]]]]; cbn [StructuredGrid_signature];
    intros Hsig; try discriminate; try reflexivity.
  - destruct a0; try discriminate; reflexivity.
  - destruct a0; try reflexivity; destruct a1; try reflexivity;
      destruct a2; try reflexivity; discriminate.
Qed.

(** *** Arrays given to the [UnstructuredGrid] constructor *)

(** X8: under VTK 9 the offset array given to the [UnstructuredGrid]
    constructor changes nothing: four arrays build what the last three
    build. *)
Theorem UnstructuredGrid_init_offset_ignored (offset cells cell_type points : ndarray)
    (deep : bool) :
  VTK9 = true ->
  UnstructuredGrid__init__ [PyNdarray offset; PyNdarray cells; PyNdarray cell_type;
                            PyNdarray points] deep
  = UnstructuredGrid__init__ [PyNdarray cells; PyNdarray cell_type; PyNdarray points] deep.
Proof.
  intros E. unfold UnstructuredGrid__init__, UnstructuredGrid_from_arrays.
  rewrite E. reflexivity.
Qed.

(** X9: a cells dictionary with a points array that is not of shape
    (M, 3) makes the [UnstructuredGrid] constructor raise a [ValueError],
    whatever the dictionary holds. *)
Theorem UnstructuredGrid_init_dict_points_shape (cells_dict : list (PyObj * PyObj))
    (points : ndarray) (deep : bool) :
  np_ndim points <> 2%nat \/ last (shape points) <> Some 3%nat ->
  UnstructuredGrid__init__ [PyDict cells_dict; PyNdarray points] deep
  = Raise (ValueError "Points array must be a [M, 3] array").
Proof.
  intros Hshape. unfold UnstructuredGrid__init__, _from_cells_dict.
  assert (bool_decide (np_ndim points <> 2%nat)
          || bool_decide (last (shape points) <> Some 3%nat) = true) as ->; [|reflexivity].
  apply orb_true_iff. destruct Hshape; [left | right]; now apply bool_decide_eq_true_2.
Qed.


Lemma converted_celltypes (cell_type : ndarray) :
  data (if decide (dtype cell_type <> np_uint8)
        then astype float_convert np_uint8 cell_type else cell_type)
  = map (convert float_convert (dtype cell_type) np_uint8) (data cell_type).
Proof.
  destruct (decide (dtype cell_type <> np_uint8)) as [Hd|Hd]; [reflexivity|].
  apply dec_stable in Hd. rewrite Hd. symmetry. apply map_convert_same.
Qed.

(** X6: under VTK 9, an [UnstructuredGrid] built from a count-prefixed
    cells array, one cell type per cell and a points array reads back the
    cells, the cell types (cast to unsigned chars), the start of every
    cell in the connectivity as its offset (with the total at the end),
    the connectivity without the counts, and the number of cells. *)
Theorem UnstructuredGrid_init_arrays_readback (cells cell_type points : ndarray)
    (cs : list (list Z)) (pts : vtkPoints) (deep : bool) :
  VTK9 = true ->
  is_float (dtype cells) = false -> Forall (in_range np_int64) (data cells) ->
  data cells = padded cs ->
  length (data cell_type) = length cs ->
  vtk_points points deep = Ok pts ->
  exists g,
    UnstructuredGrid__init__ [PyNdarray cells; PyNdarray cell_type; PyNdarray points] deep
    = Ok g
    /\ data (UnstructuredGrid_cells g) = data cells
    /\ data (UnstructuredGrid_celltypes g)
       = map (convert float_convert (dtype cell_type) np_uint8) (data cell_type)
    /\ data (UnstructuredGrid_offset g) = offsets_from 0 cs
    /\ cell_connectivity g = Ok (id_array (concat cs))
    /\ UnstructuredGrid_n_cells g = Z.of_nat (length cs)
    /\ ug_points g = Some pts.
Proof.
  intros E Hfloat Hrange Hcells Htypes Hp.
  rewrite (init_after_assembly deep _ _ (assembles_arrays deep cells cell_type points)).
  unfold UnstructuredGrid_from_arrays, CellArray.
  cbn [is_None np_asarray mbind result_bind].
  change (data (astype float_convert ID_TYPE (ravel cells)))
    with (map (convert float_convert (dtype cells) ID_TYPE) (data cells)).
  rewrite map_convert_to_ids by assumption.
  rewrite Hcells, SetCells_padded_eq, E. cbn [mbind result_bind]. rewrite Hp.
  cbn [mbind result_bind]. rewrite converted_celltypes.
  set (g := UnstructuredGrid_SetCells _ _ _).
  assert (Hok : _check_for_consistency g = Ok tt).
  { apply check_for_consistency_ok. unfold sizes_consistent, UnstructuredGrid_n_cells,
      UnstructuredGrid_offset. rewrite E. unfold g.
    cbn [UnstructuredGrid_SetCells UnstructuredGrid_celltypes ug_types ug_cells data
         id_array GetNumberOfCells GetOffsetsArray].
    rewrite length_map, length_offsets_from. lia. }
  rewrite Hok. cbn [mbind result_bind]. exists g. split; [reflexivity|].
  unfold UnstructuredGrid_cells, UnstructuredGrid_offset, cell_connectivity,
    UnstructuredGrid_n_cells. rewrite E. unfold g.
  cbn [UnstructuredGrid_SetCells UnstructuredGrid_SetPoints UnstructuredGrid_celltypes
       ug_types ug_cells ug_points data id_array GetNumberOfCells GetOffsetsArray
       GetConnectivityArray GetData].
  repeat split.
  - apply (export_offsets_from cs []).
  - rewrite length_offsets_from. lia.
Qed.

(** X7: before VTK 9, an [UnstructuredGrid] built from an offset array,
    a cells array, cell types and points, with as many offsets as cell
    types, reads back the four arrays (as VTK ids and unsigned chars); the
    number of cells is the number of cell types, whatever the cells array
    holds. *)
Theorem UnstructuredGrid_init_legacy_readback (offset cells cell_type points : ndarray)
    (pts : vtkPoints) (deep : bool) :
  VTK9 = false ->
  length (data cell_type) = np_size cell_type ->
  length (data offset) = np_size cell_type ->
  vtk_points points deep = Ok pts ->
  exists g,
    UnstructuredGrid__init__ [PyNdarray offset; PyNdarray cells; PyNdarray cell_type;
                              PyNdarray points] deep = Ok g
    /\ data (UnstructuredGrid_offset g)
       = map (convert float_convert (dtype offset) ID_TYPE) (data offset)
    /\ data (UnstructuredGrid_cells g)
       = map (convert float_convert (dtype cells) ID_TYPE) (data cells)
    /\ data (UnstructuredGrid_celltypes g)
       = map (convert float_convert (dtype cell_type) np_uint8) (data cell_type)
    /\ UnstructuredGrid_n_cells g = Z.of_nat (np_size cell_type)
    /\ ug_points g = Some pts.
Proof.
  intros E Htypes Hoffset Hp.
  rewrite (init_after_assembly deep _ _
             (assembles_offset_arrays deep offset cells cell_type points)).
  unfold UnstructuredGrid_from_arrays, CellArray, SetCells.
  cbn [is_None np_asarray mbind result_bind]. rewrite E. cbn [mbind result_bind].
  rewrite Hp. cbn [mbind result_bind]. rewrite converted_celltypes.
  set (g := UnstructuredGrid_SetCells_offset _ _ _ _).
  assert (Hok : _check_for_consistency g = Ok tt).
  { apply check_for_consistency_ok. unfold sizes_consistent, UnstructuredGrid_n_cells,
      UnstructuredGrid_offset. rewrite E. unfold g, numpy_to_idarr, astype.
    cbn [UnstructuredGrid_SetCells_offset UnstructuredGrid_celltypes ug_types ug_cells
         ug_locations data id_array GetNumberOfCells].
    rewrite !length_map. lia. }
  rewrite Hok. cbn [mbind result_bind]. exists g. split; [reflexivity|].
  unfold UnstructuredGrid_cells, UnstructuredGrid_offset, UnstructuredGrid_n_cells.
  rewrite E. unfold g, numpy_to_idarr, astype, ravel.
  cbn [UnstructuredGrid_SetCells_offset UnstructuredGrid_SetPoints
       UnstructuredGrid_celltypes ug_types ug_cells ug_points ug_locations data dtype
       id_array GetNumberOfCells GetData].
  repeat split.
Qed.


(** *** Points of a structured grid *)




(** *** Hiding cells *)

Lemma StructuredGrid_n_cells_nonneg (self : vtkStructuredGrid) :
  0 <= StructuredGrid_n_cells self.
Proof.
  unfold StructuredGrid_n_cells. destruct (existsb _ _); [lia|].
  induction (sg_dims self) as [|d l IH]; cbn [map foldr]; [lia|].
  destruct (1 <? d) eqn:E; [apply Z.ltb_lt in E|]; nia.
Qed.

(** X15: [hide_cells] with a valid cell index stores a ghost array that
    holds [HIDDENCELL] at the indicated cells and 0 at the others, and
    leaves the other cell arrays, the dimensions, the points and the
    number of cells as they are. *)
Theorem hide_cells_effect (self : vtkStructuredGrid) (ind : PyObj) (sel : nat -> bool) :
  cell_index (Z.to_nat (StructuredGrid_n_cells self)) ind sel ->
  exists self',
    hide_cells self ind = Ok self'
    /\ sg_cell_arrays self' !! GhostArrayName
       = Some {| dtype := np_uint8; shape := [Z.to_nat (StructuredGrid_n_cells self)];
                 data := map (fun i => if sel i then HIDDENCELL else 0)
                             (seq 0 (Z.to_nat (StructuredGrid_n_cells self))) |}
    /\ (forall name, name <> GhostArrayName ->
          sg_cell_arrays self' !! name = sg_cell_arrays self !! name)
    /\ dimensions self' = dimensions self
    /\ sg_points self' = sg_points self
    /\ StructuredGrid_n_cells self' = StructuredGrid_n_cells self.
Proof.
  intros Hind. unfold hide_cells.
  pose proof (cell_index_passes_check _ _ _ Hind) as Hcheck.
  rewrite Z2Nat.id in Hcheck by apply StructuredGrid_n_cells_nonneg.
  rewrite Hcheck. cbn [mbind result_bind].
  rewrite (setitem_cell_index _ _ _ HIDDENCELL Hind). cbn [mbind result_bind].
  eexists. split; [reflexivity|]. cbn [sg_cell_arrays sg_points]. repeat split.
  - apply lookup_insert_eq.
  - intros name Hname. apply lookup_insert_ne. congruence.
Qed.

(** X16: hiding is not cumulative: after a call of [hide_cells], a
    second call gives the grid it would have given without the first, so
    only the cells of the last call stay hidden. *)
Theorem hide_cells_not_cumulative (self self1 : vtkStructuredGrid) (ind1 ind2 : PyObj) :
  hide_cells self ind1 = Ok self1 ->
  hide_cells self1 ind2 = hide_cells self ind2.
Proof.
  unfold hide_cells at 1. intros Hrun.
  destruct (match ind1 with PyNdarray _ => _ | _ => _ end); [|discriminate].
  cbn [mbind result_bind] in Hrun.
  destruct (setitem _ ind1 HIDDENCELL) as [ghost|]; [|discriminate].
  cbn [mbind result_bind] in Hrun. injection Hrun as <-.
  unfold hide_cells, StructuredGrid_n_cells. cbn [sg_dims sg_points sg_cell_arrays].
  destruct (match ind2 with PyNdarray _ => _ | _ => _ end); [|reflexivity].
  cbn [mbind result_bind].
  destruct (setitem _ ind2 HIDDENCELL) as [ghost2|]; [|reflexivity].
  cbn [mbind result_bind]. now rewrite insert_insert.
Qed.

(** *** Linear copies

    [linear_copy] works on whole arrays: it reads the first point of every
    selected cell through the cell offsets and writes it back at fixed
    distances from them.  The lemmas below follow these reads and writes
    cell by cell, with the flat array seen as the concatenation of its
    blocks. *)

Lemma select_cons {A} (m : bool) (mask : list bool) (x : A) (l : list A) :
  select (m :: mask) (x :: l) = if m then x :: select mask l else select mask l.
Proof. destruct m; reflexivity. Qed.

Lemma length_select {A B} (mask : list bool) (l : list A) (k : list B) :
  length l = length mask -> length k = length mask ->
  length (select mask l) = length (select mask k).
Proof.
  revert l k. induction mask as [|m mask IH]; intros [|x l] [|y k] Hl Hk; try discriminate; try reflexivity.
  rewrite !select_cons. cbn in Hl, Hk. destruct m; cbn; rewrite (IH l k); auto with lia.
Qed.

Lemma normalize_index_inside (n : nat) (i : nat) :
  (i < n)%nat -> normalize_index n (Z.of_nat i) = Some i.
Proof.
  intros Hi. unfold normalize_index. rewrite bool_decide_eq_true_2 by lia.
  f_equal. lia.
Qed.

(** Reading position [j] of every selected block. *)
Lemma take_at_blocks (j : nat) (blocks : list (list Z)) :
  forall (mask : list bool) (pre : list Z),
    length mask = length blocks ->
    Forall2 (fun (m : bool) b => m = true -> (j < length b)%nat) mask blocks ->
    take_at (pre ++ concat blocks)
      (add_to (select mask (starts_from (Z.of_nat (length pre)) blocks)) (Z.of_nat j))
    = Ok (select mask (map (fun b => nth j b 0) blocks)).
Proof.
  induction blocks as [|b bs IH]; intros [|m mask] pre Hlen HF; try discriminate.
  - reflexivity.
  - cbn [starts_from map]. rewrite !select_cons.
    apply Forall2_cons_1 in HF as [Hm HF]. cbn in Hlen.
    assert (Hrest : take_at (pre ++ concat (b :: bs))
              (add_to (select mask (starts_from (Z.of_nat (length pre) + Z.of_nat (length b)) bs))
                 (Z.of_nat j))
            = Ok (select mask (map (fun b => nth j b 0) bs))).
    { cbn [concat]. rewrite app_assoc.
      replace (Z.of_nat (length pre) + Z.of_nat (length b))
        with (Z.of_nat (length (pre ++ b))) by (rewrite length_app; lia).
      apply IH; [lia | exact HF]. }
    destruct m; [|exact Hrest].
    specialize (Hm eq_refl).
    cbn [add_to map take_at]. fold (add_to (select mask (starts_from (Z.of_nat (length pre) + Z.of_nat (length b)) bs)) (Z.of_nat j)).
    rewrite Hrest.
    replace (Z.of_nat (length pre) + Z.of_nat j) with (Z.of_nat (length pre + j)) by lia.
    rewrite normalize_index_inside by (cbn [concat]; rewrite !length_app; lia).
    cbn [mbind option_bind]. cbn [concat].
    rewrite lookup_app_r by lia. replace (length pre + j - length pre)%nat with j by lia.
    rewrite lookup_app_l by lia.
    destruct (lookup_lt_is_Some_2 b j Hm) as [v Hv]. rewrite Hv. cbn.
    f_equal. f_equal. symmetry. apply nth_lookup_Some with (d := 0) in Hv. exact Hv.
Qed.

(** Writing position [k] of every selected block. *)
Lemma put_pairs_blocks (k : nat) (blocks : list (list Z)) :
  forall (mask : list bool) (vals pre : list Z),
    length mask = length blocks -> length vals = length blocks ->
    Forall2 (fun (m : bool) b => m = true -> (k < length b)%nat) mask blocks ->
    put_pairs (pre ++ concat blocks)
      (zip (add_to (select mask (starts_from (Z.of_nat (length pre)) blocks)) (Z.of_nat k))
           (select mask vals))
    = Ok (pre ++ concat (write_blocks k mask vals blocks)).
Proof.
  induction blocks as [|b bs IH]; intros [|m mask] [|v vals] pre Hlen Hvals HF; try discriminate.
  - reflexivity.
  - cbn [starts_from]. rewrite !select_cons.
    apply Forall2_cons_1 in HF as [Hm HF]. cbn in Hlen, Hvals.
    unfold write_blocks. cbn [zip zip_with fst snd]. fold (write_blocks k mask vals bs).
    destruct m.
    + specialize (Hm eq_refl).
      cbn [add_to map zip zip_with put_pairs].
      fold (add_to (select mask (starts_from (Z.of_nat (length pre) + Z.of_nat (length b)) bs)) (Z.of_nat k)).
      replace (Z.of_nat (length pre) + Z.of_nat k) with (Z.of_nat (length pre + k)) by lia.
      rewrite normalize_index_inside by (cbn [concat]; rewrite !length_app; lia).
      cbn [concat].
      rewrite insert_app_r_alt by lia. replace (length pre + k - length pre)%nat with k by lia.
      rewrite insert_app_l by lia.
      rewrite app_assoc.
      replace (Z.of_nat (length pre) + Z.of_nat (length b))
        with (Z.of_nat (length (pre ++ <[k := v]> b))) by (rewrite length_app, length_insert; lia).
      rewrite IH by (auto with lia). rewrite <- app_assoc. reflexivity.
    + cbn [concat]. rewrite app_assoc.
      replace (Z.of_nat (length pre) + Z.of_nat (length b))
        with (Z.of_nat (length (pre ++ b))) by (rewrite length_app; lia).
      rewrite IH by (auto with lia). rewrite <- app_assoc. reflexivity.
Qed.

Lemma length_write_blocks (k : nat) (mask : list bool) (vals : list Z) (blocks : list (list Z)) :
  length mask = length blocks -> length vals = length blocks ->
  map length (write_blocks k mask vals blocks) = map length blocks.
Proof.
  revert mask vals. induction blocks as [|b bs IH]; intros [|m mask] [|v vals] Hm Hv;
    try discriminate; [reflexivity|].
  unfold write_blocks. cbn [zip zip_with map fst snd]. fold (write_blocks k mask vals bs).
  cbn in Hm, Hv. rewrite IH by lia. destruct m; [rewrite length_insert|]; reflexivity.
Qed.

Lemma starts_from_lengths (o : Z) (bs bs' : list (list Z)) :
  map length bs' = map length bs -> starts_from o bs' = starts_from o bs.
Proof.
  revert o bs'. induction bs as [|b bs IH]; intros o [|b' bs'] Hl; try discriminate;
    [reflexivity|].
  cbn in Hl. injection Hl as Hb Hbs. cbn. rewrite Hb. f_equal. apply IH, Hbs.
Qed.

Lemma length_starts_from (o : Z) (bs : list (list Z)) :
  length (starts_from o bs) = length bs.
Proof. revert o. induction bs as [|b bs IH]; intros o; cbn; [reflexivity|]. now rewrite IH. Qed.

Lemma Forall2_lengths (k : nat) (mask : list bool) (bs bs' : list (list Z)) :
  map length bs' = map length bs ->
  Forall2 (fun (m : bool) b => m = true -> (k < length b)%nat) mask bs ->
  Forall2 (fun (m : bool) b => m = true -> (k < length b)%nat) mask bs'.
Proof.
  intros Hl HF. revert bs' Hl. induction HF as [|m b mask bs Hm HF IH]; intros [|b' bs'] Hl;
    try discriminate; constructor.
  - cbn in Hl. injection Hl as Hb _. rewrite Hb. exact Hm.
  - apply IH. cbn in Hl. now injection Hl.
Qed.

Lemma all_but_last_offsets (o : Z) (cells : list (list Z)) :
  all_but_last (offsets_from o cells) = starts_from o cells.
Proof.
  unfold all_but_last. rewrite length_offsets_from.
  replace (S (length cells) - 1)%nat with (length cells) by lia.
  revert o. induction cells as [|c cs IH]; intros o; [reflexivity|].
  cbn. f_equal. apply IH.
Qed.

Lemma cell_starts_frames (o : Z) (cells : list (list Z)) :
  cell_starts o cells = starts_from o (frames cells).
Proof.
  revert o. induction cells as [|c cs IH]; intros o; [reflexivity|].
  cbn. f_equal. rewrite IH. f_equal. lia.
Qed.

Lemma padded_frames (cells : list (list Z)) : padded cells = concat (frames cells).
Proof.
  induction cells as [|c cs IH]; [reflexivity|].
  rewrite padded_cons. cbn. now rewrite IH.
Qed.

Lemma put_at_blocks (k : nat) (blocks : list (list Z)) (mask : list bool) (vals : list Z) :
  length mask = length blocks -> length vals = length blocks ->
  Forall2 (fun (m : bool) b => m = true -> (k < length b)%nat) mask blocks ->
  put_at (concat blocks) (add_to (select mask (starts_from 0 blocks)) (Z.of_nat k))
         (select mask vals)
  = Ok (concat (write_blocks k mask vals blocks)).
Proof.
  intros Hm Hv HF. unfold put_at.
  rewrite decide_True.
  - apply (put_pairs_blocks k blocks mask vals [] Hm Hv HF).
  - unfold add_to. rewrite length_map. apply length_select.
    + lia.
    + rewrite length_starts_from. lia.
Qed.

Lemma write_blocks_unmasked (k : nat) (mask : list bool) (vals : list Z) (blocks : list (list Z)) :
  length mask = length blocks -> length vals = length blocks ->
  np_any mask = false -> write_blocks k mask vals blocks = blocks.
Proof.
  revert mask vals. induction blocks as [|b bs IH]; intros [|m mask] [|v vals] Hm Hv Hany;
    try discriminate; [reflexivity|].
  unfold write_blocks. cbn [zip zip_with fst snd]. fold (write_blocks k mask vals bs).
  cbn in Hm, Hv, Hany. apply orb_false_iff in Hany as [-> Hany].
  rewrite IH by (auto with lia). reflexivity.
Qed.

Lemma put_mask_equals (a : list Z) (s d : Z) :
  put_mask a (equals a s) d = map (fun t => if t =? s then d else t) a.
Proof.
  unfold put_mask, equals. induction a as [|t a IH]; [reflexivity|].
  cbn. now rewrite IH.
Qed.

Lemma equals_map (f : Z -> Z) (a : list Z) (v : Z) :
  equals (map f a) v = map (fun t => f t =? v) a.
Proof. unfold equals. now rewrite map_map. Qed.

Lemma map_ext_Z {A} (f g : Z -> A) (l : list Z) :
  (forall t, f t = g t) -> map f l = map g l.
Proof. intros E. induction l as [|t l IH]; cbn; [reflexivity|]. now rewrite E, IH. Qed.

Ltac type_cases :=
  unfold linear_type, VTK_QUADRATIC_TETRA, VTK_QUADRATIC_PYRAMID, VTK_QUADRATIC_WEDGE,
    VTK_QUADRATIC_HEXAHEDRON, VTK_QUADRATIC_QUAD, VTK_QUADRATIC_TRIANGLE, VTK_TETRA,
    VTK_PYRAMID, VTK_WEDGE, VTK_HEXAHEDRON, VTK_QUAD, VTK_TRIANGLE in *;
  repeat (match goal with
          | |- context [?x =? ?y] => is_var x; destruct (Z.eqb_spec x y); [subst x|]
          end; cbv beta iota);
  try reflexivity; try lia; try congruence.

(** The masks and the cell types [linear_copy] computes. *)
Lemma linear_copy_celltypes (types : list Z) :
  let celltype := types in
  let celltype := put_mask celltype (equals celltype VTK_QUADRATIC_TETRA) VTK_TETRA in
  let celltype := put_mask celltype (equals celltype VTK_QUADRATIC_PYRAMID) VTK_PYRAMID in
  let celltype := put_mask celltype (equals celltype VTK_QUADRATIC_WEDGE) VTK_WEDGE in
  let celltype :=
    put_mask celltype (equals celltype VTK_QUADRATIC_HEXAHEDRON) VTK_HEXAHEDRON in
  let quad_quad_mask := equals celltype VTK_QUADRATIC_QUAD in
  let celltype := put_mask celltype quad_quad_mask VTK_QUAD in
  let quad_tri_mask := equals celltype VTK_QUADRATIC_TRIANGLE in
  let celltype := put_mask celltype quad_tri_mask VTK_TRIANGLE in
  quad_quad_mask = equals types VTK_QUADRATIC_QUAD
  /\ quad_tri_mask = equals types VTK_QUADRATIC_TRIANGLE
  /\ celltype = map linear_type types.
Proof.
  cbv zeta. rewrite !put_mask_equals, !map_map.
  rewrite ?equals_map. unfold equals. rewrite ?map_map.
  repeat split; apply map_ext_Z; intros t; type_cases.
Qed.

Ltac exact_length c :=
  repeat (destruct c as [|? c]; try discriminate).

(** The writes into one kind of cell, taken together. *)
Lemma collapse_quad (T : Z) (types : list Z) (cells : list (list Z)) :
  Forall2 (fun t c => t = T -> length c = 8%nat) types cells ->
  let m := equals types T in
  let v := map (fun b => nth 0 b 0) cells in
  write_blocks 7 m v (write_blocks 6 m v (write_blocks 5 m v (write_blocks 4 m v cells)))
  = zip_with (fun t c => collapse t T 4 c) types cells.
Proof.
  cbv zeta. unfold write_blocks, equals.
  induction 1 as [|t c types cells Hc HF IH]; [reflexivity|].
  cbn [map zip_with fst snd]. rewrite IH. f_equal.
  unfold collapse. destruct (Z.eqb_spec t T) as [E|E]; [|reflexivity].
  specialize (Hc E). exact_length c. reflexivity.
Qed.

Lemma collapse_tri (T : Z) (types : list Z) (cells : list (list Z)) :
  Forall2 (fun t c => t = T -> length c = 6%nat) types cells ->
  let m := equals types T in
  let v := map (fun b => nth 0 b 0) cells in
  write_blocks 5 m v (write_blocks 4 m v (write_blocks 3 m v cells))
  = zip_with (fun t c => collapse t T 3 c) types cells.
Proof.
  cbv zeta. unfold write_blocks, equals.
  induction 1 as [|t c types cells Hc HF IH]; [reflexivity|].
  cbn [map zip_with fst snd]. rewrite IH. f_equal.
  unfold collapse. destruct (Z.eqb_spec t T) as [E|E]; [|reflexivity].
  specialize (Hc E). exact_length c. reflexivity.
Qed.

Lemma collapse_quad_frames (T : Z) (types : list Z) (cells : list (list Z)) :
  Forall2 (fun t c => t = T -> length c = 8%nat) types cells ->
  let m := equals types T in
  let v := map (fun b => nth 1 b 0) (frames cells) in
  write_blocks 8 m v (write_blocks 7 m v (write_blocks 6 m v
    (write_blocks 5 m v (frames cells))))
  = frames (zip_with (fun t c => collapse t T 4 c) types cells).
Proof.
  cbv zeta. unfold write_blocks, equals, frames.
  induction 1 as [|t c types cells Hc HF IH]; [reflexivity|].
  cbn [map zip_with fst snd]. rewrite IH. f_equal.
  unfold collapse. destruct (Z.eqb_spec t T) as [E|E]; [|reflexivity].
  specialize (Hc E). exact_length c. reflexivity.
Qed.

Lemma collapse_tri_frames (T : Z) (types : list Z) (cells : list (list Z)) :
  Forall2 (fun t c => t = T -> length c = 6%nat) types cells ->
  let m := equals types T in
  let v := map (fun b => nth 1 b 0) (frames cells) in
  write_blocks 6 m v (write_blocks 5 m v (write_blocks 4 m v (frames cells)))
  = frames (zip_with (fun t c => collapse t T 3 c) types cells).
Proof.
  cbv zeta. unfold write_blocks, equals, frames.
  induction 1 as [|t c types cells Hc HF IH]; [reflexivity|].
  cbn [map zip_with fst snd]. rewrite IH. f_equal.
  unfold collapse. destruct (Z.eqb_spec t T) as [E|E]; [|reflexivity].
  specialize (Hc E). exact_length c. reflexivity.
Qed.

Lemma masked_inside (T : Z) (n k : nat) (types : list Z) (cells : list (list Z)) :
  (k < n)%nat ->
  Forall2 (fun t c => t = T -> length c = n) types cells ->
  Forall2 (fun (m : bool) b => m = true -> (k < length b)%nat) (equals types T) cells.
Proof.
  intros Hk. unfold equals. induction 1 as [|t c types cells Hc HF IH]; cbn; constructor; auto.
  intros E%Z.eqb_eq. rewrite (Hc E). exact Hk.
Qed.

Lemma masked_inside_frames (T : Z) (n k : nat) (types : list Z) (cells : list (list Z)) :
  (k <= n)%nat ->
  Forall2 (fun t c => t = T -> length c = n) types cells ->
  Forall2 (fun (m : bool) b => m = true -> (k < length b)%nat) (equals types T) (frames cells).
Proof.
  intros Hk. unfold equals, frames.
  induction 1 as [|t c types cells Hc HF IH]; cbn; constructor; auto.
  intros E%Z.eqb_eq. specialize (Hc E). cbn [length]. lia.
Qed.

Lemma length_equals (a : list Z) (v : Z) : length (equals a v) = length a.
Proof. unfold equals. apply length_map. Qed.

Lemma length_frames (cells : list (list Z)) : length (frames cells) = length cells.
Proof. unfold frames. apply length_map. Qed.

Lemma add_to_0 (a : list Z) : add_to a 0 = a.
Proof. unfold add_to. induction a as [|x a IH]; cbn; [reflexivity|]. rewrite IH. f_equal. lia. Qed.

Lemma zip_with_same {A B C} (f : A -> B -> B) (g : A -> B -> C) (l : list A) (k : list B) :
  zip_with g l (zip_with f l k) = zip_with (fun a b => g a (f a b)) l k.
Proof.
  revert k. induction l as [|a l IH]; intros [|b k]; cbn; try reflexivity. now rewrite IH.
Qed.

Lemma map_length_collapse (T : Z) (n : nat) (types : list Z) (cells : list (list Z)) :
  Forall2 (fun t c => t = T -> length c = (n + n)%nat) types cells ->
  map length (zip_with (fun t c => collapse t T n c) types cells) = map length cells.
Proof.
  induction 1 as [|t c types cells Hc HF IH]; [reflexivity|].
  cbn. rewrite IH. f_equal. unfold collapse.
  destruct (Z.eqb_spec t T) as [E|E]; [|reflexivity].
  rewrite length_app, length_take, length_replicate, (Hc E). lia.
Qed.

Lemma offsets_from_lengths (o : Z) (bs bs' : list (list Z)) :
  map length bs' = map length bs -> offsets_from o bs' = offsets_from o bs.
Proof.
  revert o bs'. induction bs as [|b bs IH]; intros o [|b' bs'] Hl; try discriminate;
    [reflexivity|].
  cbn in Hl. injection Hl as Hb Hbs. cbn. rewrite Hb. f_equal. apply IH, Hbs.
Qed.

Lemma frames_lengths (bs bs' : list (list Z)) :
  map length bs' = map length bs -> map length (frames bs') = map length (frames bs).
Proof.
  revert bs'. induction bs as [|b bs IH]; intros [|b' bs'] Hl; try discriminate; [reflexivity|].
  cbn in Hl. injection Hl as Hb Hbs. cbn. rewrite Hb. f_equal. apply IH, Hbs.
Qed.

Lemma map_length_eq {A} (bs bs' : list (list A)) :
  map length bs' = map length bs -> length bs' = length bs.
Proof. intros Hl. apply (f_equal length) in Hl. now rewrite !length_map in Hl. Qed.

Lemma write_blocks_layout (k : nat) (mask : list bool) (vals : list Z)
    (blocks blocks0 : list (list Z)) :
  map length blocks = map length blocks0
  /\ length mask = length blocks /\ length vals = length blocks ->
  map length (write_blocks k mask vals blocks) = map length blocks0
  /\ length mask = length (write_blocks k mask vals blocks)
  /\ length vals = length (write_blocks k mask vals blocks).
Proof.
  intros (Hl & Hm & Hv).
  pose proof (length_write_blocks k mask vals blocks Hm Hv) as Hw.
  pose proof (map_length_eq _ _ Hw) as Hw'.
  repeat split; congruence.
Qed.

Lemma set_cell_connectivity_blocks (k : nat) (blocks blocks0 : list (list Z))
    (mask : list bool) (vals : list Z) (p : option vtkPoints) (ts offs l : list Z) :
  VTK9 = true ->
  map length blocks = map length blocks0
  /\ length mask = length blocks /\ length vals = length blocks ->
  Forall2 (fun (m : bool) b => m = true -> (k < length b)%nat) mask blocks0 ->
  set_cell_connectivity
    {| ug_points := p; ug_types := ts; ug_cells := OffsetCells offs (concat blocks);
       ug_locations := l |}
    (add_to (select mask (starts_from 0 blocks0)) (Z.of_nat k)) (select mask vals)
  = Ok {| ug_points := p; ug_types := ts;
          ug_cells := OffsetCells offs (concat (write_blocks k mask vals blocks));
          ug_locations := l |}.
Proof.
  intros E (Hl & Hm & Hv) HF. unfold set_cell_connectivity, cell_connectivity. rewrite E.
  cbn. rewrite <- (starts_from_lengths 0 blocks0 blocks Hl).
  rewrite put_at_blocks; auto.
  eapply Forall2_lengths; [exact Hl | exact HF].
Qed.

Lemma set_cells_blocks (k : nat) (blocks blocks0 : list (list Z))
    (mask : list bool) (vals : list Z) (p : option vtkPoints) (ts l : list Z) (n : Z) :
  map length blocks = map length blocks0
  /\ length mask = length blocks /\ length vals = length blocks ->
  Forall2 (fun (m : bool) b => m = true -> (k < length b)%nat) mask blocks0 ->
  set_cells
    {| ug_points := p; ug_types := ts; ug_cells := LegacyCells n (concat blocks);
       ug_locations := l |}
    (add_to (select mask (starts_from 0 blocks0)) (Z.of_nat k)) (select mask vals)
  = Ok {| ug_points := p; ug_types := ts;
          ug_cells := LegacyCells n (concat (write_blocks k mask vals blocks));
          ug_locations := l |}.
Proof.
  intros (Hl & Hm & Hv) HF. unfold set_cells, UnstructuredGrid_cells.
  cbn. rewrite <- (starts_from_lengths 0 blocks0 blocks Hl).
  rewrite put_at_blocks; auto.
  eapply Forall2_lengths; [exact Hl | exact HF].
Qed.

Lemma Forall2_inside_le (k k' : nat) (mask : list bool) (bs : list (list Z)) :
  (k' <= k)%nat ->
  Forall2 (fun (m : bool) b => m = true -> (k < length b)%nat) mask bs ->
  Forall2 (fun (m : bool) b => m = true -> (k' < length b)%nat) mask bs.
Proof.
  intros Hk HF. eapply Forall2_impl; [exact HF|]. intros m b Hm Hb. specialize (Hm Hb). lia.
Qed.

(** The four blocks of statements of [linear_copy]: quadratic
    quadrilaterals and triangles, under VTK 9 and before. *)
Lemma quad_block_VTK9 (p : option vtkPoints) (ts l : list Z) (mask : list bool)
    (cells cells0 : list (list Z)) :
  VTK9 = true ->
  map length cells = map length cells0 -> length mask = length cells ->
  Forall2 (fun (m : bool) b => m = true -> (7 < length b)%nat) mask cells0 ->
  let g := {| ug_points := p; ug_types := ts;
              ug_cells := OffsetCells (offsets_from 0 cells0) (concat cells);
              ug_locations := l |} in
  let v := map (fun b => nth 0 b 0) cells in
  (quad_offset ← mask_index (all_but_last (data (UnstructuredGrid_offset g))) mask;
   conn ← cell_connectivity g;
   base_point ← take_at (data conn) quad_offset;
   lgrid ← set_cell_connectivity g (add_to quad_offset 4) base_point;
   lgrid ← set_cell_connectivity lgrid (add_to quad_offset 5) base_point;
   lgrid ← set_cell_connectivity lgrid (add_to quad_offset 6) base_point;
   set_cell_connectivity lgrid (add_to quad_offset 7) base_point)
  = Ok {| ug_points := p; ug_types := ts;
          ug_cells := OffsetCells (offsets_from 0 cells0)
                        (concat (write_blocks 7 mask v (write_blocks 6 mask v
                                   (write_blocks 5 mask v (write_blocks 4 mask v cells)))));
          ug_locations := l |}.
Proof.
  intros E Hl Hm HF g v. unfold g.
  pose proof (map_length_eq _ _ Hl) as Hl0.
  assert (S0 : map length cells = map length cells0
               /\ length mask = length cells /\ length v = length cells)
    by (repeat split; auto; unfold v; apply length_map).
  pose proof (write_blocks_layout 4 _ _ _ _ S0) as S1.
  pose proof (write_blocks_layout 5 _ _ _ _ S1) as S2.
  pose proof (write_blocks_layout 6 _ _ _ _ S2) as S3.
  unfold UnstructuredGrid_offset, cell_connectivity. rewrite E.
  cbn [ug_cells GetOffsetsArray GetConnectivityArray id_array data].
  rewrite all_but_last_offsets. unfold mask_index.
  rewrite decide_True by (rewrite length_starts_from; lia).
  cbn [mbind result_bind].
  pose proof (take_at_blocks 0 cells mask [] Hm) as Htake.
  cbn [app length] in Htake. change (Z.of_nat 0) with 0 in Htake.
  rewrite add_to_0, (starts_from_lengths 0 cells0 cells Hl) in Htake.
  cbn [id_array data].
  rewrite Htake by (eapply Forall2_lengths; [exact Hl|];
                    eapply Forall2_inside_le; [|exact HF]; lia).
  cbn [mbind result_bind]. fold v.
  rewrite (set_cell_connectivity_blocks 4 _ cells0 mask v _ _ _ _ E S0)
    by (eapply Forall2_inside_le; [|exact HF]; lia).
  cbn [mbind result_bind].
  rewrite (set_cell_connectivity_blocks 5 _ cells0 mask v _ _ _ _ E S1)
    by (eapply Forall2_inside_le; [|exact HF]; lia).
  cbn [mbind result_bind].
  rewrite (set_cell_connectivity_blocks 6 _ cells0 mask v _ _ _ _ E S2)
    by (eapply Forall2_inside_le; [|exact HF]; lia).
  cbn [mbind result_bind].
  apply (set_cell_connectivity_blocks 7 _ cells0 mask v _ _ _ _ E S3 HF).
Qed.

Lemma tri_block_VTK9 (p : option vtkPoints) (ts l : list Z) (mask : list bool)
    (cells cells0 : list (list Z)) :
  VTK9 = true ->
  map length cells = map length cells0 -> length mask = length cells ->
  Forall2 (fun (m : bool) b => m = true -> (5 < length b)%nat) mask cells0 ->
  let g := {| ug_points := p; ug_types := ts;
              ug_cells := OffsetCells (offsets_from 0 cells0) (concat cells);
              ug_locations := l |} in
  let v := map (fun b => nth 0 b 0) cells in
  (tri_offset ← mask_index (all_but_last (data (UnstructuredGrid_offset g))) mask;
   conn ← cell_connectivity g;
   base_point ← take_at (data conn) tri_offset;
   lgrid ← set_cell_connectivity g (add_to tri_offset 3) base_point;
   lgrid ← set_cell_connectivity lgrid (add_to tri_offset 4) base_point;
   set_cell_connectivity lgrid (add_to tri_offset 5) base_point)
  = Ok {| ug_points := p; ug_types := ts;
          ug_cells := OffsetCells (offsets_from 0 cells0)
                        (concat (write_blocks 5 mask v (write_blocks 4 mask v
                                   (write_blocks 3 mask v cells))));
          ug_locations := l |}.
Proof.
  intros E Hl Hm HF g v. unfold g.
  pose proof (map_length_eq _ _ Hl) as Hl0.
  assert (S0 : map length cells = map length cells0
               /\ length mask = length cells /\ length v = length cells)
    by (repeat split; auto; unfold v; apply length_map).
  pose proof (write_blocks_layout 3 _ _ _ _ S0) as S1.
  pose proof (write_blocks_layout 4 _ _ _ _ S1) as S2.
  unfold UnstructuredGrid_offset, cell_connectivity. rewrite E.
  cbn [ug_cells GetOffsetsArray GetConnectivityArray id_array data].
  rewrite all_but_last_offsets. unfold mask_index.
  rewrite decide_True by (rewrite length_starts_from; lia).
  cbn [mbind result_bind].
  pose proof (take_at_blocks 0 cells mask [] Hm) as Htake.
  cbn [app length] in Htake. change (Z.of_nat 0) with 0 in Htake.
  rewrite add_to_0, (starts_from_lengths 0 cells0 cells Hl) in Htake.
  cbn [id_array data].
  rewrite Htake by (eapply Forall2_lengths; [exact Hl|];
                    eapply Forall2_inside_le; [|exact HF]; lia).
  cbn [mbind result_bind]. fold v.
  rewrite (set_cell_connectivity_blocks 3 _ cells0 mask v _ _ _ _ E S0)
    by (eapply Forall2_inside_le; [|exact HF]; lia).
  cbn [mbind result_bind].
  rewrite (set_cell_connectivity_blocks 4 _ cells0 mask v _ _ _ _ E S1)
    by (eapply Forall2_inside_le; [|exact HF]; lia).
  cbn [mbind result_bind].
  apply (set_cell_connectivity_blocks 5 _ cells0 mask v _ _ _ _ E S2 HF).
Qed.

Lemma quad_block_legacy (p : option vtkPoints) (ts : list Z) (n : Z) (mask : list bool)
    (blocks blocks0 : list (list Z)) :
  VTK9 = false ->
  map length blocks = map length blocks0 -> length mask = length blocks ->
  Forall2 (fun (m : bool) b => m = true -> (8 < length b)%nat) mask blocks0 ->
  let g := {| ug_points := p; ug_types := ts;
              ug_cells := LegacyCells n (concat blocks);
              ug_locations := starts_from 0 blocks0 |} in
  let v := map (fun b => nth 1 b 0) blocks in
  (quad_offset ← mask_index (data (UnstructuredGrid_offset g)) mask;
   base_point ← take_at (data (UnstructuredGrid_cells g)) (add_to quad_offset 1);
   lgrid ← set_cells g (add_to quad_offset 5) base_point;
   lgrid ← set_cells lgrid (add_to quad_offset 6) base_point;
   lgrid ← set_cells lgrid (add_to quad_offset 7) base_point;
   set_cells lgrid (add_to quad_offset 8) base_point)
  = Ok {| ug_points := p; ug_types := ts;
          ug_cells := LegacyCells n
                        (concat (write_blocks 8 mask v (write_blocks 7 mask v
                                   (write_blocks 6 mask v (write_blocks 5 mask v blocks)))));
          ug_locations := starts_from 0 blocks0 |}.
Proof.
  intros E Hl Hm HF g v. unfold g.
  pose proof (map_length_eq _ _ Hl) as Hl0.
  assert (S0 : map length blocks = map length blocks0
               /\ length mask = length blocks /\ length v = length blocks)
    by (repeat split; auto; unfold v; apply length_map).
  pose proof (write_blocks_layout 5 _ _ _ _ S0) as S1.
  pose proof (write_blocks_layout 6 _ _ _ _ S1) as S2.
  pose proof (write_blocks_layout 7 _ _ _ _ S2) as S3.
  unfold UnstructuredGrid_offset, UnstructuredGrid_cells. rewrite E.
  cbn [ug_cells ug_locations GetData id_array data].
  unfold mask_index.
  rewrite decide_True by (rewrite length_starts_from; lia).
  cbn [mbind result_bind].
  pose proof (take_at_blocks 1 blocks mask [] Hm) as Htake.
  cbn [app length] in Htake. change (Z.of_nat 0) with 0 in Htake.
  change (Z.of_nat 1) with 1 in Htake.
  rewrite (starts_from_lengths 0 blocks0 blocks Hl) in Htake.
  rewrite Htake by (eapply Forall2_lengths; [exact Hl|];
                    eapply Forall2_inside_le; [|exact HF]; lia).
  cbn [mbind result_bind]. fold v.
  rewrite (set_cells_blocks 5 _ blocks0 mask v _ _ _ _ S0)
    by (eapply Forall2_inside_le; [|exact HF]; lia).
  cbn [mbind result_bind].
  rewrite (set_cells_blocks 6 _ blocks0 mask v _ _ _ _ S1)
    by (eapply Forall2_inside_le; [|exact HF]; lia).
  cbn [mbind result_bind].
  rewrite (set_cells_blocks 7 _ blocks0 mask v _ _ _ _ S2)
    by (eapply Forall2_inside_le; [|exact HF]; lia).
  cbn [mbind result_bind].
  apply (set_cells_blocks 8 _ blocks0 mask v _ _ _ _ S3 HF).
Qed.

Lemma tri_block_legacy (p : option vtkPoints) (ts : list Z) (n : Z) (mask : list bool)
    (blocks blocks0 : list (list Z)) :
  VTK9 = false ->
  map length blocks = map length blocks0 -> length mask = length blocks ->
  Forall2 (fun (m : bool) b => m = true -> (6 < length b)%nat) mask blocks0 ->
  let g := {| ug_points := p; ug_types := ts;
              ug_cells := LegacyCells n (concat blocks);
              ug_locations := starts_from 0 blocks0 |} in
  let v := map (fun b => nth 1 b 0) blocks in
  (tri_offset ← mask_index (data (UnstructuredGrid_offset g)) mask;
   base_point ← take_at (data (UnstructuredGrid_cells g)) (add_to tri_offset 1);
   lgrid ← set_cells g (add_to tri_offset 4) base_point;
   lgrid ← set_cells lgrid (add_to tri_offset 5) base_point;
   set_cells lgrid (add_to tri_offset 6) base_point)
  = Ok {| ug_points := p; ug_types := ts;
          ug_cells := LegacyCells n
                        (concat (write_blocks 6 mask v (write_blocks 5 mask v
                                   (write_blocks 4 mask v blocks))));
          ug_locations := starts_from 0 blocks0 |}.
Proof.
  intros E Hl Hm HF g v. unfold g.
  pose proof (map_length_eq _ _ Hl) as Hl0.
  assert (S0 : map length blocks = map length blocks0
               /\ length mask = length blocks /\ length v = length blocks)
    by (repeat split; auto; unfold v; apply length_map).
  pose proof (write_blocks_layout 4 _ _ _ _ S0) as S1.
  pose proof (write_blocks_layout 5 _ _ _ _ S1) as S2.
  unfold UnstructuredGrid_offset, UnstructuredGrid_cells. rewrite E.
  cbn [ug_cells ug_locations GetData id_array data].
  unfold mask_index.
  rewrite decide_True by (rewrite length_starts_from; lia).
  cbn [mbind result_bind].
  pose proof (take_at_blocks 1 blocks mask [] Hm) as Htake.
  cbn [app length] in Htake. change (Z.of_nat 0) with 0 in Htake.
  change (Z.of_nat 1) with 1 in Htake.
  rewrite (starts_from_lengths 0 blocks0 blocks Hl) in Htake.
  rewrite Htake by (eapply Forall2_lengths; [exact Hl|];
                    eapply Forall2_inside_le; [|exact HF]; lia).
  cbn [mbind result_bind]. fold v.
  rewrite (set_cells_blocks 4 _ blocks0 mask v _ _ _ _ S0)
    by (eapply Forall2_inside_le; [|exact HF]; lia).
  cbn [mbind result_bind].
  rewrite (set_cells_blocks 5 _ blocks0 mask v _ _ _ _ S1)
    by (eapply Forall2_inside_le; [|exact HF]; lia).
  cbn [mbind result_bind].
  apply (set_cells_blocks 6 _ blocks0 mask v _ _ _ _ S2 HF).
Qed.

Lemma write_blocks_unmasked4 (k1 k2 k3 k4 : nat) (mask : list bool) (v : list Z)
    (blocks : list (list Z)) :
  length mask = length blocks -> length v = length blocks -> np_any mask = false ->
  write_blocks k4 mask v (write_blocks k3 mask v (write_blocks k2 mask v
    (write_blocks k1 mask v blocks))) = blocks.
Proof.
  intros Hm Hv Hany.
  now rewrite (write_blocks_unmasked k1 mask v blocks Hm Hv Hany),
    (write_blocks_unmasked k2 mask v blocks Hm Hv Hany),
    (write_blocks_unmasked k3 mask v blocks Hm Hv Hany),
    (write_blocks_unmasked k4 mask v blocks Hm Hv Hany).
Qed.

Lemma write_blocks_unmasked3 (k1 k2 k3 : nat) (mask : list bool) (v : list Z)
    (blocks : list (list Z)) :
  length mask = length blocks -> length v = length blocks -> np_any mask = false ->
  write_blocks k3 mask v (write_blocks k2 mask v (write_blocks k1 mask v blocks)) = blocks.
Proof.
  intros Hm Hv Hany.
  now rewrite (write_blocks_unmasked k1 mask v blocks Hm Hv Hany),
    (write_blocks_unmasked k2 mask v blocks Hm Hv Hany),
    (write_blocks_unmasked k3 mask v blocks Hm Hv Hany).
Qed.

(** The grid [linear_copy] returns. *)
Lemma linear_copy_mixed_grid (s : vtkUnstructuredGrid) (pts : vtkPoints)
    (types : list Z) (cells : list (list Z)) (deep : bool) :
  length types = length cells ->
  Forall2 quadratic_sized types cells ->
  linear_copy (mixed_grid s pts types cells) deep
  = Ok (mixed_grid s pts (map linear_type types) (zip_with linear_cell types cells)).
Proof.
  intros Hlen Hsized.
  assert (Hq8 : Forall2 (fun t c => t = VTK_QUADRATIC_QUAD -> length c = 8%nat) types cells).
  { eapply Forall2_impl; [exact Hsized|]. intros t c [? _]; auto. }
  assert (Ht6 : Forall2 (fun t c => t = VTK_QUADRATIC_TRIANGLE -> length c = 6%nat)
                  types cells).
  { eapply Forall2_impl; [exact Hsized|]. intros t c [_ ?]; auto. }
  set (cellsq := zip_with (fun t c => collapse t VTK_QUADRATIC_QUAD 4 c) types cells).
  assert (Hlq : map length cellsq = map length cells)
    by apply (map_length_collapse _ 4 _ _ Hq8).
  assert (Ht6q : Forall2 (fun t c => t = VTK_QUADRATIC_TRIANGLE -> length c = 6%nat)
                   types cellsq).
  { unfold cellsq. clear -Hsized. induction Hsized as [|t c types cells [_ Hc] _ IH];
      cbn; constructor; auto.
    intros ->. unfold collapse. cbn. auto. }
  assert (Hfinal : zip_with (fun t c => collapse t VTK_QUADRATIC_TRIANGLE 3 c) types cellsq
                   = zip_with linear_cell types cells)
    by exact (zip_with_same (fun t c => collapse t VTK_QUADRATIC_QUAD 4 c)
                (fun t c => collapse t VTK_QUADRATIC_TRIANGLE 3 c) types cells).
  assert (Hlf : map length (zip_with linear_cell types cells) = map length cells).
  { rewrite <- Hfinal, <- Hlq. apply (map_length_collapse _ 3 _ _ Ht6q). }
  unfold linear_copy.
  pose proof (linear_copy_celltypes types) as (Hmq & Hmt & Hty).
  cbv zeta in Hmq, Hmt, Hty. cbv zeta.
  change (ug_types (mixed_grid s pts types cells)) with types.
  rewrite Hty, Hmt, Hmq. clear Hty Hmt Hmq.
  replace (UnstructuredGrid_copy (mixed_grid s pts types cells) deep)
    with (mixed_grid s pts types cells) by (destruct deep; reflexivity).
  unfold UnstructuredGrid_SetCells_offset, mixed_grid.
  cbn [ug_points ug_types ug_cells ug_locations].
  set (mq := equals types VTK_QUADRATIC_QUAD). set (mt := equals types VTK_QUADRATIC_TRIANGLE).
  assert (Hmq : length mq = length cells) by (unfold mq; rewrite length_equals; exact Hlen).
  assert (Hmt : length mt = length cells) by (unfold mt; rewrite length_equals; exact Hlen).
  pose proof (map_length_eq _ _ Hlq) as Hlq'.
  destruct VTK9 eqn:E.
  - match goal with
    | |- (?e ≫= _) = _ =>
        assert (e = Ok {| ug_points := Some pts; ug_types := map linear_type types;
                          ug_cells := OffsetCells (offsets_from 0 cells) (concat cellsq);
                          ug_locations := ug_locations s |}) as ->
    end.
    { unfold cellsq. rewrite <- (collapse_quad _ _ _ Hq8). cbv zeta. fold mq.
      destruct (np_any mq) eqn:Hany.
      - apply (quad_block_VTK9 _ _ _ mq cells cells E eq_refl Hmq).
        apply (masked_inside _ 8 7); [lia | exact Hq8].
      - rewrite write_blocks_unmasked4; auto. now rewrite length_map. }
    cbn [mbind result_bind].
    rewrite (offsets_from_lengths 0 cells _ Hlf), <- Hfinal.
    rewrite <- (collapse_tri _ _ _ Ht6q). cbv zeta. fold mt.
    destruct (np_any mt) eqn:Hany.
    + apply (tri_block_VTK9 _ _ _ mt cellsq cells E Hlq); [lia|].
      apply (masked_inside _ 6 5); [lia | exact Ht6].
    + rewrite write_blocks_unmasked3; auto; [lia | rewrite length_map; lia].
  - rewrite !padded_frames, !cell_starts_frames.
    rewrite !length_map.
    match goal with
    | |- (?e ≫= _) = _ =>
        assert (e = Ok {| ug_points := Some pts; ug_types := map linear_type types;
                          ug_cells := LegacyCells (Z.of_nat (length types))
                                        (concat (frames cellsq));
                          ug_locations := starts_from 0 (frames cells) |}) as ->
    end.
    { unfold cellsq. rewrite <- (collapse_quad_frames _ _ _ Hq8). cbv zeta. fold mq.
      destruct (np_any mq) eqn:Hany.
      - apply (quad_block_legacy _ _ _ mq (frames cells) (frames cells) E eq_refl).
        + rewrite length_frames. exact Hmq.
        + apply (masked_inside_frames _ 8 8); [lia | exact Hq8].
      - rewrite write_blocks_unmasked4; auto; rewrite ?length_map, length_frames; auto. }
    cbn [mbind result_bind].
    rewrite (starts_from_lengths 0 (frames cells) _ (frames_lengths _ _ Hlf)), <- Hfinal.
    rewrite <- (collapse_tri_frames _ _ _ Ht6q). cbv zeta. fold mt.
    destruct (np_any mt) eqn:Hany.
    + apply (tri_block_legacy _ _ _ mt (frames cellsq) (frames cells) E).
      * apply frames_lengths, Hlq.
      * rewrite length_frames. lia.
      * apply (masked_inside_frames _ 6 6); [lia | exact Ht6].
    + rewrite write_blocks_unmasked3; auto; rewrite ?length_map, length_frames; lia.
Qed.


Lemma same_frame_refl (g : vtkUnstructuredGrid) : same_frame g g.
Proof. repeat split. Qed.

Lemma same_frame_trans (g1 g2 g3 : vtkUnstructuredGrid) :
  same_frame g1 g2 -> same_frame g2 g3 -> same_frame g1 g3.
Proof. unfold same_frame. intros (?&?&?&?&?) (?&?&?&?&?). repeat split; congruence. Qed.

Lemma set_cell_connectivity_frame (g g' : vtkUnstructuredGrid) (inds vals : list Z) :
  set_cell_connectivity g inds vals = Ok g' -> same_frame g g'.
Proof.
  unfold set_cell_connectivity. intros Hs.
  destruct (cell_connectivity g); [|discriminate]. cbn [mbind result_bind] in Hs.
  destruct (put_at _ _ _); [|discriminate]. cbn [mbind result_bind] in Hs.
  injection Hs as <-. unfold same_frame. cbn. destruct (ug_cells g); repeat split.
Qed.

Lemma set_cells_frame (g g' : vtkUnstructuredGrid) (inds vals : list Z) :
  set_cells g inds vals = Ok g' -> same_frame g g'.
Proof.
  unfold set_cells. intros Hs.
  destruct (put_at _ _ _); [|discriminate]. cbn [mbind result_bind] in Hs.
  injection Hs as <-. unfold same_frame. cbn. destruct (ug_cells g); repeat split.
Qed.

Ltac bind_inv H :=
  match type of H with
  | (?e ≫= _) = Ok _ =>
      let x := fresh "x" in let Hx := fresh "Hx" in
      destruct e as [x|] eqn:Hx; [cbn [mbind result_bind] in H | discriminate H]
  end.

Ltac frame_step :=
  match goal with
  | Hx : set_cell_connectivity _ _ _ = Ok _ |- _ => apply set_cell_connectivity_frame in Hx
  | Hx : set_cells _ _ _ = Ok _ |- _ => apply set_cells_frame in Hx
  end.

(** Whatever the cells hold, [linear_copy] changes point ids only. *)
Lemma linear_copy_frame (self g : vtkUnstructuredGrid) (deep : bool) :
  linear_copy self deep = Ok g ->
  same_frame
    (UnstructuredGrid_SetCells_offset (UnstructuredGrid_copy self deep)
       (map linear_type (ug_types self)) (ug_locations self) (ug_cells self)) g.
Proof.
  unfold linear_copy.
  pose proof (linear_copy_celltypes (ug_types self)) as (Hmq & Hmt & Hty).
  cbv zeta in Hmq, Hmt, Hty. cbv zeta.
  rewrite Hty, Hmt, Hmq. clear Hty Hmt Hmq.
  set (g0 := UnstructuredGrid_SetCells_offset _ _ _ _).
  intros Hrun. bind_inv Hrun.
  assert (Hq : same_frame g0 x).
  { destruct (np_any (equals (ug_types self) VTK_QUADRATIC_QUAD));
      [|injection Hx as <-; apply same_frame_refl].
    destruct VTK9; repeat bind_inv Hx; repeat frame_step;
      repeat (eapply same_frame_trans; [eassumption|]); apply same_frame_refl. }
  eapply same_frame_trans; [exact Hq|].
  destruct (np_any (equals (ug_types self) VTK_QUADRATIC_TRIANGLE));
    [|injection Hrun as <-; apply same_frame_refl].
  destruct VTK9; repeat bind_inv Hrun; repeat frame_step;
    repeat (eapply same_frame_trans; [eassumption|]); apply same_frame_refl.
Qed.


Lemma linear_type_not_quadratic (t : Z) : is_quadratic (linear_type t) = false.
Proof.
  apply bool_decide_eq_false_2. rewrite !elem_of_cons, elem_of_nil.
  type_cases; intuition lia.
Qed.

Lemma linear_type_idempotent (t : Z) : linear_type (linear_type t) = linear_type t.
Proof. type_cases. Qed.

Lemma linear_cell_of_linear (t : Z) (c : list Z) : linear_cell (linear_type t) c = c.
Proof.
  unfold linear_cell, collapse.
  assert ((linear_type t =? VTK_QUADRATIC_QUAD) = false) as -> by (apply Z.eqb_neq; type_cases).
  assert ((linear_type t =? VTK_QUADRATIC_TRIANGLE) = false) as ->
    by (apply Z.eqb_neq; type_cases).
  reflexivity.
Qed.

Lemma np_any_equals_absent (types : list Z) (T : Z) :
  Forall (fun t => t <> T) types -> np_any (equals types T) = false.
Proof.
  unfold np_any, equals. induction 1 as [|t types Ht _ IH]; [reflexivity|].
  cbn. rewrite IH. apply Z.eqb_neq in Ht. now rewrite Ht.
Qed.

(** X10: on every grid on which [linear_copy] returns, each cell type is
    replaced by its linear counterpart, none of the six converted
    quadratic types is left, and the number of cells and the offsets are
    those of the original; on a grid without quadratic quadrilaterals and
    triangles it always returns and keeps the cells as they are. *)
Theorem linear_copy_types (self : vtkUnstructuredGrid) (deep : bool) :
  (forall g, linear_copy self deep = Ok g ->
     data (UnstructuredGrid_celltypes g)
     = map linear_type (data (UnstructuredGrid_celltypes self))
     /\ Forall (fun t => is_quadratic t = false) (data (UnstructuredGrid_celltypes g))
     /\ UnstructuredGrid_n_cells g = UnstructuredGrid_n_cells self
     /\ data (UnstructuredGrid_offset g) = data (UnstructuredGrid_offset self))
  /\ (Forall (fun t => t <> VTK_QUADRATIC_QUAD /\ t <> VTK_QUADRATIC_TRIANGLE)
        (data (UnstructuredGrid_celltypes self)) ->
      exists g, linear_copy self deep = Ok g /\ ug_cells g = ug_cells self).
Proof.
  split.
  - intros g Hrun. apply linear_copy_frame in Hrun as (Hp & Ht & Hloc & Hn & Ho).
    cbn in Hp, Ht, Hloc, Hn, Ho. unfold UnstructuredGrid_n_cells, UnstructuredGrid_offset.
    cbn [UnstructuredGrid_celltypes data]. rewrite Ht, Hn, Ho, Hloc.
    repeat split; try reflexivity.
    apply Forall_forall. intros t [t0 [<- _]]%list_elem_of_In%in_map_iff.
    apply linear_type_not_quadratic.
  - cbn [UnstructuredGrid_celltypes data]. intros Hno.
    unfold linear_copy.
    pose proof (linear_copy_celltypes (ug_types self)) as (Hmq & Hmt & Hty).
    cbv zeta in Hmq, Hmt, Hty. cbv zeta.
    rewrite Hty, Hmt, Hmq.
    rewrite !np_any_equals_absent
      by (eapply Forall_impl; [exact Hno|]; cbn; intros t [? ?]; assumption).
    cbn [mbind result_bind]. eexists. split; [reflexivity|]. reflexivity.
Qed.

(** X11: on a grid whose quadratic quadrilaterals have 8 points and whose
    quadratic triangles have 6, [linear_copy] returns a grid in which
    every such cell keeps its corner points and has its mid-side points
    replaced by its first point, every other cell is unchanged, and the
    cell types are the linear ones; this holds for both VTK generations. *)
Theorem linear_copy_cells (s : vtkUnstructuredGrid) (pts : vtkPoints)
    (types : list Z) (cells : list (list Z)) (deep : bool) :
  length types = length cells ->
  Forall2 quadratic_sized types cells ->
  exists g,
    linear_copy (mixed_grid s pts types cells) deep = Ok g
    /\ data (UnstructuredGrid_celltypes g) = map linear_type types
    /\ data (UnstructuredGrid_cells g) = padded (zip_with linear_cell types cells)
    /\ (forall conn, cell_connectivity g = Ok conn ->
          data conn = concat (zip_with linear_cell types cells))
    /\ ug_points g = Some pts.
Proof.
  intros Hlen Hsized. eexists. split; [apply linear_copy_mixed_grid; assumption|].
  unfold UnstructuredGrid_cells, cell_connectivity, mixed_grid.
  cbn [UnstructuredGrid_celltypes data ug_types ug_cells ug_points id_array].
  destruct VTK9; cbn [GetData GetConnectivityArray].
  - repeat split; try reflexivity.
    + apply (export_offsets_from _ []).
    + intros conn [= <-]. reflexivity.
  - repeat split; try reflexivity. intros conn [=].
Qed.

(** X12: [linear_copy] is idempotent on such grids: a second call on
    its result returns the same grid. *)
Theorem linear_copy_idempotent (s : vtkUnstructuredGrid) (pts : vtkPoints)
    (types : list Z) (cells : list (list Z)) (deep : bool) (g : vtkUnstructuredGrid) :
  length types = length cells ->
  Forall2 quadratic_sized types cells ->
  linear_copy (mixed_grid s pts types cells) deep = Ok g ->
  linear_copy g deep = Ok g.
Proof.
  intros Hlen Hsized Hrun.
  rewrite linear_copy_mixed_grid in Hrun by assumption. injection Hrun as <-.
  assert (Hl : length (map linear_type types) = length (zip_with linear_cell types cells)).
  { rewrite length_map, length_zip_with. lia. }
  rewrite linear_copy_mixed_grid.
  - f_equal. f_equal.
    + rewrite map_map. apply map_ext_Z, linear_type_idempotent.
    + generalize (zip_with linear_cell types cells) Hl. clear.
      induction types as [|t types IH]; intros [|c l] Hl; try discriminate;
        cbn [map zip_with]; try reflexivity.
      rewrite linear_cell_of_linear, IH; [reflexivity|]. cbn in Hl. lia.
  - exact Hl.
  - generalize (zip_with linear_cell types cells) Hl. clear.
    induction types as [|t types IH]; intros [|c l] Hl; try discriminate;
      cbn [map]; constructor.
    + split; intros E; exfalso; revert E; type_cases.
    + apply IH. cbn in Hl. lia.
Qed.

(** *** Index tuples *)

Lemma getitem_items_lengths (dims : list Z) (key : list key_item) :
  forall i vars voi rate voi' rate',
    getitem_items dims i key vars voi rate = Ok (voi', rate') ->
    length voi' = (length voi + 2 * length key)%nat
    /\ length rate' = (length rate + length key)%nat
    /\ Forall (fun k => k <> KeyIterable) key.
Proof.
  induction key as [|k key IH]; intros i vars voi rate voi' rate' Hrun.
  - injection Hrun as <- <-. cbn. repeat split; auto with lia.
  - cbn [getitem_items] in Hrun.
    destruct (match k with KeyInt _ => _ | _ => _ end) as [[[[a b] s]|]|] eqn:Hk;
      cbn [mbind result_bind] in Hrun; try discriminate.
    apply IH in Hrun as (Hv & Hr & Hit). rewrite length_app in Hv, Hr. cbn in *.
    repeat split; try lia. constructor; [|exact Hit]. intros ->. discriminate.
Qed.

(** X17: [StructuredGrid.__getitem__] raises a [RuntimeError] unless the
    tuple has three items; when it returns, none of them is an iterable,
    the volume of interest has six entries and the sample rate three; for
    three integers or slices the volume of interest lists, axis by axis,
    the first and last index ([k, k] for an integer [k], [start, stop - 1]
    for a slice, the number of points when the slice has no stop) and the
    rate lists the steps. *)
Theorem StructuredGrid_getitem_voi (self : vtkStructuredGrid) (key : list key_item) :
  (length key <> 3%nat ->
   StructuredGrid__getitem__ self key
   = Raise (OtherError "RuntimeError: Slices must have exactly 3 dimensions."))
  /\ (forall voi rate,
        StructuredGrid__getitem__ self key = Ok (voi, rate) ->
        length voi = 6%nat /\ length rate = 3%nat
        /\ Forall (fun k => k <> KeyIterable) key)
  /\ (forall d0 d1 d2 k0 k1 k2 a0 b0 s0 a1 b1 s1 a2 b2 s2,
        dimensions self = [d0; d1; d2] -> key = [k0; k1; k2] ->
        item_range d0 k0 = Some (a0, b0, s0) ->
        item_range d1 k1 = Some (a1, b1, s1) ->
        item_range d2 k2 = Some (a2, b2, s2) ->
        StructuredGrid__getitem__ self key
        = Ok ([a0; b0; a1; b1; a2; b2], [s0; s1; s2])).
Proof.
  split; [|split].
  - intros Hlen. unfold StructuredGrid__getitem__. now rewrite decide_True.
  - intros voi rate. unfold StructuredGrid__getitem__.
    destruct (decide (length key <> 3%nat)) as [|Hlen]; [discriminate|].
    apply dec_stable in Hlen. intros Hrun.
    apply getitem_items_lengths in Hrun as (Hv & Hr & Hit). rewrite Hlen in *.
    cbn in *. auto.
  - intros d0 d1 d2 k0 k1 k2 a0 b0 s0 a1 b1 s1 a2 b2 s2 Hdims -> H0 H1 H2.
    unfold StructuredGrid__getitem__, dimensions in *. rewrite Hdims. cbn [length decide].
    destruct k0 as [?|? [?|] ?| |]; try discriminate; injection H0 as <- <- <-;
      destruct k1 as [?|? [?|] ?| |]; try discriminate; injection H1 as <- <- <-;
      destruct k2 as [?|? [?|] ?| |]; try discriminate; injection H2 as <- <- <-;
      reflexivity.
Qed.

(** *** Cell arrays as matrices *)

Lemma cell_dims_positive (dims : list Z) :
  Forall (fun d => 1 <= d) dims ->
  put_mask (add_to dims (-1)) (equals (add_to dims (-1)) 0) 1
  = map (fun d => Z.max (d - 1) 1) dims.
Proof.
  unfold put_mask, equals, add_to. induction 1 as [|d dims Hd _ IH]; [reflexivity|].
  cbn [map zip_with]. rewrite IH. f_equal.
  destruct (Z.eqb_spec (d + -1) 0); lia.
Qed.

Lemma infer_shape_positive (s : list Z) (sz : nat) :
  Forall (fun d => 1 <= d) s -> infer_shape s sz = Ok (map Z.to_nat s).
Proof.
  intros Hs. unfold infer_shape.
  assert (filter (fun d => d < 0) s = []) as ->; [|reflexivity].
  induction Hs as [|d s Hd _ IH]; [reflexivity|].
  rewrite filter_cons. destruct (decide (d < 0)); [lia | exact IH].
Qed.

Lemma n_cells_extents (self : vtkStructuredGrid) :
  Forall (fun d => 1 <= d) (sg_dims self) ->
  StructuredGrid_n_cells self = Z.of_nat (prod_list (cell_extents (sg_dims self))).
Proof.
  intros Hd. unfold StructuredGrid_n_cells, cell_extents.
  assert (existsb (fun d => d =? 0) (sg_dims self) = false) as ->.
  { induction Hd as [|d s Hd _ IH]; [reflexivity|]. cbn. rewrite IH.
    destruct (Z.eqb_spec d 0); [lia | reflexivity]. }
  induction Hd as [|d s Hd _ IH]; [reflexivity|].
  cbn [map foldr]. rewrite prod_list_cons, IH, Nat2Z.inj_mul.
  destruct (Z.ltb_spec 1 d); lia.
Qed.

Lemma length_reshape_F_data (s : list nat) (f : list Z) :
  length f = prod_list s -> length (reshape_F_data s f) = prod_list s.
Proof.
  revert f. induction s as [|n s IH]; intros f Hf; [exact Hf|].
  rewrite prod_list_cons in *. cbn [reshape_F_data].
  rewrite (length_concat_uniform (prod_list s)).
  - rewrite length_map, length_transpose. reflexivity.
  - apply Forall_forall. intros r [c [<- Hc]]%list_elem_of_In%in_map_iff.
    apply IH. apply list_elem_of_In in Hc.
    pose proof (transpose_lengths n (chunks n (prod_list s) f)) as Hl.
    rewrite Forall_forall in Hl. rewrite (Hl c Hc). apply length_chunks.
Qed.

(** Flattening in Fortran order what was reshaped in Fortran order gives
    the flat data back. *)
Lemma ravel_reshape_F_data (s : list nat) (f : list Z) :
  length f = prod_list s -> ravel_F_data s (reshape_F_data s f) = f.
Proof.
  revert f. induction s as [|n s IH]; intros f Hf; [reflexivity|].
  rewrite prod_list_cons in Hf. cbn [ravel_F_data reshape_F_data].
  set (p := prod_list s) in *.
  set (T := transpose n (chunks n p f)).
  assert (Forall (fun r => length r = p) T) as HT.
  { unfold T. eapply Forall_impl; [apply transpose_lengths|].
    intros c Hc. rewrite Hc. apply length_chunks. }
  assert (length T = n) as HTn by apply length_transpose.
  assert (chunks p n (concat (map (reshape_F_data s) T)) = map (reshape_F_data s) T) as ->.
  { rewrite <- HTn at 1. rewrite <- (length_map (reshape_F_data s) T).
    apply chunks_concat. apply Forall_map_lengths; [|exact HT].
    intros r Hr. apply length_reshape_F_data. exact Hr. }
  rewrite map_map.
  rewrite (map_on_Forall (fun r => length r = p) _ (fun r => r) T);
    [|intros r Hr; apply IH; exact Hr | exact HT].
  rewrite map_id. unfold T.
  rewrite <- (length_chunks n p f) at 1.
  rewrite transpose_transpose by (apply chunks_lengths; lia).
  apply concat_chunks. lia.
Qed.

(** X18: on a grid with at least one point along every axis,
    [_reshape_cell_array] returns exactly when the array has one element
    per cell; the result has one extent per axis (the number of cells
    along it), the dtype of the array and the same elements in Fortran
    order.  On an empty grid (dimensions 0, 0, 0) it raises a
    [ValueError] for every array. *)
Theorem reshape_cell_array_sizes (self : vtkStructuredGrid) (array : ndarray) :
  (Forall (fun d => 1 <= d) (dimensions self) -> nd_wf array ->
   (Z.of_nat (np_size array) = StructuredGrid_n_cells self ->
    exists r, _reshape_cell_array self array = Ok r
      /\ shape r = cell_extents (dimensions self)
      /\ dtype r = dtype array
      /\ data (ravel_F r) = data (ravel_F array))
   /\ (Z.of_nat (np_size array) <> StructuredGrid_n_cells self ->
       _reshape_cell_array self array = Raise (ValueError "cannot reshape array")))
  /\ (dimensions self = [0; 0; 0] ->
      exists msg, _reshape_cell_array self array = Raise (ValueError msg)).
Proof.
  split.
  - intros Hd Hwf. unfold _reshape_cell_array. cbv zeta.
    rewrite (cell_dims_positive _ Hd). unfold reshape_F_any.
    rewrite infer_shape_positive
      by (apply Forall_forall; intros d [d0 [<- _]]%list_elem_of_In%in_map_iff; lia).
    cbn [mbind result_bind]. rewrite map_map. fold (cell_extents (dimensions self)).
    rewrite (n_cells_extents self Hd). unfold dimensions. unfold reshape_F.
    change (np_size (ravel_F array)) with (prod_list [np_size array]).
    rewrite prod_list_cons. change (prod_list []) with 1%nat. rewrite Nat.mul_1_r.
    split.
    + intros Hsize. apply Nat2Z.inj in Hsize. rewrite decide_True by congruence.
      eexists. split; [reflexivity|]. cbn [shape dtype data ravel_F]. repeat split.
      apply ravel_reshape_F_data. rewrite length_ravel_F_data by exact Hwf.
      rewrite <- Hsize. reflexivity.
    + intros Hsize. rewrite decide_False by congruence. reflexivity.
  - intros Hd. unfold _reshape_cell_array. rewrite Hd. cbn. eauto.
Qed.

(** *** The points as a matrix *)

(** The components along the last axis of an array, in Fortran order. *)
Lemma chunks_app (k a b : nat) (X Y : list Z) :
  length X = (a * k)%nat -> chunks k (a + b) (X ++ Y) = chunks k a X ++ chunks k b Y.
Proof.
  revert X. induction a as [|a IH]; intros X HX.
  - destruct X; [reflexivity | discriminate].
  - cbn [Nat.add chunks app].
    assert (k <= length X)%nat by lia.
    rewrite take_app_le, drop_app_le by lia. f_equal.
    apply IH. rewrite length_drop. lia.
Qed.

Lemma transpose_zip_app (a b : nat) (X Y : list (list Z)) :
  Forall (fun r => length r = a) X -> length X = length Y ->
  transpose (a + b) (zip_with app X Y) = transpose a X ++ transpose b Y.
Proof.
  revert X Y. induction a as [|a IH]; intros X Y HX Hlen.
  - cbn [Nat.add transpose app]. f_equal.
    revert Y Hlen. induction HX as [|r X Hr _ IHX]; intros [|y Y] Hlen; try discriminate;
      [reflexivity|].
    destruct r; [|discriminate]. cbn. f_equal. apply IHX. cbn in Hlen. lia.
  - cbn [Nat.add transpose app]. f_equal.
    + clear IH. revert Y Hlen. induction HX as [|r X Hr _ IHX]; intros [|y Y] Hlen;
        try discriminate; [reflexivity|].
      destruct r; [discriminate|]. cbn. f_equal. apply IHX. cbn in Hlen. lia.
    + rewrite <- IH.
      * f_equal. clear IH. revert Y Hlen.
        induction HX as [|r X Hr _ IHX]; intros [|y Y] Hlen; try discriminate; [reflexivity|].
        destruct r; [discriminate|]. cbn. f_equal. apply IHX. cbn in Hlen. lia.
      * clear -HX. induction HX as [|r X Hr _ IHX]; cbn; constructor; auto.
        destruct r; [discriminate|]. cbn in *. lia.
      * now rewrite length_map.
Qed.

Lemma nth_seq_all (d : list Z) :
  map (fun c => nth c d 0) (seq 0 (length d)) = d.
Proof.
  induction d as [|x d IH]; [reflexivity|].
  cbn [length seq map nth]. f_equal. rewrite <- seq_shift, map_map. exact IH.
Qed.

Lemma transpose_blocks (p : nat) (F : nat -> list Z -> list Z) (B : list (list Z))
    (cs : list nat) :
  (forall c b, length (F c b) = p) ->
  transpose (length cs * p) (map (fun b => concat (map (fun c => F c b) cs)) B)
  = concat (map (fun c => transpose p (map (F c) B)) cs).
Proof.
  intros HF. induction cs as [|c cs IH]; [reflexivity|].
  cbn [length map concat Nat.mul].
  rewrite <- IH, <- transpose_zip_app.
  - f_equal. clear. induction B as [|b B IHB]; [reflexivity|]. cbn. now rewrite IHB.
  - apply Forall_forall. intros r [b [<- _]]%list_elem_of_In%in_map_iff. apply HF.
  - now rewrite !length_map.
Qed.

Lemma comp_chunks (m p n : nat) (f : list Z -> Z) (d : list Z) :
  length d = (n * (p * m))%nat ->
  chunks p n (map f (chunks m (n * p) d))
  = map (fun b => map f (chunks m p b)) (chunks (p * m) n d).
Proof.
  revert d. induction n as [|n IH]; intros d Hd; [reflexivity|].
  cbn [chunks map Nat.mul].
  rewrite <- (take_drop (p * m) d) at 1 2.
  rewrite chunks_app by (rewrite length_take; lia).
  rewrite map_app.
  assert (length (map f (chunks m p (take (p * m) d))) = p) as Hp
    by (rewrite length_map; apply length_chunks).
  rewrite take_app_length' by (symmetry; exact Hp).
  rewrite drop_app_length' by (symmetry; exact Hp).
  f_equal. apply IH. rewrite length_drop. lia.
Qed.

Lemma concat_concat_map {A B} (g : A -> list (list B)) (l : list A) :
  concat (concat (map g l)) = concat (map (fun x => concat (g x)) l).
Proof.
  induction l as [|x l IH]; [reflexivity|]. cbn. now rewrite concat_app, IH.
Qed.

Lemma length_comp (m c p : nat) (d : list Z) : length (comp m c p d) = p.
Proof. unfold comp. rewrite length_map. apply length_chunks. Qed.

(** Flattening in Fortran order an array whose last axis has [m]
    entries lists its [m] components one after the other. *)
Lemma ravel_F_data_last_axis (s : list nat) (m : nat) (d : list Z) :
  length d = (prod_list s * m)%nat ->
  ravel_F_data (s ++ [m]) d
  = concat (map (fun c => ravel_F_data s (comp m c (prod_list s) d)) (seq 0 m)).
Proof.
  revert d. induction s as [|n s IH]; intros d Hd.
  - cbn [app prod_list foldr] in *. rewrite ravel_F_data_flat by lia.
    assert (m = length d) as -> by lia.
    rewrite <- (nth_seq_all d) at 1.
    generalize (seq 0 (length d)) as cs. intros cs.
    induction cs as [|c cs IHcs]; [reflexivity|].
    cbn [map concat]. rewrite <- IHcs. unfold comp. cbn [chunks map ravel_F_data app].
    f_equal. f_equal. destruct (decide (c < length d)%nat) as [Hc|Hc].
    + rewrite <- (firstn_all d) at 1. reflexivity.
    + rewrite firstn_all. reflexivity.
  - rewrite prod_list_cons in Hd. cbn [app ravel_F_data].
    rewrite prod_list_app. change (prod_list [m]) with (m * 1)%nat. rewrite Nat.mul_1_r.
    set (p := prod_list s) in *.
    set (B := chunks (p * m) n d).
    assert (Forall (fun b => length b = (p * m)%nat) B) as HB
      by (apply chunks_lengths; lia).
    rewrite (map_on_Forall (fun b => length b = (p * m)%nat) _
               (fun b => concat (map (fun c => ravel_F_data s (comp m c p b)) (seq 0 m)))
               B); [|intros b Hb; apply IH; exact Hb | exact HB].
    replace (transpose (p * m)) with (transpose (length (seq 0 m) * p))
      by (rewrite length_seq; f_equal; lia).
    rewrite (transpose_blocks p (fun c b => ravel_F_data s (comp m c p b)) B (seq 0 m));
      [|intros c b; apply length_ravel_F_data, length_comp].
    rewrite concat_concat_map. f_equal. apply map_ext. intros c.
    rewrite prod_list_cons. fold p. unfold comp at 2.
    rewrite (comp_chunks m p n (fun row => nth c row 0) d) by lia.
    fold B. now rewrite map_map.
Qed.

Lemma infer_shape_nonneg (s : list Z) (sz : nat) :
  Forall (fun d => 0 <= d) s -> infer_shape s sz = Ok (map Z.to_nat s).
Proof.
  intros Hs. unfold infer_shape.
  assert (filter (fun d => d < 0) s = []) as ->; [|reflexivity].
  induction Hs as [|d s Hd _ IH]; [reflexivity|].
  rewrite filter_cons. destruct (decide (d < 0)); [lia | exact IH].
Qed.

Lemma last_axis_components (S : list nat) (N : nat) (d : list Z) :
  prod_list S = N -> length d = (N * 3)%nat ->
  forall c, (c < 3)%nat ->
    comp 3 c N (reshape_F_data (S ++ [3%nat]) (ravel_F_data [N; 3%nat] d))
    = reshape_F_data S (comp 3 c N d).
Proof.
  intros HS Hd.
  set (f := ravel_F_data [N; 3%nat] d).
  set (D := reshape_F_data (S ++ [3%nat]) f).
  assert (Hf : length f = (N * 3)%nat).
  { unfold f. rewrite length_ravel_F_data; rewrite !prod_list_cons;
      change (prod_list []) with 1%nat; lia. }
  assert (HpS : prod_list (S ++ [3%nat]) = (N * 3)%nat).
  { rewrite prod_list_app, HS. reflexivity. }
  assert (HD : length D = (N * 3)%nat).
  { unfold D. rewrite length_reshape_F_data; lia. }
  assert (Hflat : f = concat (map (fun c => comp 3 c N d) (seq 0 3))).
  { unfold f. change [N; 3%nat] with ([N] ++ [3%nat]).
    rewrite (ravel_F_data_last_axis [N] 3 d)
      by (rewrite prod_list_cons; change (prod_list []) with 1%nat; lia).
    rewrite prod_list_cons. change (prod_list []) with 1%nat. rewrite Nat.mul_1_r.
    f_equal. apply map_ext. intros c. apply ravel_F_data_flat, length_comp. }
  assert (Hback : ravel_F_data (S ++ [3%nat]) D = f).
  { unfold D. apply ravel_reshape_F_data. lia. }
  rewrite (ravel_F_data_last_axis S 3 D) in Hback by lia.
  rewrite HS, Hflat in Hback. cbn [seq map concat] in Hback. rewrite !app_nil_r in Hback.
  assert (forall c, length (ravel_F_data S (comp 3 c N D)) = N) as Hl.
  { intros c. rewrite length_ravel_F_data; rewrite ?length_comp; lia. }
  apply app_inj_1 in Hback as [H0 Hback]; [|now rewrite Hl, length_comp].
  apply app_inj_1 in Hback as [H1 H2]; [|now rewrite Hl, length_comp].
  intros c Hc.
  rewrite <- (reshape_ravel_F_data S (comp 3 c N D)) by (rewrite length_comp; lia).
  f_equal. destruct c as [|[|[|c]]]; [exact H0 | exact H1 | exact H2 | lia].
Qed.

(** X21: on a structured grid whose points fill its dimensions,
    [points_matrix] has the shape of the dimensions followed by 3, and
    its components along the last axis are the [x], [y] and [z]
    properties. *)
Theorem points_matrix_components (self : vtkStructuredGrid) (N : nat) :
  is_matrix N 3 (StructuredGrid_points self) ->
  Forall (fun d => 0 <= d) (dimensions self) ->
  prod_list (map Z.to_nat (dimensions self)) = N ->
  exists pm,
    points_matrix self = Ok pm
    /\ shape pm = map Z.to_nat (dimensions self) ++ [3%nat]
    /\ StructuredGrid_x self = Ok (last_axis pm 0)
    /\ StructuredGrid_y self = Ok (last_axis pm 1)
    /\ StructuredGrid_z self = Ok (last_axis pm 2).
Proof.
  intros [Hshape Hdata] Hdims Hprod.
  set (S := map Z.to_nat (dimensions self)) in *.
  unfold points_matrix, reshape_F_any.
  rewrite infer_shape_nonneg
    by (apply Forall_app; split; [exact Hdims | repeat constructor; lia]).
  cbn [mbind result_bind]. rewrite map_app. fold S. cbn [map].
  change (Z.to_nat 3) with 3%nat.
  assert (Hsz : prod_list (S ++ [3%nat]) = np_size (ravel_F (StructuredGrid_points self))).
  { unfold np_size, ravel_F. cbn [shape]. unfold np_size.
    rewrite Hshape, !prod_list_cons, prod_list_app, Hprod.
    change (prod_list [3%nat]) with 3%nat. change (prod_list []) with 1%nat. lia. }
  unfold reshape_F. rewrite decide_True by exact Hsz.
  eexists. split; [reflexivity|]. split; [reflexivity|].
  unfold ravel_F. cbn [dtype data]. rewrite Hshape.
  assert (forall c, (c < 3)%nat ->
            _reshape_point_array self (get_column (StructuredGrid_points self) c)
            = Ok (last_axis
                    {| dtype := dtype (StructuredGrid_points self);
                       shape := S ++ [3%nat];
                       data := reshape_F_data (S ++ [3%nat])
                                 (ravel_F_data [N; 3%nat]
                                    (data (StructuredGrid_points self))) |} c)) as Hcol.
  { intros c Hc. unfold _reshape_point_array, reshape_F, get_column, rows_of, last_axis.
    fold S. rewrite Hshape. cbn [shape dtype data].
    rewrite length_map, length_chunks. unfold np_size. cbn [shape].
    rewrite prod_list_cons. change (prod_list []) with 1%nat.
    rewrite decide_True by lia. f_equal.
    rewrite length_app. cbn [length].
    replace (length S + 1 - 1)%nat with (length S) by lia.
    rewrite take_app_length, last_snoc. cbn [default]. rewrite Hprod.
    f_equal. symmetry.
    apply (last_axis_components S N _ Hprod); [lia | exact Hc]. }
  unfold StructuredGrid_x, StructuredGrid_y, StructuredGrid_z.
  repeat split; apply Hcol; lia.
Qed.

(** *** Saving and the setters *)

(** X20: [PolyData.save] recomputes the normals exactly when [get_ext]
    returns [stl] or [ply]; for an extension that starts with a dot, as
    every key of [PolyData._WRITERS] does, the mesh is handed to
    [DataSet.save] unchanged. *)
Theorem PolyData_save_normals (abspath get_ext : string -> string)
    (compute_normals : vtkPolyData -> vtkPolyData)
    (DataSet_save : vtkPolyData -> string -> bool -> result unit)
    (self : vtkPolyData) (filename : string) (binary : bool) :
  let ftype := get_ext (abspath filename) in
  let saved := PolyData_save abspath get_ext compute_normals DataSet_save
                 self filename binary in
  (ftype = "stl" \/ ftype = "ply" ->
   saved = (compute_normals self,
            DataSet_save (compute_normals self) (abspath filename) binary))
  /\ (ftype <> "stl" -> ftype <> "ply" ->
      saved = (self, DataSet_save self (abspath filename) binary))
  /\ ((exists rest, ftype = String.append "." rest) -> fst saved = self)
  /\ (ftype ∈ PolyData_WRITERS -> fst saved = self).
Proof.
  cbv zeta. unfold PolyData_save.
  assert (Hdot : forall rest, bool_decide (String.append "." rest ∈ ["stl"; "ply"]) = false).
  { intros rest. apply bool_decide_eq_false_2.
    rewrite !elem_of_cons, elem_of_nil. intros [E | [E | []]]; discriminate E. }
  repeat split.
  - intros Hft. rewrite bool_decide_eq_true_2; [reflexivity|].
    rewrite !elem_of_cons. tauto.
  - intros Hs Hp. rewrite bool_decide_eq_false_2; [reflexivity|].
    rewrite !elem_of_cons, elem_of_nil. tauto.
  - intros [rest ->]. now rewrite Hdot.
  - unfold PolyData_WRITERS. rewrite !elem_of_cons, elem_of_nil.
    intros [-> | [-> | [-> | [-> | []]]]]; reflexivity.
Qed.

(** X19: assigning a count-prefixed array to [verts] or to [faces] and
    reading the property gives the array back; each of the three setters
    leaves the other two cell arrays and the points as they are; a
    [CellArray] instance is stored as it is. *)
Theorem PolyData_setters_roundtrip (self : vtkPolyData) (arr : ndarray) :
  is_padded_array arr ->
  (exists self',
     PolyData_set_verts self (NotCellArray (PyNdarray arr)) = Ok self'
     /\ data (PolyData_verts self') = data arr
     /\ PolyData_lines self' = PolyData_lines self
     /\ PolyData_faces self' = PolyData_faces self
     /\ pd_points self' = pd_points self)
  /\ (exists self',
        PolyData_set_faces self (NotCellArray (PyNdarray arr)) = Ok self'
        /\ data (PolyData_faces self') = data arr
        /\ PolyData_verts self' = PolyData_verts self
        /\ PolyData_lines self' = PolyData_lines self
        /\ pd_points self' = pd_points self)
  /\ (exists self',
        PolyData_set_lines self (NotCellArray (PyNdarray arr)) = Ok self'
        /\ PolyData_verts self' = PolyData_verts self
        /\ PolyData_faces self' = PolyData_faces self
        /\ pd_points self' = pd_points self)
  /\ (forall c : vtkCellArray,
        PolyData_set_faces self (IsCellArray c) = Ok (SetPolys self c)
        /\ PolyData_faces (SetPolys self c) = id_array (GetData c)).
Proof.
  intros Harr.
  destruct (CellArray_padded arr PyNone false Harr (or_introl eq_refl)) as (c & Hc & Hdata).
  repeat split.
  - unfold PolyData_set_verts. rewrite Hc. cbn [mbind result_bind].
    eexists. split; [reflexivity|]. unfold PolyData_verts. cbn [SetVerts pd_verts id_array data].
    repeat split. exact Hdata.
  - unfold PolyData_set_faces. rewrite Hc. cbn [mbind result_bind].
    eexists. split; [reflexivity|]. unfold PolyData_faces. cbn [SetPolys pd_polys id_array data].
    repeat split. exact Hdata.
  - unfold PolyData_set_lines. rewrite Hc. cbn [mbind result_bind].
    eexists. split; [reflexivity|]. repeat split.
Qed.

End Pointset.

(** ** The properties on concrete inputs *)


Lemma UnstructuredGrid_init_sizes_witness :
  @assembles (stand_in true) false
     [PyNdarray two_triangles; PyNdarray triangle_types; PyNdarray square_points]
     (Ok triangle_grid)
  /\ ((@UnstructuredGrid__init__ (stand_in true)
         [PyNdarray two_triangles; PyNdarray triangle_types; PyNdarray square_points] false
       = Ok triangle_grid
       <-> @sizes_consistent (stand_in true) triangle_grid)
      /\ (forall g',
            @UnstructuredGrid__init__ (stand_in true)
              [PyNdarray two_triangles; PyNdarray triangle_types; PyNdarray square_points] false
            = Ok g'
            -> g' = triangle_grid /\ @sizes_consistent (stand_in true) g')
      /\ (~ @sizes_consistent (stand_in true) triangle_grid ->
          exists msg,
            @UnstructuredGrid__init__ (stand_in true)
              [PyNdarray two_triangles; PyNdarray triangle_types; PyNdarray square_points] false
            = Raise (ValueError msg))).
Proof.
  split.
  - exact (@assembles_arrays (stand_in true) false two_triangles triangle_types square_points).
  - exact (@UnstructuredGrid_init_sizes (stand_in true) false _ triangle_grid
             (@assembles_arrays (stand_in true) false two_triangles triangle_types
                square_points)).
Defined.

Lemma cells_dict_roundtrip_witness :
  exists g m,
    @UnstructuredGrid__init__ (stand_in true)
      [PyDict (dict_items triangles_and_line); PyNdarray square_points] false = Ok g
    /\ @cells_dict (stand_in true) g = Ok m
    /\ dict_view m = dict_view (list_to_map triangles_and_line).
Proof.
  apply (@cells_dict_roundtrip (stand_in true) triangles_and_line square_points
           {| pts_data := square_points |} false).
  - apply (bool_decide_eq_true_1 (NoDup (map fst triangles_and_line))). reflexivity.
  - repeat constructor.
    + exists 2%nat, 3%nat. repeat split; try reflexivity; try lia; try discriminate.
      repeat constructor; cbn; lia.
    + exists 1%nat, 2%nat. repeat split; try reflexivity; try lia; try discriminate.
      repeat constructor; cbn; lia.
  - repeat constructor.
  - reflexivity.
  - reflexivity.
  - reflexivity.
Defined.

Lemma boolean_mask_size_check_witness :
  one_mesh_store !! 1%positive = Some two_cell_mesh
  /\ remove_cells one_mesh_store 1%positive (PyNdarray mask_of_three) true
     = Raise (ValueError "Boolean array size must match the number of cells")
  /\ hide_cells vtkStructuredGrid_new (PyNdarray mask_of_three)
     = Raise (ValueError "Boolean array size must match the number of cells").
Proof.
  assert (one_mesh_store !! 1%positive = Some two_cell_mesh) as Hself by reflexivity.
  split; [exact Hself|].
  pose proof (proj1 (boolean_mask_size_check one_mesh_store 1%positive two_cell_mesh
                       vtkStructuredGrid_new (PyNdarray mask_of_three) true Hself)
                mask_of_three eq_refl eq_refl) as [Hremove Hhide].
  split; [apply Hremove | apply Hhide]; cbn; lia.
Defined.



(** Integers beside doubles: the second column holds the bit patterns of
    1.0 and 3.0 where [y] holds 1 and 3, and the two read as the same
    numbers; [y] comes back as doubles. *)
Example StructuredGrid_integers_beside_doubles :
  exists g gy,
    @StructuredGrid__init__ stand_in_converting
      [PyNdarray float_x; PyNdarray int_y; PyNdarray int_z] = Ok g
    /\ data (get_column (StructuredGrid_points g) 1)
       = [4607182418800017408; 4613937818241073152]
    /\ data (ravel_F int_y) = [1; 3]
    /\ values ieee_value (get_column (StructuredGrid_points g) 1)
       = [Some (1, 0); Some (3, 0)]
    /\ values ieee_value (ravel_F int_y) = [Some (1, 0); Some (3, 0)]
    /\ StructuredGrid_y g = Ok gy
    /\ gy = {| dtype := np_float64; shape := [2%nat; 1%nat; 1%nat];
               data := [4607182418800017408; 4613937818241073152] |}.
Proof.
  eexists. eexists. split; [vm_compute; reflexivity|].
  repeat split; vm_compute; reflexivity.
Qed.

Lemma PolyData_faces_lines_roundtrip_witness :
  (exists self,
     @PolyData__init__ (stand_in true) (PyNdarray square_points) (PyNdarray two_triangles)
       PyNone PyNone PyNone false = Ok self
     /\ shape (PolyData_faces self) = shape two_triangles
     /\ data (PolyData_faces self) = data two_triangles)
  /\ (forall self, exists self',
        @PolyData_set_lines (stand_in true) self (NotCellArray (PyNdarray two_triangles))
        = Ok self'
        /\ shape (PolyData_lines self') = shape two_triangles
        /\ data (PolyData_lines self') = data two_triangles).
Proof.
  apply (@PolyData_faces_lines_roundtrip (stand_in true) square_points two_triangles
           {| pts_data := square_points |} PyNone PyNone false).
  - split; [reflexivity|]. split; [reflexivity|]. split.
    + repeat constructor.
    + exists [[0; 1; 2]; [0; 2; 3]]. reflexivity.
  - left. reflexivity.
  - reflexivity.
Defined.

Lemma StructuredGrid_init_shape_mismatch_witness :
  @StructuredGrid__init__ (stand_in true)
    [PyNdarray grid_x; PyNdarray grid_y; PyNdarray wide_z]
  = Raise (ValueError "Input point array shapes must match exactly").
Proof.
  apply (@StructuredGrid_init_shape_mismatch (stand_in true) grid_x grid_y wide_z).
  intros [_ Hyz]. discriminate Hyz.
Defined.

Lemma PolyData_point_cloud_witness :
  (forall self,
     @PolyData__init__ (stand_in true) (PyNdarray square_points) PyNone PyNone PyNone PyNone
       false = Ok self ->
     PolyData_verts self = id_array (vertex_cells (Z.to_nat (PolyData_n_points self)))
     /\ PolyData_n_cells self = PolyData_n_points self)
  /\ (forall points p,
        @np_asarray (stand_in true) (PyNdarray square_points) = Ok points ->
        @vtk_points (stand_in true) points false = Ok p ->
        exists self,
          @PolyData__init__ (stand_in true) (PyNdarray square_points) PyNone PyNone PyNone
            PyNone false = Ok self
          /\ pd_points self = Some p).
Proof.
  apply (@PolyData_point_cloud (stand_in true) (PyNdarray square_points) PyNone PyNone false).
  left. exists square_points. reflexivity.
Defined.

Lemma remove_cells_effect_witness :
  (exists (h' : gmap positive DataSet) (new : positive),
     remove_cells one_mesh_store 1%positive (PyList (map PyInt [0])) false
     = Ok (h', Some new)
     /\ one_mesh_store !! new = None
     /\ h' !! new = Some (without_cells (hits 2 [0]) two_cell_mesh)
     /\ h' !! 1%positive = Some two_cell_mesh
     /\ forall l, l <> new -> h' !! l = one_mesh_store !! l)
  /\ (exists h' : gmap positive DataSet,
        remove_cells one_mesh_store 1%positive (PyList (map PyInt [0])) true
        = Ok (h', None)
        /\ h' !! 1%positive = Some (without_cells (hits 2 [0]) two_cell_mesh)
        /\ forall l, l <> 1%positive -> h' !! l = one_mesh_store !! l).
Proof.
  apply (remove_cells_effect one_mesh_store 1%positive two_cell_mesh
           (PyList (map PyInt [0])) (hits 2 [0])).
  - reflexivity.
  - discriminate.
  - apply (cell_index_list 2 [0]). repeat constructor. cbn. eauto.
Defined.

(** C10 as stated fails on a structured grid, which inherits
    [remove_cells]: [RemoveGhostCells] has no effect there, so the call
    returns [None] and both cells are still in the grid. *)
Lemma remove_cells_structured_counterexample :
  one_grid_store !! 1%positive = Some two_cell_grid
  /\ cell_index (length (ds_cells two_cell_grid)) (PyList (map PyInt [0])) (hits 2 [0])
  /\ exists (h' : gmap positive DataSet) (m' : DataSet),
       remove_cells one_grid_store 1%positive (PyList (map PyInt [0])) true = Ok (h', None)
       /\ h' !! 1%positive = Some m'
       /\ ds_cells m' = ds_cells two_cell_grid
       /\ ds_cells m' <> ds_cells (without_cells (hits 2 [0]) two_cell_grid).
Proof.
  split; [reflexivity|]. split.
  { apply (cell_index_list 2 [0]). repeat constructor. cbn. eauto. }
  eexists. eexists. split; [vm_compute; reflexivity|].
  split; [vm_compute; reflexivity|].
  split; [reflexivity|]. vm_compute. discriminate.
Qed.


(** C2 as stated fails for an array without rows: the grid has no cell
    of that type, and its [cells_dict] lacks the key the input has. *)
Lemma cells_dict_empty_array_counterexample :
  NoDup (map fst no_triangles)
  /\ Forall (@cells_entry (stand_in true) (np_len square_points)) no_triangles
  /\ exists g m,
       @UnstructuredGrid__init__ (stand_in true)
         [PyDict (dict_items no_triangles); PyNdarray square_points] false = Ok g
       /\ @cells_dict (stand_in true) g = Ok m
       /\ m !! 5 = None
       /\ is_Some ((list_to_map no_triangles : gmap Z ndarray) !! 5)
       /\ dict_view m <> dict_view (list_to_map no_triangles).
Proof.
  split.
  { apply (bool_decide_eq_true_1 (NoDup (map fst no_triangles))). reflexivity. }
  split.
  { repeat constructor. exists 0%nat, 3%nat.
    repeat split; try reflexivity; try lia; try discriminate. constructor. }
  eexists. eexists. split; [vm_compute; reflexivity|].
  split; [vm_compute; reflexivity|].
  split; [reflexivity|]. split; [vm_compute; eauto|].
  intros Heq. apply (f_equal (fun m => m !! 5)) in Heq. vm_compute in Heq. discriminate.
Qed.

(** A cell-type array with three entries for two cells is refused under
    VTK 9, and so is an offset array with three entries before VTK 9. *)
Example UnstructuredGrid_init_types_mismatch :
  @UnstructuredGrid__init__ (stand_in true)
    [PyNdarray two_triangles;
     PyNdarray {| dtype := np_uint8; shape := [3%nat]; data := [5; 5; 5] |};
     PyNdarray square_points] false
  = Raise (ValueError "Number of cell types must match the number of cells").
Proof. reflexivity. Qed.

Example UnstructuredGrid_init_offset_mismatch :
  @UnstructuredGrid__init__ (stand_in false)
    [PyNdarray (id_array [0; 4; 8]); PyNdarray two_triangles;
     PyNdarray triangle_types; PyNdarray square_points] false
  = Raise (ValueError "Size of the offset must match the number of cells").
Proof. reflexivity. Qed.

(** [np.arange(6).reshape(2, 3).ravel('F')] and the same for shape
    (2, 3, 2). *)
Example ravel_F_2_3 :
  ravel_F_data [2; 3]%nat [0; 1; 2; 3; 4; 5] = [0; 3; 1; 4; 2; 5].
Proof. reflexivity. Qed.

Example ravel_F_2_3_2 :
  ravel_F_data [2; 3; 2]%nat [0; 1; 2; 3; 4; 5; 6; 7; 8; 9; 10; 11]
  = [0; 6; 2; 8; 4; 10; 1; 7; 3; 9; 5; 11].
Proof. reflexivity. Qed.

(** Two triangles are all triangles; a point cloud is not. *)
Example two_triangles_all_triangles :
  (mesh ← @PolyData__init__ (stand_in true) (PyNdarray square_points)
             (PyNdarray two_triangles) PyNone PyNone PyNone false;
   Ok (is_all_triangles mesh)) = Ok true.
Proof. reflexivity. Qed.

Example point_cloud_not_all_triangles :
  (mesh ← @PolyData__init__ (stand_in true) (PyNdarray square_points)
             PyNone PyNone PyNone PyNone false;
   Ok (PolyData_verts mesh, is_all_triangles mesh))
  = Ok (id_array [1; 0; 1; 1; 1; 2; 1; 3], false).
Proof. reflexivity. Qed.

(** Removing cell 0 of the two-cell mesh in place. *)
Example remove_first_cell :
  (r ← remove_cells one_mesh_store 1%positive (PyList [PyInt 0]) true;
   Ok (fst r !! 1%positive, snd r))
  = Ok (Some {| ds_class := PolyDataMesh;
                ds_cells := [(5, [0; 2; 3])];
                ds_cell_arrays := {[ "quality" := {| dtype := np_int64; shape := [1%nat];
                                                     data := [20] |} ]} |},
        None).
Proof. vm_compute. reflexivity. Qed.
(** *** Further properties on concrete inputs *)

Lemma is_all_triangles_faces_witness :
  is_all_triangles triangle_mesh = true
  <-> [[0; 1; 2]; [0; 2; 3]] <> []
      /\ Forall (fun c : list Z => length c = 3%nat) [[0; 1; 2]; [0; 2; 3]]
      /\ GetData (pd_lines triangle_mesh) = [] /\ GetData (pd_verts triangle_mesh) = [].
Proof.
  apply (is_all_triangles_faces triangle_mesh [[0; 1; 2]; [0; 2; 3]]). reflexivity.
Defined.

Lemma PolyData_init_from_file_witness :
  exists self,
    @PolyData__init__ (stand_in_reading corners_only) (PyStr "corners.ply")
      PyNone PyNone PyNone PyNone false = Ok self
    /\ pd_points self = pd_points corners_only
    /\ pd_lines self = pd_lines corners_only /\ pd_polys self = pd_polys corners_only
    /\ pd_strips self = pd_strips corners_only
    /\ (0 < PolyData_n_points corners_only -> PolyData_n_cells corners_only = 0 ->
        PolyData_verts self
        = id_array (vertex_cells (Z.to_nat (PolyData_n_points corners_only)))
        /\ GetNumberOfCells (pd_verts self) = PolyData_n_points corners_only)
    /\ (~ (0 < PolyData_n_points corners_only /\ PolyData_n_cells corners_only = 0) ->
        self = corners_only).
Proof.
  apply (@PolyData_init_from_file (stand_in_reading corners_only) (PyStr "corners.ply")
           PyNone PyNone PyNone PyNone "corners.ply" corners_only false).
  - left. reflexivity.
  - reflexivity.
  - reflexivity.
  - reflexivity.
  - reflexivity.
Defined.


(** An empty tuple for [faces] and the float 0.0 for [n_faces] count as
    not set, and the file is read; a tuple with entries is refused. *)
Example PolyData_init_falsy_objects :
  (exists self,
     @PolyData__init__ (stand_in_reading corners_only) (PyStr "corners.ply")
       (PyOther "tuple" false) (PyOther "float" false) PyNone PyNone false = Ok self)
  /\ (exists msg,
        @PolyData__init__ (stand_in_reading corners_only) (PyStr "corners.ply")
          (PyOther "tuple" true) PyNone PyNone PyNone false = Raise (ValueError msg)).
Proof. split; eexists; vm_compute; reflexivity. Qed.

Lemma PolyData_init_lines_witness :
  (exists self,
     @PolyData__init__ (stand_in true) (PyNdarray square_points) PyNone PyNone
       (PyNdarray one_line) PyNone false = Ok self
     /\ data (PolyData_lines self) = data one_line
     /\ data (PolyData_verts self) = []
     /\ data (PolyData_faces self) = []
     /\ pd_points self = Some {| pts_data := square_points |})
  /\ (is_padded_array two_triangles -> is_count PyNone ->
      exists self,
        @PolyData__init__ (stand_in true) (PyNdarray square_points)
          (PyNdarray two_triangles) PyNone (PyNdarray one_line) PyNone false = Ok self
        /\ data (PolyData_faces self) = data two_triangles
        /\ data (PolyData_lines self) = data one_line
        /\ data (PolyData_verts self) = []
        /\ pd_points self = Some {| pts_data := square_points |}).
Proof.
  apply (@PolyData_init_lines (stand_in true) square_points two_triangles one_line
           {| pts_data := square_points |} PyNone PyNone false).
  - split; [reflexivity|]. split; [reflexivity|]. split.
    + repeat constructor.
    + exists [[0; 2]]. reflexivity.
  - left. reflexivity.
  - reflexivity.
Defined.

Lemma UnstructuredGrid_init_TypeError_witness :
  exists msg, @UnstructuredGrid__init__ (stand_in true) [PyInt 5] false
              = Raise (TypeError msg).
Proof.
  apply (@UnstructuredGrid_init_TypeError (stand_in true) [PyInt 5] false). reflexivity.
Defined.

Lemma UnstructuredGrid_init_arrays_readback_witness :
  exists g,
    @UnstructuredGrid__init__ (stand_in true)
      [PyNdarray two_triangles; PyNdarray triangle_types; PyNdarray square_points] false
    = Ok g
    /\ data (UnstructuredGrid_cells g) = data two_triangles
    /\ data (UnstructuredGrid_celltypes g)
       = map (convert float_convert_same (dtype triangle_types) np_uint8)
             (data triangle_types)
    /\ data (@UnstructuredGrid_offset (stand_in true) g)
       = offsets_from 0 [[0; 1; 2]; [0; 2; 3]]
    /\ @cell_connectivity (stand_in true) g
       = Ok (id_array (concat [[0; 1; 2]; [0; 2; 3]]))
    /\ UnstructuredGrid_n_cells g = Z.of_nat (length [[0; 1; 2]; [0; 2; 3]])
    /\ ug_points g = Some {| pts_data := square_points |}.
Proof.
  apply (@UnstructuredGrid_init_arrays_readback (stand_in true) two_triangles
           triangle_types square_points [[0; 1; 2]; [0; 2; 3]]
           {| pts_data := square_points |} false).
  - reflexivity.
  - reflexivity.
  - repeat constructor.
  - reflexivity.
  - reflexivity.
  - reflexivity.
Defined.

Lemma UnstructuredGrid_init_legacy_readback_witness :
  exists g,
    @UnstructuredGrid__init__ (stand_in false)
      [PyNdarray triangle_offsets; PyNdarray two_triangles; PyNdarray triangle_types;
       PyNdarray square_points] false = Ok g
    /\ data (@UnstructuredGrid_offset (stand_in false) g)
       = map (convert float_convert_same (dtype triangle_offsets) ID_TYPE)
             (data triangle_offsets)
    /\ data (UnstructuredGrid_cells g)
       = map (convert float_convert_same (dtype two_triangles) ID_TYPE) (data two_triangles)
    /\ data (UnstructuredGrid_celltypes g)
       = map (convert float_convert_same (dtype triangle_types) np_uint8)
             (data triangle_types)
    /\ UnstructuredGrid_n_cells g = Z.of_nat (np_size triangle_types)
    /\ ug_points g = Some {| pts_data := square_points |}.
Proof.
  apply (@UnstructuredGrid_init_legacy_readback (stand_in false) triangle_offsets
           two_triangles triangle_types square_points {| pts_data := square_points |} false).
  - reflexivity.
  - reflexivity.
  - reflexivity.
  - reflexivity.
Defined.

Lemma UnstructuredGrid_init_offset_ignored_witness :
  @UnstructuredGrid__init__ (stand_in true)
    [PyNdarray triangle_offsets; PyNdarray two_triangles; PyNdarray triangle_types;
     PyNdarray square_points] false
  = @UnstructuredGrid__init__ (stand_in true)
      [PyNdarray two_triangles; PyNdarray triangle_types; PyNdarray square_points] false.
Proof.
  apply (@UnstructuredGrid_init_offset_ignored (stand_in true) triangle_offsets
           two_triangles triangle_types square_points false).
  reflexivity.
Defined.

Lemma UnstructuredGrid_init_dict_points_shape_witness :
  @UnstructuredGrid__init__ (stand_in true)
    [PyDict (dict_items triangles_and_line); PyNdarray flat_points] false
  = Raise (ValueError "Points array must be a [M, 3] array").
Proof.
  apply (@UnstructuredGrid_init_dict_points_shape (stand_in true)
           (dict_items triangles_and_line) flat_points false).
  left. cbn. lia.
Defined.

Lemma quadratic_cells_sized : Forall2 quadratic_sized quadratic_types quadratic_cells.
Proof. repeat constructor; intros [=]. Qed.

Lemma linear_copy_cells_witness :
  exists g,
    @linear_copy (stand_in true)
      (@mixed_grid (stand_in true) (@vtkUnstructuredGrid_new (stand_in true))
         {| pts_data := square_points |} quadratic_types quadratic_cells) false = Ok g
    /\ data (UnstructuredGrid_celltypes g) = map linear_type quadratic_types
    /\ data (UnstructuredGrid_cells g)
       = padded (zip_with linear_cell quadratic_types quadratic_cells)
    /\ (forall conn, @cell_connectivity (stand_in true) g = Ok conn ->
          data conn = concat (zip_with linear_cell quadratic_types quadratic_cells))
    /\ ug_points g = Some {| pts_data := square_points |}.
Proof.
  apply (@linear_copy_cells (stand_in true) (@vtkUnstructuredGrid_new (stand_in true))
           {| pts_data := square_points |} quadratic_types quadratic_cells false).
  - reflexivity.
  - exact quadratic_cells_sized.
Defined.

Lemma linear_copy_idempotent_witness :
  @linear_copy (stand_in false)
    (@mixed_grid (stand_in false) (@vtkUnstructuredGrid_new (stand_in false))
       {| pts_data := square_points |} (map linear_type quadratic_types)
       (zip_with linear_cell quadratic_types quadratic_cells)) false
  = Ok (@mixed_grid (stand_in false) (@vtkUnstructuredGrid_new (stand_in false))
          {| pts_data := square_points |} (map linear_type quadratic_types)
          (zip_with linear_cell quadratic_types quadratic_cells)).
Proof.
  apply (@linear_copy_idempotent (stand_in false) (@vtkUnstructuredGrid_new (stand_in false))
           {| pts_data := square_points |} quadratic_types quadratic_cells false).
  - reflexivity.
  - exact quadratic_cells_sized.
  - reflexivity.
Defined.

Lemma StructuredGrid_init_unmatched_witness :
  @StructuredGrid__init__ (stand_in true) [PyPath "grid.vts"] = Ok vtkStructuredGrid_new.
Proof.
  apply (@StructuredGrid_init_unmatched (stand_in true) [PyPath "grid.vts"]). reflexivity.
Defined.


Lemma hide_cells_effect_witness :
  exists self',
    hide_cells three_by_two (PyList (map PyInt [1])) = Ok self'
    /\ sg_cell_arrays self' !! GhostArrayName
       = Some {| dtype := np_uint8;
                 shape := [Z.to_nat (StructuredGrid_n_cells three_by_two)];
                 data := map (fun i => if hits 2 [1] i then HIDDENCELL else 0)
                             (seq 0 (Z.to_nat (StructuredGrid_n_cells three_by_two))) |}
    /\ (forall name, name <> GhostArrayName ->
          sg_cell_arrays self' !! name = sg_cell_arrays three_by_two !! name)
    /\ dimensions self' = dimensions three_by_two
    /\ sg_points self' = sg_points three_by_two
    /\ StructuredGrid_n_cells self' = StructuredGrid_n_cells three_by_two.
Proof.
  apply (hide_cells_effect three_by_two (PyList (map PyInt [1])) (hits 2 [1])).
  apply (cell_index_list 2 [1]). repeat constructor. cbn. eauto.
Defined.

Lemma hide_cells_not_cumulative_witness :
  hide_cells
    {| sg_dims := [3; 2; 1]; sg_points := None;
       sg_cell_arrays :=
         {[ GhostArrayName := {| dtype := np_uint8; shape := [2%nat];
                                 data := [HIDDENCELL; 0] |} ]} |}
    (PyList [PyInt 1])
  = hide_cells three_by_two (PyList [PyInt 1]).
Proof.
  apply (hide_cells_not_cumulative three_by_two _ (PyList [PyInt 0]) (PyList [PyInt 1])).
  reflexivity.
Defined.

Lemma PolyData_setters_roundtrip_witness :
  (exists self',
     @PolyData_set_verts (stand_in true) corners_only (NotCellArray (PyNdarray one_line))
     = Ok self'
     /\ data (PolyData_verts self') = data one_line
     /\ PolyData_lines self' = PolyData_lines corners_only
     /\ PolyData_faces self' = PolyData_faces corners_only
     /\ pd_points self' = pd_points corners_only)
  /\ (exists self',
        @PolyData_set_faces (stand_in true) corners_only (NotCellArray (PyNdarray one_line))
        = Ok self'
        /\ data (PolyData_faces self') = data one_line
        /\ PolyData_verts self' = PolyData_verts corners_only
        /\ PolyData_lines self' = PolyData_lines corners_only
        /\ pd_points self' = pd_points corners_only)
  /\ (exists self',
        @PolyData_set_lines (stand_in true) corners_only (NotCellArray (PyNdarray one_line))
        = Ok self'
        /\ PolyData_verts self' = PolyData_verts corners_only
        /\ PolyData_faces self' = PolyData_faces corners_only
        /\ pd_points self' = pd_points corners_only)
  /\ (forall c : vtkCellArray,
        @PolyData_set_faces (stand_in true) corners_only (IsCellArray c)
        = Ok (SetPolys corners_only c)
        /\ PolyData_faces (SetPolys corners_only c) = id_array (GetData c)).
Proof.
  apply (@PolyData_setters_roundtrip (stand_in true) corners_only one_line).
  split; [reflexivity|]. split; [reflexivity|]. split.
  - repeat constructor.
  - exists [[0; 2]]. reflexivity.
Defined.

Lemma points_matrix_components_witness :
  exists pm,
    points_matrix six_point_grid = Ok pm
    /\ shape pm = map Z.to_nat (dimensions six_point_grid) ++ [3%nat]
    /\ StructuredGrid_x six_point_grid = Ok (last_axis pm 0)
    /\ StructuredGrid_y six_point_grid = Ok (last_axis pm 1)
    /\ StructuredGrid_z six_point_grid = Ok (last_axis pm 2).
Proof.
  apply (points_matrix_components six_point_grid 6).
  - split; reflexivity.
  - repeat constructor; cbn; lia.
  - reflexivity.
Defined.

(** The same grids and calls, evaluated. *)
Example linear_copy_quadratic_cells :
  zip_with linear_cell quadratic_types quadratic_cells
  = [[0; 1; 2; 3; 0; 0; 0; 0]; [0; 1; 8; 0; 0; 0]; [0; 1; 2; 11; 4; 5; 6; 12; 13; 14]]
  /\ map linear_type quadratic_types = [9; 5; 10].
Proof. split; reflexivity. Qed.

Example hide_one_then_the_other :
  (g ← hide_cells three_by_two (PyList [PyInt 0]);
   g ← hide_cells g (PyList [PyInt 1]);
   Ok (data <$> sg_cell_arrays g !! GhostArrayName))
  = Ok (Some [0; 32]).
Proof. reflexivity. Qed.

Example getitem_plane :
  StructuredGrid__getitem__ three_by_two
    [KeySlice None None None; KeyInt 1; KeySlice (Some 0) (Some 1) None]
  = Ok ([0; 3; 1; 1; 0; 0], [1; 1; 1]).
Proof. reflexivity. Qed.

Example reshape_two_values :
  _reshape_cell_array three_by_two two_values
  = Ok {| dtype := np_int64; shape := [2%nat; 1%nat; 1%nat]; data := [10; 20] |}
  /\ exists msg, _reshape_cell_array vtkStructuredGrid_new two_values
                 = Raise (ValueError msg).
Proof. split; [reflexivity | eexists; reflexivity]. Qed.

Example points_matrix_six_points :
  points_matrix six_point_grid
  = Ok {| dtype := np_int64; shape := [2%nat; 3%nat; 1%nat; 3%nat];
          data := [0; 0; 7;  0; 1; 7;  0; 2; 7;  1; 0; 7;  1; 1; 7;  1; 2; 7] |}.
Proof. reflexivity. Qed.

Example save_keeps_the_normals :
  fst (PolyData_save (fun f => f) (fun _ => ".stl") (fun _ => corners_only)
         (fun _ _ _ => Ok tt) triangle_mesh "mesh.stl" true)
  = triangle_mesh.
Proof. reflexivity. Qed.
